(** * Live-Variant: the colour-remap node graph of [utils/color_remap.py]

    A shallow embedding of [apply_color_remaps] (utils/color_remap.py),
    [apply_multi_remap] (utils/multi_remap_controller.py), the helpers of
    [utils/texture_setup.py] and the operators of [utils/ui.py].

    The Python code does not compute colours itself: it builds a shader node
    tree (nodes, socket default values and links) inside a fresh material and
    assigns that material to the variant object.  The embedding therefore has
    these layers:

    - the node tree as data ([Node], [NodeTree]) with the collection
      operations the code calls ([nodes_new], [links_new], attribute
      assignments), translated statement by statement;
    - the meaning of the node types the code instantiates ([node_eval],
      [eval_output]): what a tree computes for one texture sample;
    - the scene data the functions read and write ([BlendData], [Session]):
      materials, mesh material slots, objects, images;
    - the outcome of a call: a Python function returns or raises, and what
      it changed before raising stays changed ([outcome]).

    Channel values are real numbers: the general properties of the graph are
    stated in exact arithmetic.  The host computes in single precision;
    [Single] replays the arithmetic of one pair in binary32, bit for bit,
    where a property depends on it, and object coordinates are kept in that
    format. *)

From Stdlib Require Import String.
From Stdlib Require Import Reals Lra Lia ZArith Bool Arith List.
From Stdlib Require Import Floats.SpecFloat.
Import ListNotations.

Open Scope string_scope.
Open Scope list_scope.
Open Scope R_scope.

(** ** Colours, vectors and socket values *)

(** A colour is the 4-tuple (R, G, B, A) of the remap pairs. *)
Record color : Type := RGBA { red : R; green : R; blue : R; alpha : R }.

(** A vector socket carries three components. *)
Record vec3 : Type := XYZ { vx : R; vy : R; vz : R }.

Inductive value : Type :=
| VFloat (x : R)
| VVector (v : vec3)
| VColor (c : color)
| VShader (base_color : color).

(** An input socket either owns a default value of its type or, for a
    shader input such as "Surface", has none. *)
Inductive input : Type :=
| In_value (default_value : value)
| In_shader.

Definition Image := string.

(** [1e-5], the floor of the divisor in line 106. *)
Definition eps : R := 1 / 100000.

(** The blend of a Mix node (blend type Mix) on one channel, in the form
    the host evaluates it: [a + f * (b - a)]. *)
Definition mix1 (a b f : R) : R := a + f * (b - a).

Definition mix_blend (a b : color) (f : R) : color :=
  RGBA (mix1 (red a) (red b) f) (mix1 (green a) (green b) f)
       (mix1 (blue a) (blue b) f) (mix1 (alpha a) (alpha b) f).

(** What a colour socket keeps of a colour assigned to its
    [default_value]: the host stores no channel below 0. *)
Definition socket_color (c : color) : color :=
  RGBA (Rmax (red c) 0) (Rmax (green c) 0) (Rmax (blue c) 0) (Rmax (alpha c) 0).

Definition clamp (v lo hi : R) : R := Rmin (Rmax v lo) hi.

(** Division as the Math node performs it: a zero divisor gives 0. *)
Definition safe_divide (a b : R) : R :=
  if Req_dec_T b 0 then 0 else a / b.

Definition vec_distance (p q : vec3) : R :=
  sqrt (Rsqr (vx p - vx q) + Rsqr (vy p - vy q) + Rsqr (vz p - vz q)).

(** What a link does when the two sockets differ in type.  A colour that
    enters a vector socket keeps R, G, B as X, Y, Z. *)
Definition color_to_vector (c : color) : vec3 := XYZ (red c) (green c) (blue c).

Definition coerce (like v : value) : option value :=
  match like, v with
  | VFloat _, VFloat _ => Some v
  | VVector _, VVector _ => Some v
  | VColor _, VColor _ => Some v
  | VShader _, VShader _ => Some v
  | VVector _, VColor c => Some (VVector (color_to_vector c))
  | VColor _, VVector p => Some (VColor (RGBA (vx p) (vy p) (vz p) 1))
  | VVector _, VFloat x => Some (VVector (XYZ x x x))
  | VColor _, VFloat x => Some (VColor (RGBA x x x 1))
  | _, _ => None
  end.

(** ** Nodes *)

(** The node classes named in the source ([nt.nodes.new("...")]). *)
Inductive idname : Type :=
| ShaderNodeOutputMaterial
| ShaderNodeBsdfPrincipled
| ShaderNodeTexImage
| ShaderNodeRGB
| ShaderNodeVectorMath
| ShaderNodeMath
| ShaderNodeClamp
| ShaderNodeMixRGB.

(** [n.type], the string compared in line 50. *)
Definition node_type (k : idname) : string :=
  match k with
  | ShaderNodeOutputMaterial => "OUTPUT_MATERIAL"
  | ShaderNodeBsdfPrincipled => "BSDF_PRINCIPLED"
  | ShaderNodeTexImage => "TEX_IMAGE"
  | ShaderNodeRGB => "RGB"
  | ShaderNodeVectorMath => "VECT_MATH"
  | ShaderNodeMath => "MATH"
  | ShaderNodeClamp => "CLAMP"
  | ShaderNodeMixRGB => "MIX_RGB"
  end.

(** The [operation] property of Math and Vector Math nodes. *)
Inductive operation_t : Type := ADD | SUBTRACT | DIVIDE | DISTANCE.

Record Node : Type := mkNode {
  bl_idname : idname;
  location : Z * Z;
  operation : operation_t;
  image : option Image;
  (** [outputs[0].default_value], the colour shown by an RGB node *)
  output_color : color;
  (** the input sockets, by index, with their default values *)
  inputs : list input
}.

(** Sockets are addressed by (node, index).  The names used in the source
    resolve to these indices. *)
Definition socket : Type := nat * nat.

Module Sock.
(* outputs *)
Definition TexImage_Color := 0%nat.
Definition TexImage_Alpha := 1%nat.
Definition RGB_Color := 0%nat.
Definition VectorMath_Vector := 0%nat.
Definition VectorMath_Value := 1%nat.
Definition Math_Value := 0%nat.
Definition Clamp_Result := 0%nat.
Definition MixRGB_Color := 0%nat.
Definition Bsdf_BSDF := 0%nat.
(* inputs *)
Definition Clamp_in_Value := 0%nat.
Definition MixRGB_Fac := 0%nat.
Definition Bsdf_Base_Color := 0%nat.
Definition Output_Surface := 0%nat.
End Sock.

Definition grey : color := RGBA (1/2) (1/2) (1/2) 1.
Definition zero3 : vec3 := XYZ 0 0 0.

(** Sockets of a freshly created node, with the defaults of the host. *)
Definition default_inputs (k : idname) : list input :=
  match k with
  | ShaderNodeOutputMaterial => [In_shader]
  | ShaderNodeBsdfPrincipled => [In_value (VColor (RGBA (8/10) (8/10) (8/10) 1))]
  | ShaderNodeTexImage => [In_value (VVector zero3)]
  | ShaderNodeRGB => []
  | ShaderNodeVectorMath =>
      [In_value (VVector zero3); In_value (VVector zero3);
       In_value (VVector zero3); In_value (VFloat 1)]
  | ShaderNodeMath =>
      [In_value (VFloat (1/2)); In_value (VFloat (1/2)); In_value (VFloat (1/2))]
  | ShaderNodeClamp =>
      [In_value (VFloat 1); In_value (VFloat 0); In_value (VFloat 1)]
  | ShaderNodeMixRGB =>
      [In_value (VFloat (1/2)); In_value (VColor grey); In_value (VColor grey)]
  end.

Definition default_node (k : idname) : Node :=
  {| bl_idname := k; location := (0, 0)%Z; operation := ADD; image := None;
     output_color := grey; inputs := default_inputs k |}.

(** ** Node trees *)

Record Link : Type := mkLink { from_socket : socket; to_socket : socket }.

Record NodeTree : Type := mkTree { nodes : list Node; links : list Link }.

Definition socket_eqb (p q : socket) : bool :=
  Nat.eqb (fst p) (fst q) && Nat.eqb (snd p) (snd q).

(** [nt.nodes.new(k)]: the new node is appended; its handle is its index. *)
Definition nodes_new (k : idname) (nt : NodeTree) : nat * NodeTree :=
  (length (nodes nt),
   {| nodes := nodes nt ++ [default_node k]; links := links nt |}).

(** [nt.nodes.clear()] removes every node, and with them every link. *)
Definition nodes_clear (nt : NodeTree) : NodeTree :=
  {| nodes := []; links := [] |}.

Fixpoint list_update {A} (l : list A) (i : nat) (f : A -> A) : list A :=
  match l, i with
  | [], _ => []
  | x :: l', O => f x :: l'
  | x :: l', S i' => x :: list_update l' i' f
  end.

(** An attribute assignment on the node with handle [n]. *)
Definition node_set (n : nat) (f : Node -> Node) (nt : NodeTree) : NodeTree :=
  {| nodes := list_update (nodes nt) n f; links := links nt |}.

Definition set_location (xy : Z * Z) (nd : Node) : Node :=
  {| bl_idname := bl_idname nd; location := xy; operation := operation nd;
     image := image nd; output_color := output_color nd; inputs := inputs nd |}.

Definition set_operation (o : operation_t) (nd : Node) : Node :=
  {| bl_idname := bl_idname nd; location := location nd; operation := o;
     image := image nd; output_color := output_color nd; inputs := inputs nd |}.

Definition set_image (i : Image) (nd : Node) : Node :=
  {| bl_idname := bl_idname nd; location := location nd;
     operation := operation nd; image := Some i;
     output_color := output_color nd; inputs := inputs nd |}.

(** The colour [c] as the value of the node's first output socket. *)
Definition store_color (c : color) (nd : Node) : Node :=
  {| bl_idname := bl_idname nd; location := location nd;
     operation := operation nd; image := image nd;
     output_color := c; inputs := inputs nd |}.

(** [nd.outputs[0].default_value = c] for a sequence [c] of four floats. *)
Definition set_output_color (c : color) (nd : Node) : Node :=
  store_color (socket_color c) nd.

(** [nd.inputs[i].default_value = x] for a scalar socket *)
Definition set_input_default (i : nat) (x : R) (nd : Node) : Node :=
  {| bl_idname := bl_idname nd; location := location nd;
     operation := operation nd; image := image nd;
     output_color := output_color nd;
     inputs := list_update (inputs nd) i (fun _ => In_value (VFloat x)) |}.

(** [nt.links.new(src, dst)].  An input socket holds one link: a link
    already ending in [dst] is removed before the new one is added. *)
Definition links_new (src dst : socket) (nt : NodeTree) : NodeTree :=
  {| nodes := nodes nt;
     links := filter (fun l => negb (socket_eqb (to_socket l) dst)) (links nt)
              ++ [mkLink src dst] |}.

(** The output socket linked into input socket [dst], if any. *)
Definition link_to (nt : NodeTree) (dst : socket) : option socket :=
  option_map from_socket
    (find (fun l => socket_eqb (to_socket l) dst) (links nt)).

(** ** What a node tree computes

    [sample] is the texel the image texture delivers at the shaded point.
    Only the node types and operations the two source files create are given
    a meaning; everything else evaluates to [None].

    - Image Texture: "Color" is the texel of its image, "Alpha" its alpha.
    - RGB: "Color" is the colour stored on the output socket.
    - Vector Math, DISTANCE: "Value" is the Euclidean distance of the two
      vector inputs; a vector socket carries three components.
    - Math: ADD, SUBTRACT, DIVIDE on the first two inputs.
    - Clamp (Min Max): the value limited to [Min, Max]; the sockets Min and
      Max default to 0 and 1.
    - MixRGB (blend type Mix): the factor limited to [0, 1], then
      [c1 + fac * (c2 - c1)], channel by channel.
    - Principled BSDF: a shader, of which the model keeps the Base Color.  *)

Definition node_eval (sample : Image -> color) (nd : Node)
    (inp : nat -> option value) (out : nat) : option value :=
  match bl_idname nd, out with
  | ShaderNodeTexImage, 0%nat =>
      option_map (fun i => VColor (sample i)) (image nd)
  | ShaderNodeTexImage, 1%nat =>
      option_map (fun i => VFloat (alpha (sample i))) (image nd)
  | ShaderNodeRGB, 0%nat => Some (VColor (output_color nd))
  | ShaderNodeVectorMath, 1%nat =>
      match operation nd, inp 0%nat, inp 1%nat with
      | DISTANCE, Some (VVector p), Some (VVector q) =>
          Some (VFloat (vec_distance p q))
      | _, _, _ => None
      end
  | ShaderNodeMath, 0%nat =>
      match inp 0%nat, inp 1%nat with
      | Some (VFloat x), Some (VFloat y) =>
          match operation nd with
          | ADD => Some (VFloat (x + y))
          | SUBTRACT => Some (VFloat (x - y))
          | DIVIDE => Some (VFloat (safe_divide x y))
          | DISTANCE => None
          end
      | _, _ => None
      end
  | ShaderNodeClamp, 0%nat =>
      match inp 0%nat, inp 1%nat, inp 2%nat with
      | Some (VFloat v), Some (VFloat lo), Some (VFloat hi) =>
          Some (VFloat (clamp v lo hi))
      | _, _, _ => None
      end
  | ShaderNodeMixRGB, 0%nat =>
      match inp 0%nat, inp 1%nat, inp 2%nat with
      | Some (VFloat fac), Some (VColor c1), Some (VColor c2) =>
          Some (VColor (mix_blend c1 c2 (clamp fac 0 1)))
      | _, _, _ => None
      end
  | ShaderNodeBsdfPrincipled, 0%nat =>
      match inp 0%nat with
      | Some (VColor c) => Some (VShader c)
      | _ => None
      end
  | _, _ => None
  end.

(** The value that reaches input [i] of node [n]: the linked output,
    converted to the socket's type, or the socket's own default. *)
Definition input_value (ev : socket -> option value) (nt : NodeTree)
    (n : nat) (nd : Node) (i : nat) : option value :=
  match nth_error (inputs nd) i with
  | None => None
  | Some sk =>
      match link_to nt (n, i) with
      | Some src =>
          match ev src, sk with
          | Some v, In_value d => coerce d v
          | Some (VShader c), In_shader => Some (VShader c)
          | _, _ => None
          end
      | None =>
          match sk with
          | In_value d => Some d
          | In_shader => None
          end
      end
  end.

Fixpoint eval_output (fuel : nat) (sample : Image -> color) (nt : NodeTree)
    (s : socket) : option value :=
  match fuel with
  | O => None
  | S fuel' =>
      match nth_error (nodes nt) (fst s) with
      | None => None
      | Some nd =>
          node_eval sample nd
            (input_value (eval_output fuel' sample nt) nt (fst s) nd) (snd s)
      end
  end.

Definition eval_input (fuel : nat) (sample : Image -> color) (nt : NodeTree)
    (s : socket) : option value :=
  match nth_error (nodes nt) (fst s) with
  | None => None
  | Some nd => input_value (eval_output fuel sample nt) nt (fst s) nd (snd s)
  end.

(** ** Python values and outcomes *)

(** The exceptions the modelled calls raise. *)
Inductive exn : Type :=
  ValueError | AttributeError | RuntimeError | TypeError | OSError.

(** A call returns a value or raises.  The state the call leaves is kept
    beside the outcome: what was changed before a [raise] stays changed. *)
Inductive outcome (A : Type) : Type :=
| Return (a : A)
| Raise (e : exn).

Arguments Return {A} a.
Arguments Raise {A} e.

(** A colour as a caller passes it: a Python sequence of floats, of any
    length. *)
Definition py_color : Type := list R.

(** A colour socket takes a sequence of exactly four floats. *)
Definition color_of_seq (l : py_color) : option color :=
  match l with
  | [r; g; b; a] => Some (RGBA r g b a)
  | _ => None
  end.

Definition seq_of_color (c : color) : py_color :=
  [red c; green c; blue c; alpha c].

(** Pairs of four-channel colours, as the argument [remap_pairs]. *)
Definition py_pair (p : color * color) : py_color * py_color :=
  (seq_of_color (fst p), seq_of_color (snd p)).

Definition py_pairs (pairs : list (color * color)) : list (py_color * py_color) :=
  List.map py_pair pairs.

(** ** The remap chain of [apply_color_remaps] (lines 77-116) *)

(** One turn of the [for] loop: [i] is the index from [enumerate],
    [last_color_output] the socket left by the previous turn.  The
    assignments of lines 97 and 98 raise when the sequence has not four
    items; the nodes created before stay in the tree. *)
Definition remap_iteration (tolerance : R) (i : nat)
    (source_color target_color : py_color)
    (nt : NodeTree) (last_color_output : socket) : NodeTree * outcome socket :=
  let '(src_col, nt) := nodes_new ShaderNodeRGB nt in
  let '(tgt_col, nt) := nodes_new ShaderNodeRGB nt in
  let '(dist, nt) := nodes_new ShaderNodeVectorMath nt in
  let '(div, nt) := nodes_new ShaderNodeMath nt in
  let '(sub, nt) := nodes_new ShaderNodeMath nt in
  let '(clamp, nt) := nodes_new ShaderNodeClamp nt in
  let '(mix, nt) := nodes_new ShaderNodeMixRGB nt in
  let offset_y := (- Z.of_nat i * 250)%Z in
  let nt := node_set src_col (set_location (-600, 200 + offset_y)%Z) nt in
  let nt := node_set tgt_col (set_location (-600, -100 + offset_y)%Z) nt in
  let nt := node_set dist (set_location (-350, 50 + offset_y)%Z) nt in
  let nt := node_set div (set_location (-100, 50 + offset_y)%Z) nt in
  let nt := node_set sub (set_location (150, 50 + offset_y)%Z) nt in
  let nt := node_set clamp (set_location (400, 50 + offset_y)%Z) nt in
  let nt := node_set mix (set_location (250, -200 + offset_y)%Z) nt in
  match color_of_seq source_color with
  | None => (nt, Raise ValueError)
  | Some source =>
      let nt := node_set src_col (set_output_color source) nt in
      match color_of_seq target_color with
      | None => (nt, Raise ValueError)
      | Some target =>
          let nt := node_set tgt_col (set_output_color target) nt in
          let nt := node_set dist (set_operation DISTANCE) nt in
          let nt := node_set div (set_operation DIVIDE) nt in
          let nt := node_set sub (set_operation SUBTRACT) nt in
          let nt := links_new last_color_output (dist, 0%nat) nt in
          let nt := links_new (src_col, Sock.RGB_Color) (dist, 1%nat) nt in
          let nt := node_set div (set_input_default 1 (Rmax tolerance eps)) nt in
          let nt := links_new (dist, Sock.VectorMath_Value) (div, 0%nat) nt in
          let nt := node_set sub (set_input_default 0 1) nt in
          let nt := links_new (div, Sock.Math_Value) (sub, 1%nat) nt in
          let nt := links_new (sub, Sock.Math_Value) (clamp, Sock.Clamp_in_Value) nt in
          let nt := links_new last_color_output (mix, 1%nat) nt in
          let nt := links_new (tgt_col, Sock.RGB_Color) (mix, 2%nat) nt in
          let nt := links_new (clamp, Sock.Clamp_Result) (mix, Sock.MixRGB_Fac) nt in
          (nt, Return (mix, Sock.MixRGB_Color))
      end
  end.

(** The loop over [enumerate(remap_pairs)], started at index [i]; a turn
    that raises ends it. *)
Fixpoint remap_loop (tolerance : R) (i : nat)
    (remap_pairs : list (py_color * py_color))
    (nt : NodeTree) (last_color_output : socket) : NodeTree * outcome socket :=
  match remap_pairs with
  | [] => (nt, Return last_color_output)
  | (source_color, target_color) :: rest =>
      match remap_iteration tolerance i source_color target_color
                            nt last_color_output with
      | (nt, Return last_color_output) =>
          remap_loop tolerance (S i) rest nt last_color_output
      | (nt, Raise e) => (nt, Raise e)
      end
  end.

(** Lines 60-120: the node tree of the remap material, from the tree of a
    new material.  Returns the tree and the handle of the Principled BSDF,
    or the tree as the raising turn left it. *)
Definition build_remap_tree (src_img : Image)
    (remap_pairs : list (py_color * py_color))
    (tolerance : R) (nt : NodeTree) : NodeTree * outcome nat :=
  let nt := nodes_clear nt in
  let '(out, nt) := nodes_new ShaderNodeOutputMaterial nt in
  let '(bsdf, nt) := nodes_new ShaderNodeBsdfPrincipled nt in
  let '(tex, nt) := nodes_new ShaderNodeTexImage nt in
  let nt := node_set tex (set_image src_img) nt in
  let nt := node_set tex (set_location (-800, 0)%Z) nt in
  let nt := node_set bsdf (set_location (600, 0)%Z) nt in
  let nt := node_set out (set_location (900, 0)%Z) nt in
  let last_color_output := (tex, Sock.TexImage_Color) in
  match remap_loop tolerance 0 remap_pairs nt last_color_output with
  | (nt, Raise e) => (nt, Raise e)
  | (nt, Return last_color_output) =>
      let nt := links_new last_color_output (bsdf, Sock.Bsdf_Base_Color) nt in
      let nt := links_new (bsdf, Sock.Bsdf_BSDF) (out, Sock.Output_Surface) nt in
      (nt, Return bsdf)
  end.

(** ** Scene data

    Materials live in [bpy.data.materials]; a material handle is its index
    there.  Material slots belong to the mesh datablock ([obj.data]), which
    two objects may share; a slot may be empty.  An object that is no mesh
    (an empty, a camera) has no such datablock.

    The host names a new datablock itself: it is asked for a name and
    answers with one that no datablock of the collection bears, cut to its
    length limit.  [unique_name] is that rule, applied to the names in use
    and the name asked for. *)

Record Material : Type := mkMaterial {
  mat_name : string;
  use_nodes : bool;
  node_tree : NodeTree
}.

Record Object : Type := mkObject {
  name : string;
  (** the mesh datablock, [None] where [obj.data] has no material slots *)
  data : option nat;
  active_material_index : nat
}.

Record BlendData : Type := mkData {
  materials : list Material;
  mesh_materials : nat -> list (option nat);
  unique_name : list string -> string -> string
}.

Definition empty_tree : NodeTree := {| nodes := []; links := [] |}.

(** The tree a material receives when nodes are first switched on. *)
Definition default_material_tree : NodeTree :=
  {| nodes := [default_node ShaderNodeBsdfPrincipled;
               default_node ShaderNodeOutputMaterial];
     links := [mkLink (0%nat, Sock.Bsdf_BSDF) (1%nat, Sock.Output_Surface)] |}.

Definition material_names (d : BlendData) : list string :=
  List.map mat_name (materials d).

(** [bpy.data.materials.new(name=...)] *)
Definition materials_new (nm : string) (d : BlendData) : nat * BlendData :=
  (length (materials d),
   {| materials :=
        materials d
        ++ [mkMaterial (unique_name d (material_names d) nm) false empty_tree];
      mesh_materials := mesh_materials d;
      unique_name := unique_name d |}).

Definition material_set (m : nat) (f : Material -> Material) (d : BlendData)
    : BlendData :=
  {| materials := list_update (materials d) m f;
     mesh_materials := mesh_materials d;
     unique_name := unique_name d |}.

(** [mat.node_tree] *)
Definition material_tree (d : BlendData) (m : nat) : NodeTree :=
  match nth_error (materials d) m with
  | Some mt => node_tree mt
  | None => empty_tree
  end.

(** [mat.use_nodes = True] *)
Definition enable_nodes (mt : Material) : Material :=
  {| mat_name := mat_name mt; use_nodes := true;
     node_tree := if use_nodes mt then node_tree mt else default_material_tree |}.

Definition set_node_tree (nt : NodeTree) (mt : Material) : Material :=
  {| mat_name := mat_name mt; use_nodes := use_nodes mt; node_tree := nt |}.

(** [mat.copy()]: a new datablock with the same contents, named after the
    original. *)
Definition material_copy (m : nat) (d : BlendData) : option (nat * BlendData) :=
  match nth_error (materials d) m with
  | None => None
  | Some mt =>
      Some (length (materials d),
            {| materials :=
                 materials d
                 ++ [mkMaterial (unique_name d (material_names d) (mat_name mt))
                                (use_nodes mt) (node_tree mt)];
               mesh_materials := mesh_materials d;
               unique_name := unique_name d |})
  end.

Definition mesh_set (me : nat) (slots : list (option nat)) (d : BlendData)
    : BlendData :=
  {| materials := materials d;
     mesh_materials := fun k => if Nat.eqb k me then slots else mesh_materials d k;
     unique_name := unique_name d |}.

(** [me.materials.clear()] and [me.materials.append(m)] *)
Definition mesh_materials_clear (me : nat) (d : BlendData) : BlendData :=
  mesh_set me [] d.

Definition mesh_materials_append (me m : nat) (d : BlendData) : BlendData :=
  mesh_set me (mesh_materials d me ++ [Some m]) d.

(** [obj.active_material]: the material in the active slot, or [None]. *)
Definition active_material (d : BlendData) (o : Object) : option nat :=
  match data o with
  | None => None
  | Some me =>
      match nth_error (mesh_materials d me) (active_material_index o) with
      | Some (Some m) => Some m
      | _ => None
      end
  end.

(** Lines 49-52: the image of the first image-texture node that has one. *)
Fixpoint find_image (ns : list Node) : option Image :=
  match ns with
  | [] => None
  | n :: rest =>
      if String.eqb (node_type (bl_idname n)) "TEX_IMAGE" then
        match image n with
        | Some img => Some img
        | None => find_image rest
        end
      else find_image rest
  end.

(** Lines 46-52: [src_img] for the base object's active material. *)
Definition source_image (base_mat : Material) : option Image :=
  if use_nodes base_mat then find_image (nodes (node_tree base_mat)) else None.

(** ** [apply_color_remaps]

    The result is the scene data after the call and its outcome: the
    returned material handle ([None] is Python's [None]) or the exception.
    The call raises after line 58 has created the material when a colour of
    a pair has not four channels (lines 97-98) and when the variant object
    has no mesh data (line 123).  The messages printed on the way are not
    part of the model. *)
Definition apply_color_remaps (d : BlendData) (base_obj variant_obj : option Object)
    (remap_pairs : list (py_color * py_color)) (tolerance : R)
    : BlendData * outcome (option nat) :=
  match base_obj, variant_obj with
  | Some base, Some variant =>
      match active_material d base with
      | None => (d, Return None)
      | Some base_handle =>
          match nth_error (materials d) base_handle with
          | None => (d, Return None)
          | Some base_mat =>
              match source_image base_mat with
              | None => (d, Return None)
              | Some src_img =>
                  let '(remap_mat, d) :=
                    materials_new (name variant ++ "_RemapMaterial") d in
                  let d := material_set remap_mat enable_nodes d in
                  let '(nt, built) :=
                    build_remap_tree src_img remap_pairs tolerance
                                     (material_tree d remap_mat) in
                  let d := material_set remap_mat (set_node_tree nt) d in
                  match built with
                  | Raise e => (d, Raise e)
                  | Return _ =>
                      match data variant with
                      | None => (d, Raise AttributeError)
                      | Some me =>
                          let d := mesh_materials_clear me d in
                          let d := mesh_materials_append me remap_mat d in
                          (d, Return (Some remap_mat))
                      end
                  end
              end
          end
      end
  | _, _ => (d, Return None)
  end.

(** ** [apply_multi_remap] (utils/multi_remap_controller.py)

    The function returns nothing; it raises where [apply_color_remaps]
    does and, on the path of the empty list, at line 48 when the variant
    object has no mesh data, after the copy was made. *)
Definition apply_multi_remap (d : BlendData) (base_obj variant_obj : option Object)
    (remap_list : list (py_color * py_color)) (tolerance : R)
    : BlendData * outcome unit :=
  match base_obj, variant_obj with
  | Some base, Some variant =>
      match remap_list with
      | [] =>
          match active_material d base with
          | Some m =>
              match material_copy m d with
              | Some (mat_copy, d) =>
                  match data variant with
                  | None => (d, Raise AttributeError)
                  | Some me =>
                      let d := mesh_materials_clear me d in
                      (mesh_materials_append me mat_copy d, Return tt)
                  end
              | None => (d, Return tt)
              end
          | None => (d, Return tt)
          end
      | _ :: _ =>
          match apply_color_remaps d base_obj variant_obj remap_list tolerance with
          | (d, Raise e) => (d, Raise e)
          | (d, Return _) => (d, Return tt)
          end
      end
  | _, _ => (d, Return tt)
  end.

(** The node tree of [create_base_material_with_texture]
    (utils/texture_setup.py, lines 56-85), with the image attached. *)
Definition base_material_tree (img : Image) : NodeTree :=
  let nt := nodes_clear default_material_tree in
  let '(tex_node, nt) := nodes_new ShaderNodeTexImage nt in
  let '(bsdf, nt) := nodes_new ShaderNodeBsdfPrincipled nt in
  let '(out, nt) := nodes_new ShaderNodeOutputMaterial nt in
  let nt := node_set tex_node (set_location (-400, 0)%Z) nt in
  let nt := node_set bsdf (set_location (0, 0)%Z) nt in
  let nt := node_set out (set_location (300, 0)%Z) nt in
  let nt := links_new (tex_node, Sock.TexImage_Color) (bsdf, Sock.Bsdf_Base_Color) nt in
  let nt := links_new (bsdf, Sock.Bsdf_BSDF) (out, Sock.Output_Surface) nt in
  node_set tex_node (set_image img) nt.

(** ** The blend chain in the words of the specification *)

Definition lerp1 (a b f : R) : R := a * (1 - f) + b * f.

(** [lerp(a, b, f) = a*(1-f) + b*f], channel by channel. *)
Definition lerp (a b : color) (f : R) : color :=
  RGBA (lerp1 (red a) (red b) f) (lerp1 (green a) (green b) f)
       (lerp1 (blue a) (blue b) f) (lerp1 (alpha a) (alpha b) f).

(** The Euclidean distance over R, G, B, and over all four channels. *)
Definition distance_rgb (c s : color) : R :=
  sqrt (Rsqr (red c - red s) + Rsqr (green c - green s) + Rsqr (blue c - blue s)).

Definition distance_rgba (c s : color) : R :=
  sqrt (Rsqr (red c - red s) + Rsqr (green c - green s)
        + Rsqr (blue c - blue s) + Rsqr (alpha c - alpha s)).

(** [clamp(1 - d / max(tolerance, 1e-5), 0, 1)] for a distance [d]. *)
Definition factor_of_distance (tolerance d : R) : R :=
  clamp (1 - d / Rmax tolerance eps) 0 1.

Definition blend_factor (tolerance : R) (current source : color) : R :=
  factor_of_distance tolerance (distance_rgb current source).

Definition blend_step (tolerance : R) (current : color) (pair : color * color)
    : color :=
  lerp current (snd pair) (blend_factor tolerance current (fst pair)).

(** [current_0 = c0], [current_(i+1) = blend_step current_i pair_i]. *)
Definition chain_blend (tolerance : R) (remap_pairs : list (color * color))
    (c0 : color) : color :=
  fold_left (blend_step tolerance) remap_pairs c0.

(** No channel is negative. *)
Definition nonneg (c : color) : Prop :=
  0 <= red c /\ 0 <= green c /\ 0 <= blue c /\ 0 <= alpha c.

Definition nonneg_pair (p : color * color) : Prop :=
  nonneg (fst p) /\ nonneg (snd p).

(** A pair as the two RGB nodes of its turn hold it. *)
Definition stored_pair (p : color * color) : color * color :=
  (socket_color (fst p), socket_color (snd p)).

Definition stored_pairs (pairs : list (color * color)) : list (color * color) :=
  List.map stored_pair pairs.

(** ** Shapes and invariants the proofs refer to *)

(** One turn of the loop for a pair of four-channel colours, given as the
    two RGB nodes hold them: the tree and the socket [remap_iteration]
    leaves when neither assignment raises. *)
Definition remap_turn (tolerance : R) (i : nat)
    (source_color target_color : color)
    (nt : NodeTree) (last_color_output : socket) : NodeTree * socket :=
  let '(src_col, nt) := nodes_new ShaderNodeRGB nt in
  let '(tgt_col, nt) := nodes_new ShaderNodeRGB nt in
  let '(dist, nt) := nodes_new ShaderNodeVectorMath nt in
  let '(div, nt) := nodes_new ShaderNodeMath nt in
  let '(sub, nt) := nodes_new ShaderNodeMath nt in
  let '(clamp, nt) := nodes_new ShaderNodeClamp nt in
  let '(mix, nt) := nodes_new ShaderNodeMixRGB nt in
  let offset_y := (- Z.of_nat i * 250)%Z in
  let nt := node_set src_col (set_location (-600, 200 + offset_y)%Z) nt in
  let nt := node_set tgt_col (set_location (-600, -100 + offset_y)%Z) nt in
  let nt := node_set dist (set_location (-350, 50 + offset_y)%Z) nt in
  let nt := node_set div (set_location (-100, 50 + offset_y)%Z) nt in
  let nt := node_set sub (set_location (150, 50 + offset_y)%Z) nt in
  let nt := node_set clamp (set_location (400, 50 + offset_y)%Z) nt in
  let nt := node_set mix (set_location (250, -200 + offset_y)%Z) nt in
  let nt := node_set src_col (store_color source_color) nt in
  let nt := node_set tgt_col (store_color target_color) nt in
  let nt := node_set dist (set_operation DISTANCE) nt in
  let nt := node_set div (set_operation DIVIDE) nt in
  let nt := node_set sub (set_operation SUBTRACT) nt in
  let nt := links_new last_color_output (dist, 0%nat) nt in
  let nt := links_new (src_col, Sock.RGB_Color) (dist, 1%nat) nt in
  let nt := node_set div (set_input_default 1 (Rmax tolerance eps)) nt in
  let nt := links_new (dist, Sock.VectorMath_Value) (div, 0%nat) nt in
  let nt := node_set sub (set_input_default 0 1) nt in
  let nt := links_new (div, Sock.Math_Value) (sub, 1%nat) nt in
  let nt := links_new (sub, Sock.Math_Value) (clamp, Sock.Clamp_in_Value) nt in
  let nt := links_new last_color_output (mix, 1%nat) nt in
  let nt := links_new (tgt_col, Sock.RGB_Color) (mix, 2%nat) nt in
  let nt := links_new (clamp, Sock.Clamp_Result) (mix, Sock.MixRGB_Fac) nt in
  (nt, (mix, Sock.MixRGB_Color)).

(** The loop over such pairs, started at index [i]. *)
Fixpoint turn_loop (tolerance : R) (i : nat) (remap_pairs : list (color * color))
    (nt : NodeTree) (last_color_output : socket) : NodeTree * socket :=
  match remap_pairs with
  | [] => (nt, last_color_output)
  | (source_color, target_color) :: rest =>
      let '(nt, last_color_output) :=
        remap_turn tolerance i source_color target_color
                        nt last_color_output in
      turn_loop tolerance (S i) rest nt last_color_output
  end.

(** The finished tree for such pairs, and the handle of the Principled
    BSDF. *)
Definition turn_tree (src_img : Image) (remap_pairs : list (color * color))
    (tolerance : R) (nt : NodeTree) : NodeTree * nat :=
  let nt := nodes_clear nt in
  let '(out, nt) := nodes_new ShaderNodeOutputMaterial nt in
  let '(bsdf, nt) := nodes_new ShaderNodeBsdfPrincipled nt in
  let '(tex, nt) := nodes_new ShaderNodeTexImage nt in
  let nt := node_set tex (set_image src_img) nt in
  let nt := node_set tex (set_location (-800, 0)%Z) nt in
  let nt := node_set bsdf (set_location (600, 0)%Z) nt in
  let nt := node_set out (set_location (900, 0)%Z) nt in
  let last_color_output := (tex, Sock.TexImage_Color) in
  let '(nt, last_color_output) :=
    turn_loop tolerance 0 remap_pairs nt last_color_output in
  let nt := links_new last_color_output (bsdf, Sock.Bsdf_Base_Color) nt in
  let nt := links_new (bsdf, Sock.Bsdf_BSDF) (out, Sock.Output_Surface) nt in
  (nt, bsdf).

(** The seven nodes one turn appends, as the assignments leave them. *)
Definition iteration_nodes (tolerance : R) (i : nat) (source_color target_color : color)
    : list Node :=
  let offset_y := (- Z.of_nat i * 250)%Z in
  [ mkNode ShaderNodeRGB (-600, 200 + offset_y)%Z ADD None source_color [];
    mkNode ShaderNodeRGB (-600, -100 + offset_y)%Z ADD None target_color [];
    mkNode ShaderNodeVectorMath (-350, 50 + offset_y)%Z DISTANCE None grey
           (default_inputs ShaderNodeVectorMath);
    mkNode ShaderNodeMath (-100, 50 + offset_y)%Z DIVIDE None grey
           [In_value (VFloat (1/2)); In_value (VFloat (Rmax tolerance eps));
            In_value (VFloat (1/2))];
    mkNode ShaderNodeMath (150, 50 + offset_y)%Z SUBTRACT None grey
           [In_value (VFloat 1); In_value (VFloat (1/2)); In_value (VFloat (1/2))];
    mkNode ShaderNodeClamp (400, 50 + offset_y)%Z ADD None grey
           (default_inputs ShaderNodeClamp);
    mkNode ShaderNodeMixRGB (250, -200 + offset_y)%Z ADD None grey
           (default_inputs ShaderNodeMixRGB) ].

(** The links one turn adds, by the input socket they end in. *)
Definition iteration_link (n : nat) (last : socket) (old : socket -> option socket)
    (q : socket) : option socket :=
  if socket_eqb q ((n + 6)%nat, 0%nat) then Some ((n + 5)%nat, 0%nat) else
  if socket_eqb q ((n + 6)%nat, 2%nat) then Some ((n + 1)%nat, 0%nat) else
  if socket_eqb q ((n + 6)%nat, 1%nat) then Some last else
  if socket_eqb q ((n + 5)%nat, 0%nat) then Some ((n + 4)%nat, 0%nat) else
  if socket_eqb q ((n + 4)%nat, 1%nat) then Some ((n + 3)%nat, 0%nat) else
  if socket_eqb q ((n + 3)%nat, 0%nat) then Some ((n + 2)%nat, 1%nat) else
  if socket_eqb q ((n + 2)%nat, 1%nat) then Some ((n + 0)%nat, 0%nat) else
  if socket_eqb q ((n + 2)%nat, 0%nat) then Some last else old q.

(** Links of a tree are well formed between [lo] and the number of nodes
    when every link ends in an existing node and starts from a node in
    that range. *)
Definition links_within (lo : nat) (nt : NodeTree) : Prop :=
  forall q src, link_to nt q = Some src ->
    (fst q < length (nodes nt))%nat /\ (lo <= fst src < length (nodes nt))%nat.

Definition le_opt {A} (x y : option A) : Prop :=
  forall v, x = Some v -> y = Some v.

(** The socket a turn reads: the texture for the first pair, the mix node
    of the pair before for every other one. *)
Definition previous_output (first : nat) (start : socket) (j : nat) : socket :=
  match j with
  | O => start
  | S j' => ((first + 7 * j' + 6)%nat, Sock.MixRGB_Color)
  end.

(** Lines 64-71: the three base nodes, before the loop. *)
Definition base_nodes_tree (src_img : Image) : NodeTree :=
  {| nodes :=
       [ mkNode ShaderNodeOutputMaterial (900, 0)%Z ADD None grey
                (default_inputs ShaderNodeOutputMaterial);
         mkNode ShaderNodeBsdfPrincipled (600, 0)%Z ADD None grey
                (default_inputs ShaderNodeBsdfPrincipled);
         mkNode ShaderNodeTexImage (-800, 0)%Z ADD (Some src_img) grey
                (default_inputs ShaderNodeTexImage) ];
     links := [] |}.

(** ** What is observed of a call *)

(** The image source of a call: the image [src_img] that lines 38-55 find,
    when the base object, its active material and a textured image node
    are all present. *)
Definition image_source (d : BlendData) (base_obj : option Object) : option Image :=
  match base_obj with
  | None => None
  | Some base =>
      match active_material d base with
      | None => None
      | Some h =>
          match nth_error (materials d) h with
          | None => None
          | Some base_mat => source_image base_mat
          end
      end
  end.

(** The node tree of the material a call returns. *)
Definition remap_material_tree (d : BlendData) (base_obj variant_obj : option Object)
    (remap_pairs : list (py_color * py_color)) (tolerance : R) : option NodeTree :=
  match apply_color_remaps d base_obj variant_obj remap_pairs tolerance with
  | (d', Return (Some m)) => option_map node_tree (nth_error (materials d') m)
  | _ => None
  end.

(** First node of class [k] in a node collection. *)
Fixpoint find_node (k : string) (ns : list Node) : option nat :=
  match ns with
  | [] => None
  | n :: rest =>
      if String.eqb (node_type (bl_idname n)) k then Some 0%nat
      else option_map S (find_node k rest)
  end.

(** The base colour a tree shades with: the Base Color carried by the
    shader that reaches the Surface input of the material output. *)
Definition surface_color (fuel : nat) (sample : Image -> color) (nt : NodeTree)
    : option color :=
  match find_node "OUTPUT_MATERIAL" (nodes nt) with
  | None => None
  | Some out =>
      match eval_input fuel sample nt (out, Sock.Output_Surface) with
      | Some (VShader c) => Some c
      | _ => None
      end
  end.

(** The base colour of the material in the first slot of an object. *)
Definition object_color (fuel : nat) (sample : Image -> color) (d : BlendData)
    (o : Object) : option color :=
  match data o with
  | None => None
  | Some me =>
      match mesh_materials d me with
      | Some m :: _ =>
          match nth_error (materials d) m with
          | Some mt =>
              if use_nodes mt then surface_color fuel sample (node_tree mt) else None
          | None => None
          end
      | _ => None
      end
  end.

(** The name the host gives the remap material. *)
Definition remap_material_name (d : BlendData) (variant : Object) : string :=
  unique_name d (material_names d) (name variant ++ "_RemapMaterial").

(** The law of the host's naming rule the properties rely on: a name that
    is free and within the length limit is given as asked. *)
Definition name_limit : nat := 63.

Definition keeps_free_names (rule : list string -> string -> string) : Prop :=
  forall names nm,
    (String.length nm <= name_limit)%nat -> ~ In nm names -> rule names nm = nm.

(** The material the function creates for four-channel pairs, as lines
    58-120 leave it; [stored] are the pairs as the RGB nodes hold them. *)
Definition remap_material (d : BlendData) (variant : Object) (src_img : Image)
    (stored : list (color * color)) (tolerance : R) : Material :=
  mkMaterial (remap_material_name d variant) true
             (fst (turn_tree src_img stored tolerance empty_tree)).

(** The base colour of the material a call returns. *)
Definition remap_output (fuel : nat) (sample : Image -> color) (d : BlendData)
    (base variant : Object) (remap_pairs : list (py_color * py_color))
    (tolerance : R) : option color :=
  match remap_material_tree d (Some base) (Some variant) remap_pairs tolerance with
  | Some nt => surface_color fuel sample nt
  | None => None
  end.



(** The linear midpoint [0.5*c + 0.5*T]. *)
Definition midpoint (c T : color) : color :=
  RGBA (1/2 * red c + 1/2 * red T) (1/2 * green c + 1/2 * green T)
       (1/2 * blue c + 1/2 * blue T) (1/2 * alpha c + 1/2 * alpha T).

(** ** The arithmetic of one pair in single precision

    The renderer evaluates the nodes in IEEE-754 binary32.  [Single] holds
    the operations of the nodes of one turn in that format, on the standard
    library's specification of binary floating point (precision 24,
    exponent bound 128): what [node_eval] computes over the reals, with
    every operation rounded to nearest, ties to even.  Object coordinates
    use the same format. *)
Module Single.

Definition prec : Z := 24.
Definition emax : Z := 128.

Definition float32 : Type := spec_float.

Definition add (x y : float32) : float32 := SFadd prec emax x y.
Definition sub (x y : float32) : float32 := SFsub prec emax x y.
Definition mul (x y : float32) : float32 := SFmul prec emax x y.
Definition div (x y : float32) : float32 := SFdiv prec emax x y.
Definition sqrt (x : float32) : float32 := SFsqrt prec emax x.
Definition eqb (x y : float32) : bool := SFeqb x y.
Definition ltb (x y : float32) : bool := SFltb x y.

(** The float nearest to an integer, and to the quotient of two integers:
    [ratio 8 10] is the binary32 value of the literal [0.8]. *)
Definition of_Z (z : Z) : float32 := binary_normalize prec emax z 0 false.
Definition ratio (n d : Z) : float32 := div (of_Z n) (of_Z d).

Definition zero : float32 := S754_zero false.
Definition one : float32 := of_Z 1.
Definition half : float32 := ratio 1 2.

Definition max (x y : float32) : float32 := if ltb x y then y else x.
Definition min (x y : float32) : float32 := if ltb y x then y else x.

(** Clamp node, Min Max. *)
Definition clamp (v lo hi : float32) : float32 := min (max v lo) hi.

(** Math node, DIVIDE. *)
Definition safe_divide (a b : float32) : float32 :=
  if eqb b zero then zero else div a b.

Record color32 : Type :=
  RGBA32 { red32 : float32; green32 : float32; blue32 : float32; alpha32 : float32 }.

(** Vector Math node, DISTANCE, on the R, G, B of two colours. *)
Definition distance (c s : color32) : float32 :=
  let dx := sub (red32 c) (red32 s) in
  let dy := sub (green32 c) (green32 s) in
  let dz := sub (blue32 c) (blue32 s) in
  sqrt (add (add (mul dx dx) (mul dy dy)) (mul dz dz)).

(** MixRGB node, blend type Mix. *)
Definition mix1 (a b f : float32) : float32 := add a (mul f (sub b a)).

Definition mix_blend (a b : color32) (f : float32) : color32 :=
  RGBA32 (mix1 (red32 a) (red32 b) f) (mix1 (green32 a) (green32 b) f)
         (mix1 (blue32 a) (blue32 b) f) (mix1 (alpha32 a) (alpha32 b) f).

(** The nodes of one turn: [divisor] is [max(tolerance, 1e-5)] as the
    second input of the Math node holds it. *)
Definition blend_factor (divisor : float32) (current source : color32) : float32 :=
  clamp (sub one (safe_divide (distance current source) divisor)) zero one.

Definition blend_step (divisor : float32) (current : color32)
    (pair : color32 * color32) : color32 :=
  mix_blend current (snd pair)
            (clamp (blend_factor divisor current (fst pair)) zero one).

Definition chain_blend (divisor : float32) (pairs : list (color32 * color32))
    (c0 : color32) : color32 :=
  fold_left (blend_step divisor) pairs c0.

(** [0.5*a + 0.5*b] in single precision.  The two products are exact, so
    this is the exact midpoint rounded once. *)
Definition midpoint1 (a b : float32) : float32 := add (mul half a) (mul half b).

Definition midpoint (a b : color32) : color32 :=
  RGBA32 (midpoint1 (red32 a) (red32 b)) (midpoint1 (green32 a) (green32 b))
         (midpoint1 (blue32 a) (blue32 b)) (midpoint1 (alpha32 a) (alpha32 b)).

End Single.

(** ** The session around [bpy.data]: objects, images, files, the UI list

    [utils/texture_setup.py] and [utils/ui.py] work on more of the host's
    state than the two functions above: the object datablocks, the images,
    the active object, the objects of the scene, the temp directory on disk
    and the list of remap pairs kept on the scene.  Object and image handles
    are indices into [objects] and [images].  What the host alone decides
    is a field of [Host].  The host names objects and images by the rule
    it names materials by ([unique_name]); an image texture refers to its
    image by the name the host gave it.  Strings hold the UTF-8 bytes of
    the source text; [print] is not modelled.  Object coordinates are
    single-precision floats. *)

Record Modifier : Type := mkModifier {
  mod_name : string;
  mod_type : string;
  mod_settings : list (string * string)
}.

Record ObjectData : Type := mkObjectData {
  ob_name : string;
  ob_type : string;
  (** [ob.data] where it is a datablock with material slots *)
  ob_data : option nat;
  ob_active_material_index : nat;
  ob_parent : option nat;
  ob_location : Single.float32 * Single.float32 * Single.float32;
  ob_modifiers : list Modifier
}.

Record ImageData : Type := mkImageData {
  im_name : string;
  im_width : nat;
  im_height : nat;
  im_alpha : bool;
  generated_color : color;
  filepath_raw : string;
  file_format : string;
  use_fake_user : bool
}.

(** One entry of [scene.live_variant_settings.remap_list] (ui.py, 23-40). *)
Record LiveVariantColorMap : Type := mkColorMap {
  source_color : color;
  target_color : color
}.

Inductive report_type : Type := INFO | ERROR.

(** The set an operator's [execute] returns. *)
Inductive op_result : Type := FINISHED | CANCELLED.

Record Session : Type := mkSession {
  bpy_data : BlendData;
  objects : list ObjectData;
  images : list ImageData;
  (** the objects linked to the scene, in the order the host lists them *)
  scene_objects : list nat;
  active_object : option nat;
  mode : string;
  canvas : option Image;
  (** the directories and files on disk *)
  directories : list string;
  files : list string;
  remap_list : list LiveVariantColorMap;
  reports : list (report_type * string)
}.

Record Host : Type := mkHost {
  (** [bpy.app.tempdir], possibly empty *)
  tempdir : string;
  (** [os.path.expanduser("~")] *)
  home : string;
  (** [os.path.join] of the platform, for two components *)
  path_join : string -> string -> string;
  (** whether [os.makedirs] can create the directory *)
  can_make_directory : string -> bool;
  (** whether [image.save()] can write to the path *)
  can_write_image : string -> bool;
  (** [bpy.ops.object.mode_set(mode=m)] with the given object active:
      [None] when the object enters the mode, the exception otherwise *)
  mode_set_error : ObjectData -> string -> option exn;
  (** [ob.modifiers.new(name, type)] on an object that holds the given
      modifiers; [None] when the call raises *)
  modifiers_new : list Modifier -> string -> string -> option Modifier;
  (** the fresh modifier after the [setattr] loop of lines 126-131 has
      copied over what can be set *)
  copy_attributes : Modifier -> Modifier -> Modifier
}.

(** The view of an object the remap functions take. *)
Definition to_object (o : ObjectData) : Object :=
  mkObject (ob_name o) (ob_data o) (ob_active_material_index o).

Definition object_data (s : Session) (h : option nat) : option ObjectData :=
  match h with
  | None => None
  | Some i => nth_error (objects s) i
  end.

Definition object_ref (s : Session) (h : option nat) : option Object :=
  option_map to_object (object_data s h).

Definition object_names (s : Session) : list string :=
  List.map ob_name (objects s).

Definition image_names (s : Session) : list string :=
  List.map im_name (images s).

Definition with_data (f : BlendData -> BlendData) (s : Session) : Session :=
  mkSession (f (bpy_data s)) (objects s) (images s) (scene_objects s)
            (active_object s) (mode s) (canvas s) (directories s) (files s)
            (remap_list s) (reports s).

Definition with_objects (f : list ObjectData -> list ObjectData) (s : Session)
    : Session :=
  mkSession (bpy_data s) (f (objects s)) (images s) (scene_objects s)
            (active_object s) (mode s) (canvas s) (directories s) (files s)
            (remap_list s) (reports s).

Definition with_images (f : list ImageData -> list ImageData) (s : Session)
    : Session :=
  mkSession (bpy_data s) (objects s) (f (images s)) (scene_objects s)
            (active_object s) (mode s) (canvas s) (directories s) (files s)
            (remap_list s) (reports s).

Definition with_remap_list
    (f : list LiveVariantColorMap -> list LiveVariantColorMap) (s : Session)
    : Session :=
  mkSession (bpy_data s) (objects s) (images s) (scene_objects s)
            (active_object s) (mode s) (canvas s) (directories s) (files s)
            (f (remap_list s)) (reports s).

(** [self.report({level}, message)] *)
Definition report (level : report_type) (message : string) (s : Session)
    : Session :=
  mkSession (bpy_data s) (objects s) (images s) (scene_objects s)
            (active_object s) (mode s) (canvas s) (directories s) (files s)
            (remap_list s) (reports s ++ [(level, message)]).

(** [bpy.context.collection.objects.link(ob)] *)
Definition collection_link (ob : nat) (s : Session) : Session :=
  mkSession (bpy_data s) (objects s) (images s) (scene_objects s ++ [ob])
            (active_object s) (mode s) (canvas s) (directories s) (files s)
            (remap_list s) (reports s).

Definition set_mode (m : string) (s : Session) : Session :=
  mkSession (bpy_data s) (objects s) (images s) (scene_objects s)
            (active_object s) m (canvas s) (directories s) (files s)
            (remap_list s) (reports s).

(** [bpy.ops.object.mode_set(mode=...)]: the operator acts on the active
    object of the context and raises when there is none or when the host
    refuses the mode for it. *)
Definition mode_set (h : Host) (m : string) (s : Session) : Session * outcome unit :=
  match object_data s (active_object s) with
  | None => (s, Raise RuntimeError)
  | Some ob =>
      match mode_set_error h ob m with
      | Some e => (s, Raise e)
      | None => (set_mode m s, Return tt)
      end
  end.

(** [bpy.context.tool_settings.image_paint.canvas = img] *)
Definition set_canvas (img : Image) (s : Session) : Session :=
  mkSession (bpy_data s) (objects s) (images s) (scene_objects s)
            (active_object s) (mode s) (Some img) (directories s) (files s)
            (remap_list s) (reports s).

Definition add_path (p : string) (ps : list string) : list string :=
  if existsb (String.eqb p) ps then ps else ps ++ [p].

(** [os.makedirs(p, exist_ok=True)] when it succeeds; intermediate
    directories are not tracked. *)
Definition makedirs (p : string) (s : Session) : Session :=
  mkSession (bpy_data s) (objects s) (images s) (scene_objects s)
            (active_object s) (mode s) (canvas s) (add_path p (directories s))
            (files s) (remap_list s) (reports s).

(** The file an [image.save()] writes. *)
Definition write_file (p : string) (s : Session) : Session :=
  mkSession (bpy_data s) (objects s) (images s) (scene_objects s)
            (active_object s) (mode s) (canvas s) (directories s)
            (add_path p (files s)) (remap_list s) (reports s).

(** [os.path.exists(p)] *)
Definition path_exists (p : string) (s : Session) : bool :=
  existsb (String.eqb p) (directories s) || existsb (String.eqb p) (files s).

Definition set_ob_name (n : string) (o : ObjectData) : ObjectData :=
  mkObjectData n (ob_type o) (ob_data o) (ob_active_material_index o)
               (ob_parent o) (ob_location o) (ob_modifiers o).

Definition set_ob_data (me : nat) (o : ObjectData) : ObjectData :=
  mkObjectData (ob_name o) (ob_type o) (Some me) (ob_active_material_index o)
               (ob_parent o) (ob_location o) (ob_modifiers o).

Definition set_ob_parent (p : option nat) (o : ObjectData) : ObjectData :=
  mkObjectData (ob_name o) (ob_type o) (ob_data o) (ob_active_material_index o)
               p (ob_location o) (ob_modifiers o).

Definition set_ob_modifiers (ms : list Modifier) (o : ObjectData) : ObjectData :=
  mkObjectData (ob_name o) (ob_type o) (ob_data o) (ob_active_material_index o)
               (ob_parent o) (ob_location o) ms.

Definition location_x (o : ObjectData) : Single.float32 := fst (fst (ob_location o)).

(** [ob.location.x = x] *)
Definition set_location_x (x : Single.float32) (o : ObjectData) : ObjectData :=
  mkObjectData (ob_name o) (ob_type o) (ob_data o) (ob_active_material_index o)
               (ob_parent o)
               (x, snd (fst (ob_location o)), snd (ob_location o))
               (ob_modifiers o).

Definition object_set (ob : nat) (f : ObjectData -> ObjectData) (s : Session)
    : Session :=
  with_objects (fun l => list_update l ob f) s.

Definition image_set (im : nat) (f : ImageData -> ImageData) (s : Session)
    : Session :=
  with_images (fun l => list_update l im f) s.

Definition data_id (o : ObjectData) : nat :=
  match ob_data o with
  | Some me => me
  | None => 0%nat
  end.

(** A mesh identifier no object uses yet. *)
Definition new_mesh_id (s : Session) : nat :=
  S (list_max (List.map data_id (objects s))).

(** [me.copy()]: a new mesh datablock with the same material slots. *)
Definition mesh_copy (me : nat) (s : Session) : nat * Session :=
  (new_mesh_id s,
   with_data (fun d => mesh_set (new_mesh_id s) (mesh_materials d me) d) s).

(** [me.materials.append(slot)] where the slot may be empty. *)
Definition mesh_slot_append (me : nat) (slot : option nat) (d : BlendData)
    : BlendData :=
  mesh_set me (mesh_materials d me ++ [slot]) d.

(** [me.materials[0] = m] on a mesh that has slots. *)
Definition mesh_slot_set_first (me m : nat) (d : BlendData) : BlendData :=
  mesh_set me (list_update (mesh_materials d me) 0 (fun _ => Some m)) d.

(** ** [utils/texture_setup.py] *)

Definition set_image_file (path fmt : string) (i : ImageData) : ImageData :=
  mkImageData (im_name i) (im_width i) (im_height i) (im_alpha i)
              (generated_color i) path fmt (use_fake_user i).

Definition set_fake_user (b : bool) (i : ImageData) : ImageData :=
  mkImageData (im_name i) (im_width i) (im_height i) (im_alpha i)
              (generated_color i) (filepath_raw i) (file_format i) b.

Definition set_generated_color (c : color) (i : ImageData) : ImageData :=
  mkImageData (im_name i) (im_width i) (im_height i) (im_alpha i)
              c (filepath_raw i) (file_format i) (use_fake_user i).

(** [bpy.app.tempdir or os.path.expanduser("~")] *)
Definition temp_dir_of (h : Host) : string :=
  if String.eqb (tempdir h) EmptyString then home h else tempdir h.

(** [save_image_to_temp] (lines 23-33); returns the file path.  Line 27
    raises when the directory cannot be made, line 31 when the image
    cannot be written; the path and the format are set by then. *)
Definition save_image_to_temp (h : Host) (s : Session) (img : nat)
    (filename : string) : Session * outcome string :=
  let temp_dir := temp_dir_of h in
  if negb (path_exists temp_dir s) && negb (can_make_directory h temp_dir)
  then (s, Raise OSError)
  else
    let s := if negb (path_exists temp_dir s) then makedirs temp_dir s else s in
    let filepath := path_join h temp_dir filename in
    let s := image_set img (set_image_file filepath "PNG") s in
    if can_write_image h filepath then
      let s := write_file filepath s in
      let s := image_set img (set_fake_user true) s in
      (s, Return filepath)
    else (s, Raise RuntimeError).

(** [bpy.data.images.new(name, width=.., height=.., alpha=..)] *)
Definition images_new (nm : string) (w hgt : nat) (al : bool) (s : Session)
    : nat * Session :=
  (length (images s),
   with_images
     (fun l => l ++ [mkImageData (unique_name (bpy_data s) (image_names s) nm)
                                 w hgt al (RGBA 0 0 0 1) EmptyString "TARGA" false])
     s).

(** [img.name] *)
Definition image_name (s : Session) (img : nat) : Image :=
  match nth_error (images s) img with
  | Some i => im_name i
  | None => EmptyString
  end.

(** Lines 56-76: the new material with its three nodes and two links. *)
Definition base_material_nodes (nt : NodeTree) : NodeTree :=
  let nt := nodes_clear nt in
  let '(tex_node, nt) := nodes_new ShaderNodeTexImage nt in
  let '(bsdf, nt) := nodes_new ShaderNodeBsdfPrincipled nt in
  let '(out, nt) := nodes_new ShaderNodeOutputMaterial nt in
  let nt := node_set tex_node (set_location (-400, 0)%Z) nt in
  let nt := node_set bsdf (set_location (0, 0)%Z) nt in
  let nt := node_set out (set_location (300, 0)%Z) nt in
  let nt := links_new (tex_node, Sock.TexImage_Color)
                      (bsdf, Sock.Bsdf_Base_Color) nt in
  links_new (bsdf, Sock.Bsdf_BSDF) (out, Sock.Output_Surface) nt.

(** Lines 94-96: into texture paint with the image as canvas, and back. *)
Definition prepare_texture_paint (h : Host) (img : Image) (s : Session)
    : Session * outcome unit :=
  match mode_set h "TEXTURE_PAINT" s with
  | (s, Raise e) => (s, Raise e)
  | (s, Return _) =>
      let s := set_canvas img s in
      mode_set h "OBJECT" s
  end.

(** [create_base_material_with_texture] (lines 40-99).  The result holds
    the material handle and the image (by name), or two [None].  The call
    raises where [save_image_to_temp] does, at line 88 for an object
    without slots for materials, and where [mode_set] does; the material
    and the image made before stay. *)
Definition create_base_material_with_texture (h : Host) (s : Session)
    (obj : option nat) (col : color)
    : Session * outcome (option nat * option Image) :=
  match obj with
  | None => (s, Return (None, None))
  | Some o =>
      match nth_error (objects s) o with
      | None => (s, Return (None, None))
      | Some ob =>
          if negb (String.eqb (ob_type ob) "MESH") then (s, Return (None, None))
          else
            let '(mat, d) :=
              materials_new (ob_name ob ++ "_BaseMaterial") (bpy_data s) in
            let s := with_data (fun _ => d) s in
            let s := with_data (material_set mat enable_nodes) s in
            let s :=
              with_data (material_set mat
                           (fun mt => set_node_tree
                                        (base_material_nodes (node_tree mt)) mt)) s in
            let tex_node := 0%nat in
            let img_name := (ob_name ob ++ "_BaseTex")%string in
            let '(img, s) := images_new img_name 1024 1024 true s in
            let s := image_set img (set_generated_color col) s in
            match save_image_to_temp h s img (img_name ++ ".png") with
            | (s, Raise e) => (s, Raise e)
            | (s, Return _) =>
                let s :=
                  with_data
                    (material_set mat
                       (fun mt => set_node_tree
                          (node_set tex_node (set_image (image_name s img))
                                    (node_tree mt))
                          mt)) s in
                match ob_data ob with
                | None => (s, Raise AttributeError)
                | Some me =>
                    let s :=
                      match mesh_materials (bpy_data s) me with
                      | [] => with_data (mesh_materials_append me mat) s
                      | _ :: _ => with_data (mesh_slot_set_first me mat) s
                      end in
                    match prepare_texture_paint h (image_name s img) s with
                    | (s, Raise e) => (s, Raise e)
                    | (s, Return _) =>
                        (s, Return (Some mat, Some (image_name s img)))
                    end
                end
            end
      end
  end.

(** Lines 123-133: the modifiers rebuilt on the copy, one after the other;
    a modifier the host refuses to create is skipped. *)
Fixpoint copy_modifiers (h : Host) (mods acc : list Modifier) : list Modifier :=
  match mods with
  | [] => acc
  | m :: rest =>
      match modifiers_new h acc (mod_name m) (mod_type m) with
      | Some new_mod => copy_modifiers h rest (acc ++ [copy_attributes h m new_mod])
      | None => copy_modifiers h rest acc
      end
  end.

(** [base_obj.parent and base_obj.parent.type == 'ARMATURE'] *)
Definition parent_is_armature (s : Session) (ob : ObjectData) : bool :=
  match ob_parent ob with
  | None => false
  | Some p =>
      match nth_error (objects s) p with
      | Some po => String.eqb (ob_type po) "ARMATURE"
      | None => false
      end
  end.

(** The literals [2.0] and [4.0] of lines 144 and 145. *)
Definition two : Single.float32 := Single.of_Z 2.
Definition four : Single.float32 := Single.of_Z 4.

(** [duplicate_with_rig_and_texture] (lines 106-148).  The copy of line
    116 gets a name of the host's; line 119 asks for "<name>_Variant" and
    the host answers with a name no other object bears.  Line 117 raises
    for an object without data.  Lines 144 and 145 compute in double
    precision from a single-precision coordinate and store the result in
    single precision, which for one subtraction or addition is the
    single-precision operation. *)
Definition duplicate_with_rig_and_texture (h : Host) (s : Session)
    (base_obj : option nat) : Session * outcome (option nat) :=
  match base_obj with
  | None => (s, Return None)
  | Some b =>
      match nth_error (objects s) b with
      | None => (s, Return None)
      | Some base =>
          if negb (String.eqb (ob_type base) "MESH") then (s, Return None)
          else
            let others := object_names s in
            let rule := unique_name (bpy_data s) in
            let variant_obj := length (objects s) in
            let s :=
              with_objects
                (fun l => l ++ [set_ob_name (rule others (ob_name base)) base]) s in
            match ob_data base with
            | None => (s, Raise AttributeError)
            | Some base_me =>
                let '(me, s) := mesh_copy base_me s in
                let s := object_set variant_obj (set_ob_data me) s in
                let s := collection_link variant_obj s in
                let s := object_set variant_obj
                           (set_ob_name (rule others (ob_name base ++ "_Variant")%string)) s in
                let s :=
                  if parent_is_armature s base then
                    let s := object_set variant_obj
                               (set_ob_parent (ob_parent base)) s in
                    let s := object_set variant_obj (set_ob_modifiers []) s in
                    object_set variant_obj
                      (set_ob_modifiers (copy_modifiers h (ob_modifiers base) [])) s
                  else s in
                let s := with_data (mesh_materials_clear me) s in
                let s :=
                  fold_left (fun s slot => with_data (mesh_slot_append me slot) s)
                            (mesh_materials (bpy_data s) base_me) s in
                let s :=
                  object_set b
                    (fun o => set_location_x (Single.sub (location_x o) two) o) s in
                let base_x :=
                  match nth_error (objects s) b with
                  | Some o => location_x o
                  | None => Single.zero
                  end in
                let s := object_set variant_obj
                           (set_location_x (Single.add base_x four)) s in
                (s, Return (Some variant_obj))
            end
      end
  end.

(** [create_textured_duplicate_with_spacing] (lines 155-176).  Line 175
    reads [dup.name] and raises when there is no duplicate. *)
Definition create_textured_duplicate_with_spacing (h : Host) (s : Session)
    : Session * outcome (option nat * option nat) :=
  match active_object s with
  | None => (s, Return (None, None))
  | Some obj =>
      match nth_error (objects s) obj with
      | None => (s, Return (None, None))
      | Some ob =>
          if negb (String.eqb (ob_type ob) "MESH") then (s, Return (None, None))
          else
            match create_base_material_with_texture h s (Some obj)
                    (RGBA (8/10) (8/10) (8/10) 1) with
            | (s, Raise e) => (s, Raise e)
            | (s, Return (None, _)) => (s, Return (None, None))
            | (s, Return (Some _, _)) =>
                match duplicate_with_rig_and_texture h s (Some obj) with
                | (s, Raise e) => (s, Raise e)
                | (s, Return None) => (s, Raise AttributeError)
                | (s, Return (Some dup)) => (s, Return (Some obj, Some dup))
                end
            end
      end
  end.

(** ** [utils/ui.py]: the operators *)

(** [remap_list.add()]: a new entry with the defaults of lines 24-40. *)
Definition LV_OT_AddRemap_execute (s : Session) : Session * op_result :=
  (with_remap_list
     (fun l => l ++ [mkColorMap (RGBA 1 1 1 1) (RGBA 1 0 0 1)]) s,
   FINISHED).

(** Lines 68-72: the last entry is removed when there is one. *)
Definition LV_OT_RemoveRemap_execute (s : Session) : Session * op_result :=
  (match remap_list s with
   | [] => s
   | _ :: _ => with_remap_list (fun l => firstn (length l - 1) l) s
   end,
   FINISHED).

(** Lines 80-87. *)
Definition LV_OT_CreateBaseAndVariant_execute (h : Host) (s : Session)
    : Session * outcome op_result :=
  match create_textured_duplicate_with_spacing h s with
  | (s, Raise e) => (s, Raise e)
  | (s, Return (base_obj, variant_obj)) =>
      match object_data s base_obj, object_data s variant_obj with
      | Some base, Some variant =>
          (report INFO ("Pair created: " ++ ob_name base ++ ", " ++ ob_name variant) s,
           Return FINISHED)
      | _, _ =>
          (report ERROR "Failed to create pair — check selection." s,
           Return CANCELLED)
      end
  end.

(** Lines 105-109: the first object of the scene whose name starts with
    the given prefix. *)
Definition find_variant (s : Session) (prefix_name : string) : option nat :=
  find (fun i =>
          match nth_error (objects s) i with
          | Some o => String.prefix prefix_name (ob_name o)
          | None => false
          end)
       (scene_objects s).

(** The default of [apply_multi_remap]'s [tolerance] parameter. *)
Definition multi_remap_default_tolerance : R := 8 / 100.


(** Lines 116-118: the pairs collected from the UI list, each colour as
    the tuple of its four channels. *)
Definition collect_remaps (s : Session) : list (py_color * py_color) :=
  List.map (fun entry => (seq_of_color (source_color entry),
                          seq_of_color (target_color entry)))
           (remap_list s).

(** [LV_OT_GenerateVariant.execute] (lines 95-123); an exception of
    [apply_multi_remap] leaves the operator before it reports. *)
Definition LV_OT_GenerateVariant_execute (s : Session)
    : Session * outcome op_result :=
  match object_data s (active_object s) with
  | None => (report ERROR "Select the base mesh first." s, Return CANCELLED)
  | Some base =>
      match find_variant s (ob_name base ++ "_Variant") with
      | None =>
          (report ERROR "Variant not found. Click 'Create Textured Pair' first." s,
           Return CANCELLED)
      | Some v =>
          let remaps := collect_remaps s in
          match apply_multi_remap (bpy_data s) (object_ref s (active_object s))
                                  (object_ref s (Some v)) remaps
                                  multi_remap_default_tolerance with
          | (d, Raise e) => (with_data (fun _ => d) s, Raise e)
          | (d, Return _) =>
              let s' := with_data (fun _ => d) s in
              (report INFO
                 ("Remaps applied to "
                  ++ match nth_error (objects s) v with
                     | Some variant => ob_name variant
                     | None => EmptyString
                     end) s',
               Return FINISHED)
          end
      end
  end.

(** ** Notions used by the further properties *)

(** Every channel lies in [0, 1]. *)
Definition in_unit (c : color) : Prop :=
  0 <= red c <= 1 /\ 0 <= green c <= 1 /\ 0 <= blue c <= 1 /\ 0 <= alpha c <= 1.

(** The source of a pair is out of reach of the colour [c]: its distance
    is at least the divisor [max(tolerance, 1e-5)]. *)
Definition out_of_reach (tolerance : R) (c : color) (pair : color * color) : Prop :=
  Rmax tolerance eps <= distance_rgb c (fst pair).

(** The name the host gives the image of [create_base_material_with_texture]
    and the material it makes for an object. *)
Definition base_image_name (s : Session) (ob : ObjectData) : Image :=
  unique_name (bpy_data s) (image_names s) (ob_name ob ++ "_BaseTex")%string.

Definition base_material_of (s : Session) (ob : ObjectData) : Material :=
  mkMaterial (unique_name (bpy_data s) (material_names (bpy_data s))
                          (ob_name ob ++ "_BaseMaterial")%string)
             true (base_material_tree (base_image_name s ob)).

(** The name the host gives the duplicate of an object. *)
Definition variant_name (s : Session) (base : ObjectData) : string :=
  unique_name (bpy_data s) (object_names s) (ob_name base ++ "_Variant")%string.

(** The object [duplicate_with_rig_and_texture] makes of [base]: a copy
    on a mesh of its own, with the base's parent, placed from where the
    base ends up; its modifiers are rebuilt when the parent is an
    armature. *)
Definition duplicate_of (h : Host) (s : Session) (base : ObjectData) : ObjectData :=
  mkObjectData (variant_name s base) (ob_type base) (Some (new_mesh_id s))
               (ob_active_material_index base) (ob_parent base)
               (Single.add (Single.sub (location_x base) two) four,
                snd (fst (ob_location base)), snd (ob_location base))
               (if parent_is_armature s base
                then copy_modifiers h (ob_modifiers base) []
                else ob_modifiers base).

(** The host takes the session through both mode changes of
    [create_base_material_with_texture]: there is an active object and it
    enters texture paint and object mode. *)
Definition paint_ready (h : Host) (s : Session) : Prop :=
  exists ob, object_data s (active_object s) = Some ob /\
             mode_set_error h ob "TEXTURE_PAINT" = None /\
             mode_set_error h ob "OBJECT" = None.

(** The temp directory exists or can be made, and the image file of an
    object can be written there. *)
Definition can_save (h : Host) (s : Session) (ob : ObjectData) : Prop :=
  (path_exists (temp_dir_of h) s = true \/
   can_make_directory h (temp_dir_of h) = true) /\
  can_write_image h (path_join h (temp_dir_of h)
                               ((ob_name ob ++ "_BaseTex") ++ ".png")%string)
  = true.

(** The path [save_image_to_temp] builds for a file name. *)
Definition saved_path (h : Host) (filename : string) : string :=
  path_join h (temp_dir_of h) filename.

(** ** A scene to run the functions on *)

(** A naming rule in the manner of the host: a free name of at most 63
    bytes is kept; otherwise the name is cut and the first free suffix of
    .001, .002, ... is appended. *)
Definition name_free (names : list string) (nm : string) : bool :=
  negb (existsb (String.eqb nm) names).

Definition ex_suffixes : list string :=
  [".001"; ".002"; ".003"; ".004"; ".005"; ".006"; ".007"; ".008"; ".009"].

Definition ex_unique_name (names : list string) (nm : string) : string :=
  let cut := substring 0 name_limit nm in
  if name_free names cut then cut
  else
    let stem := substring 0 (name_limit - 4) cut in
    match find (fun sfx => name_free names (stem ++ sfx)) ex_suffixes with
    | Some sfx => stem ++ sfx
    | None => stem ++ ".010"
    end.

(** "Cube" carries the material [create_base_material_with_texture] makes;
    "Cube_Variant" is its duplicate with its own mesh datablock, whose
    first slot links the same material. *)

Definition ex_image : Image := "Cube_BaseTex".

Definition ex_base_material : Material :=
  mkMaterial "Cube_BaseMaterial" true (base_material_tree ex_image).

Definition ex_data : BlendData :=
  {| materials := [ex_base_material];
     mesh_materials := fun k =>
       match k with
       | 0%nat => [Some 0%nat]
       | 1%nat => [Some 0%nat]
       | _ => []
       end;
     unique_name := ex_unique_name |}.

Definition ex_base : Object := mkObject "Cube" (Some 0%nat) 0.
Definition ex_variant : Object := mkObject "Cube_Variant" (Some 1%nat) 0.

Definition ex_yellow : color := RGBA 1 (8/10) 0 1.
Definition ex_blue : color := RGBA 0 (2/10) 1 1.
Definition ex_black : color := RGBA 0 0 0 1.

Definition ex_yellow_half_alpha : color := RGBA 1 (8/10) 0 (1/2).

Definition ex_near_yellow : color := RGBA (19/20) (8/10) 0 1.




Definition ex_plain_data : BlendData :=
  {| materials := [mkMaterial "Material" true default_material_tree];
     mesh_materials := fun k =>
       match k with
       | 0%nat => [Some 0%nat]
       | 1%nat => [Some 0%nat]
       | _ => []
       end;
     unique_name := ex_unique_name |}.

(** A linked duplicate of "Cube": a second object on the same mesh
    datablock. *)
Definition ex_linked_variant : Object := mkObject "Cube.001" (Some 0%nat) 0.

(** A base material whose Base Color is fed by an RGB node, its image
    texture being left unconnected. *)
Definition ex_tint : color := RGBA 1 0 0 1.

Definition ex_tinted_tree : NodeTree :=
  {| nodes :=
       [ set_image ex_image (default_node ShaderNodeTexImage);
         store_color ex_tint (default_node ShaderNodeRGB);
         default_node ShaderNodeBsdfPrincipled;
         default_node ShaderNodeOutputMaterial ];
     links :=
       [ mkLink (1%nat, Sock.RGB_Color) (2%nat, Sock.Bsdf_Base_Color);
         mkLink (2%nat, Sock.Bsdf_BSDF) (3%nat, Sock.Output_Surface) ] |}.

Definition ex_tinted_data : BlendData :=
  {| materials := [mkMaterial "Tinted" true ex_tinted_tree];
     mesh_materials := fun k =>
       match k with
       | 0%nat => [Some 0%nat]
       | 1%nat => [Some 0%nat]
       | _ => []
       end;
     unique_name := ex_unique_name |}.


(** A colour with a negative red channel; a colour socket holds it as
    black. *)
Definition ex_below : color := RGBA (-1/2) 0 0 1.

(** The colours and tolerances of the examples in single precision. *)
Definition ex_yellow32 : Single.color32 :=
  Single.RGBA32 Single.one (Single.ratio 8 10) Single.zero Single.one.

Definition ex_blue32 : Single.color32 :=
  Single.RGBA32 Single.zero (Single.ratio 2 10) Single.one Single.one.

Definition ex_tolerance32 : Single.float32 := Single.ratio 1 10.

Definition c5_S32 : Single.color32 :=
  Single.RGBA32 Single.zero (Single.ratio 1 10) Single.zero Single.one.

Definition c5_texel32 : Single.color32 :=
  Single.RGBA32 (Single.ratio 1 4) (Single.ratio 1 10) Single.zero Single.one.

Definition c5_T32 : Single.color32 :=
  Single.RGBA32 Single.one (Single.ratio 3 10) Single.zero Single.one.

Definition c5_tolerance32 : Single.float32 := Single.ratio 1 2.

(** ** Sessions to run the functions on *)

Definition starts_with_slash (p : string) : bool :=
  match p with
  | String c _ => String.eqb (String c EmptyString) "/"
  | EmptyString => false
  end.

Fixpoint ends_with_slash (p : string) : bool :=
  match p with
  | EmptyString => false
  | String c EmptyString => String.eqb (String c EmptyString) "/"
  | String _ rest => ends_with_slash rest
  end.

(** [os.path.join(a, b)] of a POSIX platform. *)
Definition ex_path_join (a b : string) : string :=
  if starts_with_slash b then b
  else if String.eqb a EmptyString || ends_with_slash a then (a ++ b)%string
  else (a ++ "/" ++ b)%string.

(** A POSIX host with a temp directory, where every directory can be made
    and every path that names no directory can be written, where a mesh
    enters every mode and any other object only object mode, and which
    creates every modifier asked for and copies the settings over. *)
Definition ex_host : Host :=
  mkHost "/tmp/blender_a1b2/" "/home/user" ex_path_join
         (fun _ => true)
         (fun p => negb (ends_with_slash p))
         (fun ob m =>
            if String.eqb m "OBJECT" || String.eqb (ob_type ob) "MESH" then None
            else Some TypeError)
         (fun _ n t => Some (mkModifier n t []))
         (fun src fresh =>
            mkModifier (mod_name fresh) (mod_type fresh) (mod_settings src)).

Definition origin : Single.float32 * Single.float32 * Single.float32 :=
  (Single.zero, Single.zero, Single.zero).

Definition ex_cube : ObjectData :=
  mkObjectData "Cube" "MESH" (Some 0%nat) 0 None origin [].

Definition ex_empty_data : BlendData :=
  {| materials := []; mesh_materials := fun _ => [];
     unique_name := ex_unique_name |}.

(** A fresh scene: one mesh object "Cube", selected, without material. *)
Definition ex_session : Session :=
  mkSession ex_empty_data [ex_cube] [] [0%nat] (Some 0%nat) "OBJECT" None
            [] [] [] [].

(** A rigged scene: "Body" is parented to the armature "Rig" and carries
    an Armature modifier. *)
Definition ex_rig : ObjectData :=
  mkObjectData "Rig" "ARMATURE" None 0 None origin [].

Definition ex_body : ObjectData :=
  mkObjectData "Body" "MESH" (Some 1%nat) 0 (Some 0%nat)
               (Single.one, Single.zero, Single.zero)
               [mkModifier "Armature" "ARMATURE" [("object", "Rig")]].

Definition ex_rigged_session : Session :=
  mkSession ex_empty_data [ex_rig; ex_body] [] [0%nat; 1%nat] (Some 1%nat)
            "OBJECT" None [] [] [] [].

(** The rigged scene with the armature selected. *)
Definition ex_rig_selected : Session :=
  mkSession ex_empty_data [ex_rig; ex_body] [] [0%nat; 1%nat] (Some 0%nat)
            "OBJECT" None [] [] [] [].


Definition ex_left : Single.float32 * Single.float32 * Single.float32 :=
  (Single.of_Z (-2), Single.zero, Single.zero).

Definition ex_right : Single.float32 * Single.float32 * Single.float32 :=
  (Single.of_Z 2, Single.zero, Single.zero).

Definition ex_pair_base : ObjectData :=
  mkObjectData "Cube" "MESH" (Some 0%nat) 0 None ex_left [].

Definition ex_pair_variant : ObjectData :=
  mkObjectData "Cube_Variant" "MESH" (Some 1%nat) 0 None ex_right [].

(** The scene of [ex_data] as a session: "Cube" and "Cube_Variant". *)
Definition ex_pair_session : Session :=
  mkSession ex_data [ex_pair_base; ex_pair_variant]
            [] [0%nat; 1%nat] (Some 0%nat) "OBJECT" None [] []
            [mkColorMap ex_yellow ex_blue] [].

(** The same two objects over [ex_plain_data], whose material has no image
    texture. *)
Definition ex_plain_session : Session :=
  mkSession ex_plain_data [ex_pair_base; ex_pair_variant]
            [] [0%nat; 1%nat] (Some 0%nat) "OBJECT" None [] []
            [mkColorMap ex_yellow ex_blue] [].



(** The fresh scene with nothing selected. *)
Definition ex_unselected_session : Session :=
  mkSession ex_empty_data [ex_cube] [] [0%nat] None "OBJECT" None
            [] [] [] [].

(** * Properties *)

(** ** Lists and lookups *)

Lemma nth_error_list_update {A} (l : list A) (i j : nat) (f : A -> A) :
  nth_error (list_update l i f) j =
  if Nat.eqb i j then option_map f (nth_error l j) else nth_error l j.
Proof.
  revert i j; induction l as [|x l IH]; intros [|i] [|j]; simpl;
    try reflexivity.
  - destruct (Nat.eqb _ _); reflexivity.
  - apply IH.
Qed.

Lemma length_list_update {A} (l : list A) (i : nat) (f : A -> A) :
  length (list_update l i f) = length l.
Proof.
  revert i; induction l as [|x l IH]; intros [|i]; simpl; auto.
Qed.

Lemma list_update_app_r {A} (l l' : list A) (k : nat) (f : A -> A) :
  list_update (l ++ l') (length l + k) f = l ++ list_update l' k f.
Proof.
  induction l as [|x l IH]; simpl; [reflexivity | now rewrite IH].
Qed.

Lemma list_update_app_0 {A} (l l' : list A) (f : A -> A) :
  list_update (l ++ l') (length l) f = l ++ list_update l' 0 f.
Proof.
  rewrite <- (Nat.add_0_r (length l)) at 1. apply list_update_app_r.
Qed.

Lemma nth_error_app_offset {A} (l l' : list A) (k : nat) :
  nth_error (l ++ l') (length l + k) = nth_error l' k.
Proof.
  induction l as [|x l IH]; simpl; auto.
Qed.

Lemma nth_error_app_below {A} (l l' : list A) (k : nat) :
  (k < length l)%nat -> nth_error (l ++ l') k = nth_error l k.
Proof. intros H. now apply nth_error_app1. Qed.

Lemma socket_eqb_eq (p q : socket) : socket_eqb p q = true <-> p = q.
Proof.
  destruct p as [a b], q as [c d]; unfold socket_eqb; simpl.
  rewrite andb_true_iff, !Nat.eqb_eq. split.
  - intros [-> ->]; reflexivity.
  - intros H; inversion H; auto.
Qed.

Lemma socket_eqb_refl (p : socket) : socket_eqb p p = true.
Proof. now apply socket_eqb_eq. Qed.

Lemma socket_eqb_neq (p q : socket) : p <> q -> socket_eqb p q = false.
Proof.
  intros H. destruct (socket_eqb p q) eqn:E; auto.
  apply socket_eqb_eq in E. contradiction.
Qed.

Lemma socket_eqb_sym (p q : socket) : socket_eqb p q = socket_eqb q p.
Proof.
  unfold socket_eqb. now rewrite (Nat.eqb_sym (fst p)), (Nat.eqb_sym (snd p)).
Qed.

(** A new link answers for its own input socket and leaves the others. *)
Lemma link_to_links_new (src dst q : socket) (nt : NodeTree) :
  link_to (links_new src dst nt) q =
  if socket_eqb q dst then Some src else link_to nt q.
Proof.
  unfold link_to, links_new; cbn [links].
  induction (links nt) as [|l ls IH]; cbn [filter app find].
  - cbn [to_socket]. rewrite (socket_eqb_sym dst q).
    destruct (socket_eqb q dst); reflexivity.
  - destruct (socket_eqb (to_socket l) dst) eqn:Ed; cbn [negb].
    + destruct (socket_eqb q dst) eqn:Eq.
      * rewrite IH. reflexivity.
      * assert (socket_eqb (to_socket l) q = false) as ->.
        { apply socket_eqb_eq in Ed. subst dst.
          now rewrite socket_eqb_sym. }
        rewrite IH. reflexivity.
    + cbn [app find].
      destruct (socket_eqb (to_socket l) q) eqn:El.
      * apply socket_eqb_eq in El. subst q. rewrite Ed. reflexivity.
      * exact IH.
Qed.

Lemma link_to_node_set (n : nat) (f : Node -> Node) (nt : NodeTree) (q : socket) :
  link_to (node_set n f nt) q = link_to nt q.
Proof. reflexivity. Qed.

Lemma nodes_links_new (src dst : socket) (nt : NodeTree) :
  nodes (links_new src dst nt) = nodes nt.
Proof. reflexivity. Qed.

Lemma nodes_node_set (n : nat) (f : Node -> Node) (nt : NodeTree) :
  nodes (node_set n f nt) = list_update (nodes nt) n f.
Proof. reflexivity. Qed.

(** ** The builder on small inputs *)

Example build_no_pair_nodes :
  List.map bl_idname (nodes (fst (build_remap_tree ex_image (py_pairs []) (1/10) empty_tree)))
  = [ShaderNodeOutputMaterial; ShaderNodeBsdfPrincipled; ShaderNodeTexImage].
Proof. reflexivity. Qed.

Example build_no_pair_links :
  links (fst (build_remap_tree ex_image (py_pairs []) (1/10) empty_tree))
  = [mkLink (2%nat, Sock.TexImage_Color) (1%nat, Sock.Bsdf_Base_Color);
     mkLink (1%nat, Sock.Bsdf_BSDF) (0%nat, Sock.Output_Surface)].
Proof. reflexivity. Qed.

Example build_one_pair_nodes :
  List.map bl_idname
    (nodes (fst (build_remap_tree ex_image (py_pairs [(ex_yellow, ex_blue)]) (1/10) empty_tree)))
  = [ShaderNodeOutputMaterial; ShaderNodeBsdfPrincipled; ShaderNodeTexImage;
     ShaderNodeRGB; ShaderNodeRGB; ShaderNodeVectorMath; ShaderNodeMath;
     ShaderNodeMath; ShaderNodeClamp; ShaderNodeMixRGB].
Proof. reflexivity. Qed.

Example build_one_pair_links :
  links (fst (build_remap_tree ex_image (py_pairs [(ex_yellow, ex_blue)]) (1/10) empty_tree))
  = [mkLink (2%nat, 0%nat) (5%nat, 0%nat);
     mkLink (3%nat, 0%nat) (5%nat, 1%nat);
     mkLink (5%nat, 1%nat) (6%nat, 0%nat);
     mkLink (6%nat, 0%nat) (7%nat, 1%nat);
     mkLink (7%nat, 0%nat) (8%nat, 0%nat);
     mkLink (2%nat, 0%nat) (9%nat, 1%nat);
     mkLink (4%nat, 0%nat) (9%nat, 2%nat);
     mkLink (8%nat, 0%nat) (9%nat, 0%nat);
     mkLink (9%nat, 0%nat) (1%nat, 0%nat);
     mkLink (1%nat, 0%nat) (0%nat, 0%nat)].
Proof. reflexivity. Qed.

Example build_two_pairs_size :
  length (nodes (fst (build_remap_tree ex_image
                        (py_pairs [(ex_yellow, ex_blue); (ex_blue, ex_black)]) (1/10)
                        empty_tree))) = 17%nat /\
  length (links (fst (build_remap_tree ex_image
                        (py_pairs [(ex_yellow, ex_blue); (ex_blue, ex_black)]) (1/10)
                        empty_tree))) = 18%nat.
Proof. split; reflexivity. Qed.

Example base_material_image :
  source_image ex_base_material = Some ex_image /\
  source_image (mkMaterial "Material" true default_material_tree) = None.
Proof. split; reflexivity. Qed.

(** ** One turn of the loop *)

Lemma remap_turn_nodes tol i s t nt last :
  nodes (fst (remap_turn tol i s t nt last)) =
  nodes nt ++ iteration_nodes tol i s t.
Proof.
  destruct nt as [ns ls].
  unfold remap_turn, nodes_new. cbn [nodes links fst snd].
  rewrite !nodes_links_new, !nodes_node_set.
  repeat (rewrite ?nodes_links_new, ?nodes_node_set; cbn [nodes]).
  rewrite !length_app. cbn [length].
  rewrite <- !app_assoc. cbn [app].
  rewrite <- !Nat.add_assoc. cbn [Nat.add].
  repeat (rewrite ?list_update_app_r, ?list_update_app_0; cbn [list_update]).
  reflexivity.
Qed.

Lemma remap_turn_last tol i s t nt last :
  snd (remap_turn tol i s t nt last) =
  ((length (nodes nt) + 6)%nat, Sock.MixRGB_Color).
Proof.
  destruct nt as [ns ls].
  unfold remap_turn, nodes_new. cbn [nodes links fst snd].
  rewrite !length_app. cbn [length].
  rewrite <- !Nat.add_assoc. reflexivity.
Qed.

Lemma remap_turn_links tol i s t nt last q :
  link_to (fst (remap_turn tol i s t nt last)) q =
  iteration_link (length (nodes nt)) last (link_to nt) q.
Proof.
  destruct nt as [ns ls].
  unfold remap_turn, nodes_new. cbn [nodes links fst snd].
  rewrite !length_app. cbn [length].
  rewrite <- !Nat.add_assoc. cbn [Nat.add].
  repeat (rewrite ?link_to_links_new, ?link_to_node_set).
  unfold iteration_link, Sock.MixRGB_Fac, Sock.Clamp_in_Value, Sock.Clamp_Result,
    Sock.RGB_Color, Sock.Math_Value, Sock.VectorMath_Value.
  rewrite Nat.add_0_r.
  reflexivity.
Qed.

(** ** Evaluation: extensionality, fuel and framing *)

Lemma eval_output_S fuel sample nt s :
  eval_output (S fuel) sample nt s =
  match nth_error (nodes nt) (fst s) with
  | None => None
  | Some nd =>
      node_eval sample nd
        (input_value (eval_output fuel sample nt) nt (fst s) nd) (snd s)
  end.
Proof. reflexivity. Qed.

Lemma node_eval_ext sample nd inp inp' out :
  (forall i, inp i = inp' i) ->
  node_eval sample nd inp out = node_eval sample nd inp' out.
Proof.
  intros H. unfold node_eval. now rewrite !H.
Qed.

Lemma input_value_ext ev ev' nt nt' n nd i :
  link_to nt' (n, i) = link_to nt (n, i) ->
  (forall src, link_to nt (n, i) = Some src -> ev' src = ev src) ->
  input_value ev' nt' n nd i = input_value ev nt n nd i.
Proof.
  intros Hl He. unfold input_value. rewrite Hl.
  destruct (nth_error (inputs nd) i); [|reflexivity].
  destruct (link_to nt (n, i)) as [src|]; [|reflexivity].
  now rewrite (He src eq_refl).
Qed.

(** Evaluation of a socket depends only on the nodes its links reach. *)
Lemma eval_frame sample lo nt nt' :
  links_within lo nt ->
  (forall n, (lo <= n < length (nodes nt))%nat ->
             nth_error (nodes nt') n = nth_error (nodes nt) n) ->
  (forall q, (lo <= fst q < length (nodes nt))%nat ->
             link_to nt' q = link_to nt q) ->
  forall fuel s, (lo <= fst s < length (nodes nt))%nat ->
    eval_output fuel sample nt' s = eval_output fuel sample nt s.
Proof.
  intros Hw Hn Hl fuel. induction fuel as [|fuel IH]; intros s Hs.
  - reflexivity.
  - rewrite !eval_output_S, (Hn _ Hs).
    destruct (nth_error (nodes nt) (fst s)) as [nd|]; [|reflexivity].
    apply node_eval_ext. intros i.
    apply input_value_ext.
    + apply Hl. exact Hs.
    + intros src Hsrc. apply IH. apply (Hw _ _ Hsrc).
Qed.

Lemma node_eval_mono sample nd inp inp' out :
  (forall i, le_opt (inp i) (inp' i)) ->
  le_opt (node_eval sample nd inp out) (node_eval sample nd inp' out).
Proof.
  intros H v. unfold node_eval.
  pose proof (H 0%nat) as H0. pose proof (H 1%nat) as H1.
  pose proof (H 2%nat) as H2. unfold le_opt in H0, H1, H2.
  destruct (bl_idname nd); destruct out as [|[|out]]; try discriminate; auto;
    destruct (operation nd); try discriminate;
    repeat match goal with
    | Hk : (forall v, inp ?k = Some v -> inp' ?k = Some v) |- _ =>
        destruct (inp k) as [[]|];
        [ rewrite (Hk _ eq_refl) .. | ]; clear Hk
    end; auto; try discriminate.
Qed.

Lemma input_value_mono ev ev' nt n nd i :
  (forall s, le_opt (ev s) (ev' s)) ->
  le_opt (input_value ev nt n nd i) (input_value ev' nt n nd i).
Proof.
  intros H v. unfold input_value.
  destruct (nth_error (inputs nd) i); [|discriminate].
  destruct (link_to nt (n, i)) as [src|]; [|auto].
  destruct (ev src) as [w|] eqn:E.
  - now rewrite (H _ _ E).
  - destruct i0; discriminate.
Qed.

Lemma eval_output_mono_S sample nt fuel :
  forall s, le_opt (eval_output fuel sample nt s) (eval_output (S fuel) sample nt s).
Proof.
  induction fuel as [|fuel IH]; intros s v.
  - discriminate.
  - rewrite (eval_output_S (S fuel)), (eval_output_S fuel).
    destruct (nth_error (nodes nt) (fst s)) as [nd|]; [|discriminate].
    apply node_eval_mono. intros i. apply input_value_mono. exact IH.
Qed.

(** More fuel never changes a result already obtained. *)
Lemma eval_output_mono sample nt fuel extra s v :
  eval_output fuel sample nt s = Some v ->
  eval_output (extra + fuel) sample nt s = Some v.
Proof.
  intros H. induction extra as [|extra IH]; [exact H|].
  apply (eval_output_mono_S sample nt (extra + fuel) s v IH).
Qed.

(** ** Arithmetic of the blend factor *)

Lemma eps_pos : 0 < eps.
Proof. unfold eps; lra. Qed.

Lemma divisor_pos tol : 0 < Rmax tol eps.
Proof.
  apply Rlt_le_trans with eps; [exact eps_pos | apply Rmax_r].
Qed.

Lemma safe_divide_divisor d tol :
  safe_divide d (Rmax tol eps) = d / Rmax tol eps.
Proof.
  unfold safe_divide. destruct (Req_dec_T (Rmax tol eps) 0) as [E|E]; [|reflexivity].
  pose proof (divisor_pos tol). lra.
Qed.

Lemma clamp_unit_range x : 0 <= clamp x 0 1 <= 1.
Proof.
  unfold clamp, Rmin, Rmax.
  repeat destruct (Rle_dec _ _); lra.
Qed.

Lemma clamp_inside x : 0 <= x <= 1 -> clamp x 0 1 = x.
Proof.
  intros H. unfold clamp, Rmin, Rmax.
  repeat destruct (Rle_dec _ _); lra.
Qed.

Lemma clamp_idem x : clamp (clamp x 0 1) 0 1 = clamp x 0 1.
Proof. apply clamp_inside, clamp_unit_range. Qed.

Lemma clamp_above x : 1 <= x -> clamp x 0 1 = 1.
Proof.
  intros H. unfold clamp, Rmin, Rmax.
  repeat destruct (Rle_dec _ _); lra.
Qed.

Lemma clamp_below x : x <= 0 -> clamp x 0 1 = 0.
Proof.
  intros H. unfold clamp, Rmin, Rmax.
  repeat destruct (Rle_dec _ _); lra.
Qed.

(** Over the reals the blend of the Mix node is the [lerp] of the
    specification. *)
Lemma mix_blend_lerp a b f : mix_blend a b f = lerp a b f.
Proof.
  unfold mix_blend, lerp, mix1, lerp1. f_equal; ring.
Qed.

Lemma lerp_one a b : lerp a b 1 = b.
Proof.
  destruct a, b; unfold lerp, lerp1; cbn. f_equal; lra.
Qed.

Lemma lerp_zero a b : lerp a b 0 = a.
Proof.
  destruct a, b; unfold lerp, lerp1; cbn. f_equal; lra.
Qed.


Lemma distance_rgb_self_rgb c s :
  red c = red s -> green c = green s -> blue c = blue s ->
  distance_rgb c s = 0.
Proof.
  intros Hr Hg Hb. unfold distance_rgb. rewrite Hr, Hg, Hb.
  replace (Rsqr (red s - red s) + Rsqr (green s - green s)
           + Rsqr (blue s - blue s)) with 0 by (unfold Rsqr; lra).
  apply sqrt_0.
Qed.

Lemma factor_of_distance_zero tol : factor_of_distance tol 0 = 1.
Proof.
  unfold factor_of_distance. apply clamp_above.
  unfold Rdiv. rewrite Rmult_0_l. lra.
Qed.

Lemma factor_of_distance_far tol d :
  Rmax tol eps <= d -> factor_of_distance tol d = 0.
Proof.
  intros H. unfold factor_of_distance. apply clamp_below.
  pose proof (divisor_pos tol) as Hp.
  assert (1 <= d / Rmax tol eps); [|lra].
  apply Rmult_le_reg_r with (Rmax tol eps); [exact Hp|].
  unfold Rdiv. rewrite Rmult_assoc, Rinv_l by lra. lra.
Qed.

Lemma factor_of_distance_half tol :
  eps <= tol -> factor_of_distance tol (tol / 2) = 1 / 2.
Proof.
  intros H. unfold factor_of_distance.
  rewrite Rmax_left by exact H.
  pose proof eps_pos.
  replace (1 - tol / 2 / tol) with (1 / 2) by (field; lra).
  apply clamp_inside. lra.
Qed.

(** ** Evaluating one turn of the loop *)

Ltac decide_eqb :=
  repeat match goal with
  | |- context [Nat.eqb ?a ?b] =>
      first
        [ replace (Nat.eqb a b) with true by (symmetry; apply Nat.eqb_eq; lia)
        | replace (Nat.eqb a b) with false by (symmetry; apply Nat.eqb_neq; lia) ]
  end; cbn [andb].

Ltac link_lookup :=
  rewrite ?remap_turn_links; unfold iteration_link, socket_eqb;
  cbn [fst snd]; decide_eqb.

Lemma no_link_beyond lo nt q :
  links_within lo nt -> (length (nodes nt) <= fst q)%nat -> link_to nt q = None.
Proof.
  intros Hw Hq. destruct (link_to nt q) as [src|] eqn:E; [|reflexivity].
  destruct (Hw _ _ E) as [H _]. lia.
Qed.

Lemma remap_turn_length tol i s t nt last :
  length (nodes (fst (remap_turn tol i s t nt last))) =
  (length (nodes nt) + 7)%nat.
Proof. rewrite remap_turn_nodes, length_app. reflexivity. Qed.

Lemma remap_turn_within tol i s t nt last lo :
  links_within lo nt ->
  (lo <= fst last < length (nodes nt))%nat ->
  links_within lo (fst (remap_turn tol i s t nt last)).
Proof.
  intros Hw Hlast q src H.
  rewrite remap_turn_length.
  rewrite remap_turn_links in H. unfold iteration_link in H.
  repeat match type of H with
  | (if socket_eqb q ?p then _ else _) = _ =>
      destruct (socket_eqb q p) eqn:?E;
      [ apply socket_eqb_eq in E; subst q; inversion H; subst src;
        cbn [fst snd]; lia | clear E ]
  end.
  destruct (Hw _ _ H). lia.
Qed.

Lemma remap_turn_keeps_nodes tol i s t nt last n :
  (n < length (nodes nt))%nat ->
  nth_error (nodes (fst (remap_turn tol i s t nt last))) n =
  nth_error (nodes nt) n.
Proof.
  intros H. rewrite remap_turn_nodes. now apply nth_error_app_below.
Qed.

Lemma remap_turn_keeps_links tol i s t nt last q :
  (fst q < length (nodes nt))%nat ->
  link_to (fst (remap_turn tol i s t nt last)) q = link_to nt q.
Proof.
  intros H. link_lookup. reflexivity.
Qed.

(** Sockets of earlier nodes evaluate as before the turn. *)
Lemma remap_turn_frame sample tol i s t nt last lo fuel q :
  links_within lo nt ->
  (lo <= fst q < length (nodes nt))%nat ->
  eval_output fuel sample (fst (remap_turn tol i s t nt last)) q =
  eval_output fuel sample nt q.
Proof.
  intros Hw Hq. apply (eval_frame sample lo); auto.
  - intros n Hn. apply remap_turn_keeps_nodes. lia.
  - intros q' Hq'. apply remap_turn_keeps_links. lia.
Qed.

Ltac eval_node_at k :=
  rewrite eval_output_S; cbn [fst snd];
  rewrite remap_turn_nodes, (nth_error_app_offset _ _ k);
  cbn [nth_error iteration_nodes];
  unfold node_eval; cbn [bl_idname operation output_color];
  unfold input_value; cbn [inputs default_inputs nth_error].

(** The distance node and the mix node of one turn: what they compute when
    the incoming socket evaluates to the colour [c]. *)
Lemma remap_turn_eval sample tol i s t nt last lo fuel c :
  links_within lo nt ->
  (lo <= fst last < length (nodes nt))%nat ->
  eval_output fuel sample nt last = Some (VColor c) ->
  let nt' := fst (remap_turn tol i s t nt last) in
  let n := length (nodes nt) in
  eval_output (1 + fuel) sample nt' ((n + 2)%nat, Sock.VectorMath_Value)
    = Some (VFloat (distance_rgb c s)) /\
  eval_output (4 + fuel) sample nt' ((n + 5)%nat, Sock.Clamp_Result)
    = Some (VFloat (blend_factor tol c s)) /\
  eval_output (5 + fuel) sample nt' ((n + 6)%nat, Sock.MixRGB_Color)
    = Some (VColor (blend_step tol c (s, t))).
Proof.
  intros Hw Hlast Hc nt' n.
  assert (Hc' : eval_output fuel sample nt' last = Some (VColor c)).
  { unfold nt'. rewrite (remap_turn_frame sample tol i s t nt last lo); auto. }
  destruct fuel as [|f]; [discriminate|].
  assert (Hsrc : eval_output (S f) sample nt' ((n + 0)%nat, 0%nat)
                 = Some (VColor s)).
  { unfold nt', n. eval_node_at 0%nat. reflexivity. }
  assert (Htgt : eval_output (S f) sample nt' ((n + 1)%nat, 0%nat)
                 = Some (VColor t)).
  { unfold nt', n. eval_node_at 1%nat. reflexivity. }
  assert (Hdist : eval_output (S (S f)) sample nt' ((n + 2)%nat, 1%nat)
                  = Some (VFloat (distance_rgb c s))).
  { unfold nt', n. eval_node_at 2%nat. link_lookup.
    fold n. fold nt'. rewrite Hc', Hsrc. reflexivity. }
  assert (Hdiv : eval_output (S (S (S f))) sample nt' ((n + 3)%nat, 0%nat)
                 = Some (VFloat (distance_rgb c s / Rmax tol eps))).
  { unfold nt', n. eval_node_at 3%nat. link_lookup.
    fold n. fold nt'. rewrite Hdist. cbn [coerce].
    rewrite (no_link_beyond lo) by (auto; cbn [fst]; lia).
    now rewrite safe_divide_divisor. }
  assert (Hsub : eval_output (S (S (S (S f)))) sample nt' ((n + 4)%nat, 0%nat)
                 = Some (VFloat (1 - distance_rgb c s / Rmax tol eps))).
  { unfold nt', n. eval_node_at 4%nat. link_lookup.
    fold n. fold nt'. rewrite Hdiv. cbn [coerce].
    rewrite (no_link_beyond lo) by (auto; cbn [fst]; lia).
    reflexivity. }
  assert (Hclamp : eval_output (S (S (S (S (S f))))) sample nt' ((n + 5)%nat, 0%nat)
                   = Some (VFloat (blend_factor tol c s))).
  { unfold nt', n. eval_node_at 5%nat. link_lookup.
    fold n. fold nt'. rewrite Hsub. cbn [coerce].
    rewrite !(no_link_beyond lo) by (auto; cbn [fst]; lia).
    reflexivity. }
  split; [exact Hdist|]. split; [exact Hclamp|].
  change (5 + S f)%nat with (S (S (S (S (S (S f)))))).
  unfold Sock.MixRGB_Color.
  assert (Hc5 : eval_output (S (S (S (S (S f))))) sample nt' last = Some (VColor c)).
  { exact (eval_output_mono sample nt' (S f) 4 last _ Hc'). }
  assert (Ht5 : eval_output (S (S (S (S (S f))))) sample nt' ((n + 1)%nat, 0%nat)
                = Some (VColor t)).
  { exact (eval_output_mono sample nt' (S f) 4 _ _ Htgt). }
  unfold nt', n. eval_node_at 6%nat. link_lookup.
  fold n. fold nt'. rewrite Hclamp, Hc5, Ht5. cbn [coerce].
  unfold blend_step, blend_factor, factor_of_distance. cbn [fst snd].
  now rewrite clamp_idem, mix_blend_lerp.
Qed.

(** ** The whole loop *)

Lemma chain_blend_cons tol p rest c :
  chain_blend tol (p :: rest) c = chain_blend tol rest (blend_step tol c p).
Proof. reflexivity. Qed.


Lemma turn_loop_eval sample tol lo pairs :
  forall i nt last fuel c,
  links_within lo nt ->
  (lo <= fst last < length (nodes nt))%nat ->
  eval_output fuel sample nt last = Some (VColor c) ->
  let r := turn_loop tol i pairs nt last in
  links_within lo (fst r) /\
  (lo <= fst (snd r) < length (nodes (fst r)))%nat /\
  length (nodes (fst r)) = (length (nodes nt) + 7 * length pairs)%nat /\
  eval_output (5 * length pairs + fuel) sample (fst r) (snd r)
    = Some (VColor (chain_blend tol pairs c)) /\
  (forall f q, (lo <= fst q < length (nodes nt))%nat ->
     eval_output f sample (fst r) q = eval_output f sample nt q) /\
  (forall j s t, nth_error pairs j = Some (s, t) ->
     eval_output (1 + 5 * j + fuel) sample (fst r)
       ((length (nodes nt) + 7 * j + 2)%nat, Sock.VectorMath_Value)
     = Some (VFloat (distance_rgb (chain_blend tol (firstn j pairs) c) s)) /\
     eval_output (4 + 5 * j + fuel) sample (fst r)
       ((length (nodes nt) + 7 * j + 5)%nat, Sock.Clamp_Result)
     = Some (VFloat (blend_factor tol (chain_blend tol (firstn j pairs) c) s))).
Proof.
  induction pairs as [|[s t] rest IH]; intros i nt last fuel c Hw Hlast Hc.
  - cbn [turn_loop fst snd length].
    refine (conj Hw (conj Hlast (conj _ (conj Hc (conj _ _))))).
    + lia.
    + reflexivity.
    + intros [|j] s t Hj; discriminate.
  - cbn [turn_loop].
    pose proof (remap_turn_eval sample tol i s t nt last lo fuel c Hw Hlast Hc)
      as (Hd & Hcl & Hmix).
    pose proof (remap_turn_within tol i s t nt last lo Hw Hlast) as Hw1.
    pose proof (remap_turn_length tol i s t nt last) as Hlen1.
    pose proof (remap_turn_last tol i s t nt last) as Hlast1.
    pose proof (fun f q => remap_turn_frame sample tol i s t nt last lo f q Hw)
      as Hfr1.
    destruct (remap_turn tol i s t nt last) as [nt1 last1].
    cbn [fst snd] in *. subst last1.
    assert (Hr1 : (lo <= fst ((length (nodes nt) + 6)%nat, Sock.MixRGB_Color)
                   < length (nodes nt1))%nat) by (cbn [fst]; lia).
    destruct (IH (S i) nt1 _ (5 + fuel)%nat _ Hw1 Hr1 Hmix)
      as (Hw2 & Hr2 & Hlen2 & Hev2 & Hfr2 & Hd2).
    cbn zeta. refine (conj Hw2 (conj Hr2 (conj _ (conj _ (conj _ _))))).
    + rewrite Hlen2, Hlen1. cbn [length]. lia.
    + rewrite chain_blend_cons.
      replace (5 * length ((s, t) :: rest) + fuel)%nat
        with (5 * length rest + (5 + fuel))%nat by (cbn [length]; lia).
      exact Hev2.
    + intros f q Hq. rewrite Hfr2 by lia. now apply Hfr1.
    + intros [|j] s' t' Hj.
      * cbn [nth_error] in Hj. inversion Hj; subst s' t'.
        cbn [firstn]. rewrite !Hfr2 by (cbn [fst]; lia).
        replace (1 + 5 * 0 + fuel)%nat with (1 + fuel)%nat by lia.
        replace (4 + 5 * 0 + fuel)%nat with (4 + fuel)%nat by lia.
        replace (length (nodes nt) + 7 * 0 + 2)%nat
          with (length (nodes nt) + 2)%nat by lia.
        replace (length (nodes nt) + 7 * 0 + 5)%nat
          with (length (nodes nt) + 5)%nat by lia.
        split; [exact Hd | exact Hcl].
      * cbn [nth_error] in Hj. cbn [firstn]. rewrite chain_blend_cons.
        replace (1 + 5 * S j + fuel)%nat with (1 + 5 * j + (5 + fuel))%nat by lia.
        replace (4 + 5 * S j + fuel)%nat with (4 + 5 * j + (5 + fuel))%nat by lia.
        replace (length (nodes nt) + 7 * S j + 2)%nat
          with (length (nodes nt1) + 7 * j + 2)%nat by lia.
        replace (length (nodes nt) + 7 * S j + 5)%nat
          with (length (nodes nt1) + 7 * j + 5)%nat by lia.
        apply (Hd2 j s' t'). exact Hj.
Qed.

Lemma turn_loop_nodes tol pairs :
  forall i nt last,
  exists added, nodes (fst (turn_loop tol i pairs nt last)) = nodes nt ++ added.
Proof.
  induction pairs as [|[s t] rest IH]; intros i nt last.
  - exists []. cbn [turn_loop fst]. now rewrite app_nil_r.
  - cbn [turn_loop].
    pose proof (remap_turn_nodes tol i s t nt last) as H1.
    destruct (remap_turn tol i s t nt last) as [nt1 last1].
    cbn [fst] in H1.
    destruct (IH (S i) nt1 last1) as [added H2].
    exists (iteration_nodes tol i s t ++ added).
    now rewrite H2, H1, app_assoc.
Qed.

Lemma turn_loop_links tol lo pairs :
  forall i nt last,
  links_within lo nt ->
  (lo <= fst last < length (nodes nt))%nat ->
  let r := turn_loop tol i pairs nt last in
  (forall q, (fst q < length (nodes nt))%nat -> link_to (fst r) q = link_to nt q) /\
  (forall j, (j < length pairs)%nat ->
     link_to (fst r) ((length (nodes nt) + 7 * j + 6)%nat, 1%nat)
       = Some (previous_output (length (nodes nt)) last j) /\
     link_to (fst r) ((length (nodes nt) + 7 * j + 2)%nat, 0%nat)
       = Some (previous_output (length (nodes nt)) last j)).
Proof.
  induction pairs as [|[s t] rest IH]; intros i nt last Hw Hlast.
  - cbn [turn_loop fst length]. split; [reflexivity|]. intros j Hj. lia.
  - cbn [turn_loop].
    pose proof (remap_turn_within tol i s t nt last lo Hw Hlast) as Hw1.
    pose proof (remap_turn_length tol i s t nt last) as Hlen1.
    pose proof (remap_turn_last tol i s t nt last) as Hlast1.
    pose proof (fun q => remap_turn_links tol i s t nt last q) as Hl1.
    destruct (remap_turn tol i s t nt last) as [nt1 last1].
    cbn [fst snd] in *. subst last1.
    assert (Hr1 : (lo <= fst ((length (nodes nt) + 6)%nat, Sock.MixRGB_Color)
                   < length (nodes nt1))%nat) by (cbn [fst]; lia).
    destruct (IH (S i) nt1 _ Hw1 Hr1) as (Hk & Hj').
    cbn zeta. split.
    + intros q Hq. rewrite Hk by lia. rewrite Hl1.
      unfold iteration_link, socket_eqb. cbn [fst snd]. decide_eqb. reflexivity.
    + intros [|j] Hj.
      * rewrite !Hk by (cbn [fst]; lia). rewrite !Hl1.
        unfold iteration_link, socket_eqb. cbn [fst snd]. decide_eqb.
        split; reflexivity.
      * cbn [length] in Hj. assert (Hjr : (j < length rest)%nat) by lia.
        destruct (Hj' j Hjr) as [Hmix Hdist].
        replace (length (nodes nt) + 7 * S j + 6)%nat
          with (length (nodes nt1) + 7 * j + 6)%nat by lia.
        replace (length (nodes nt) + 7 * S j + 2)%nat
          with (length (nodes nt1) + 7 * j + 2)%nat by lia.
        rewrite Hmix, Hdist.
        assert (E : previous_output (length (nodes nt1))
                      ((length (nodes nt) + 6)%nat, Sock.MixRGB_Color) j
                    = previous_output (length (nodes nt)) last (S j)).
        { destruct j as [|j]; cbn [previous_output]; f_equal; lia. }
        rewrite E. split; reflexivity.
Qed.

(** ** The tree of the remap material *)

Lemma turn_tree_eq src_img pairs tol nt :
  turn_tree src_img pairs tol nt =
  let r := turn_loop tol 0 pairs (base_nodes_tree src_img)
                      (2%nat, Sock.TexImage_Color) in
  (links_new (1%nat, Sock.Bsdf_BSDF) (0%nat, Sock.Output_Surface)
     (links_new (snd r) (1%nat, Sock.Bsdf_Base_Color) (fst r)), 1%nat).
Proof.
  unfold turn_tree, nodes_clear, nodes_new, node_set.
  cbn [nodes links length app list_update fst snd].
  change (mkTree _ []) with (base_nodes_tree src_img).
  destruct (turn_loop tol 0 pairs (base_nodes_tree src_img) _) as [nt1 last1].
  reflexivity.
Qed.

Lemma base_nodes_within src_img : links_within 2 (base_nodes_tree src_img).
Proof. intros q src H. discriminate. Qed.

(** The tree built for [pairs]: what reaches the Base Color input of the
    Principled BSDF, what its Surface output delivers, and what each
    distance node computes. *)
Lemma turn_tree_eval sample src_img pairs tol nt0 extra :
  let nt := fst (turn_tree src_img pairs tol nt0) in
  let bsdf := snd (turn_tree src_img pairs tol nt0) in
  let c0 := sample src_img in
  eval_input (extra + (5 * length pairs + 1)) sample nt (bsdf, Sock.Bsdf_Base_Color)
    = Some (VColor (chain_blend tol pairs c0)) /\
  eval_input (extra + (5 * length pairs + 2)) sample nt (0%nat, Sock.Output_Surface)
    = Some (VShader (chain_blend tol pairs c0)) /\
  (forall j s t, nth_error pairs j = Some (s, t) ->
     eval_output (extra + (5 * j + 2)) sample nt
       ((3 + 7 * j + 2)%nat, Sock.VectorMath_Value)
     = Some (VFloat (distance_rgb (chain_blend tol (firstn j pairs) c0) s)) /\
     eval_output (extra + (5 * j + 5)) sample nt
       ((3 + 7 * j + 5)%nat, Sock.Clamp_Result)
     = Some (VFloat (blend_factor tol (chain_blend tol (firstn j pairs) c0) s))).
Proof.
  rewrite turn_tree_eq. cbn zeta. cbn [fst snd].
  set (t0 := base_nodes_tree src_img).
  assert (H0 : eval_output 1 sample t0 (2%nat, Sock.TexImage_Color)
               = Some (VColor (sample src_img))) by reflexivity.
  assert (Hr0 : (2 <= fst (2%nat, Sock.TexImage_Color) < length (nodes t0))%nat)
    by (cbn; lia).
  destruct (turn_loop_eval sample tol 2 pairs 0 t0 _ 1%nat _
              (base_nodes_within src_img) Hr0 H0)
    as (Hw & Hr & Hlen & Hev & _ & Hd).
  destruct (turn_loop_nodes tol pairs 0 t0 (2%nat, Sock.TexImage_Color))
    as [added Hnodes].
  set (r := turn_loop tol 0 pairs t0 (2%nat, Sock.TexImage_Color)) in *.
  set (nt := links_new _ _ (links_new _ _ (fst r))).
  assert (Hfr : forall f q, (2 <= fst q < length (nodes (fst r)))%nat ->
            eval_output f sample nt q = eval_output f sample (fst r) q).
  { intros f q Hq. apply (eval_frame sample 2); auto.
    intros q' Hq'. unfold nt. rewrite !link_to_links_new.
    unfold socket_eqb; cbn [fst snd]. decide_eqb. reflexivity. }
  assert (Hbase : forall f, eval_input (f + (5 * length pairs + 1)) sample nt
                     (1%nat, Sock.Bsdf_Base_Color)
                   = Some (VColor (chain_blend tol pairs (sample src_img)))).
  { intros f. unfold eval_input. cbn [fst snd].
    change (nodes nt) with (nodes (fst r)). rewrite Hnodes.
    cbn [nth_error t0 base_nodes_tree nodes app].
    unfold input_value. cbn [inputs default_inputs nth_error].
    unfold nt at 1. rewrite !link_to_links_new.
    unfold socket_eqb; cbn [fst snd Nat.eqb andb
      Sock.Bsdf_Base_Color Sock.Output_Surface].
    rewrite Hfr by exact Hr.
    rewrite (eval_output_mono sample (fst r) _ f _ _ Hev). reflexivity. }
  refine (conj (Hbase extra) (conj _ _)).
  - unfold eval_input. cbn [fst snd].
    change (nodes nt) with (nodes (fst r)). rewrite Hnodes.
    cbn [nth_error t0 base_nodes_tree nodes app].
    unfold input_value. cbn [inputs default_inputs nth_error].
    unfold nt at 1. rewrite !link_to_links_new.
    unfold socket_eqb; cbn [fst snd Nat.eqb andb
      Sock.Bsdf_Base_Color Sock.Output_Surface].
    replace (extra + (5 * length pairs + 2))%nat
      with (S (extra + (5 * length pairs + 1)))%nat by lia.
    rewrite eval_output_S. cbn [fst snd].
    change (nodes nt) with (nodes (fst r)). rewrite Hnodes.
    cbn [nth_error t0 base_nodes_tree nodes app Sock.Bsdf_BSDF].
    unfold node_eval. cbn [bl_idname].
    pose proof (Hbase extra) as Hb. unfold eval_input in Hb.
    cbn [fst snd] in Hb. change (nodes nt) with (nodes (fst r)) in Hb.
    rewrite Hnodes in Hb. cbn [nth_error t0 base_nodes_tree nodes app] in Hb.
    unfold Sock.Bsdf_Base_Color in Hb. rewrite Hb. reflexivity.
  - intros j s t Hj.
    assert (Hjlen : (j < length pairs)%nat).
    { apply nth_error_Some. rewrite Hj. discriminate. }
    rewrite !Hfr by (cbn [fst]; rewrite Hlen; cbn; lia).
    replace (5 * j + 2)%nat with (1 + 5 * j + 1)%nat by lia.
    replace (5 * j + 5)%nat with (4 + 5 * j + 1)%nat by lia.
    destruct (Hd j s t Hj) as [Hdj Hcj].
    split; apply eval_output_mono; assumption.
Qed.


(** ** Pairs of four-channel colours: the loop does not raise *)

Lemma color_of_seq_of_color c : color_of_seq (seq_of_color c) = Some c.
Proof. destruct c; reflexivity. Qed.

Lemma socket_color_nonneg c : nonneg c -> socket_color c = c.
Proof.
  destruct c as [r g b a]. intros (Hr & Hg & Hb & Ha). cbn in *.
  unfold socket_color; cbn [red green blue alpha].
  now rewrite !Rmax_left by assumption.
Qed.

Lemma socket_color_is_nonneg c : nonneg (socket_color c).
Proof.
  unfold nonneg, socket_color; cbn [red green blue alpha].
  repeat split; apply Rmax_r.
Qed.

Lemma stored_pairs_nonneg pairs :
  Forall nonneg_pair pairs -> stored_pairs pairs = pairs.
Proof.
  induction 1 as [|[s t] rest [Hs Ht] _ IH]; [reflexivity|].
  cbn [fst snd] in Hs, Ht.
  change (stored_pairs ((s, t) :: rest))
    with ((socket_color s, socket_color t) :: stored_pairs rest).
  now rewrite IH, (socket_color_nonneg s Hs), (socket_color_nonneg t Ht).
Qed.

Lemma length_stored_pairs pairs : length (stored_pairs pairs) = length pairs.
Proof. apply length_map. Qed.

Lemma length_py_pairs pairs : length (py_pairs pairs) = length pairs.
Proof. apply length_map. Qed.

Lemma remap_iteration_wf tol i s t nt last :
  remap_iteration tol i (seq_of_color s) (seq_of_color t) nt last =
  (fst (remap_turn tol i (socket_color s) (socket_color t) nt last),
   Return (snd (remap_turn tol i (socket_color s) (socket_color t) nt last))).
Proof. destruct s, t. reflexivity. Qed.

Lemma remap_loop_wf tol pairs :
  forall i nt last,
  remap_loop tol i (py_pairs pairs) nt last =
  (fst (turn_loop tol i (stored_pairs pairs) nt last),
   Return (snd (turn_loop tol i (stored_pairs pairs) nt last))).
Proof.
  induction pairs as [|[s t] rest IH]; intros i nt last.
  - reflexivity.
  - cbn [py_pairs stored_pairs List.map py_pair stored_pair fst snd
         remap_loop turn_loop].
    rewrite remap_iteration_wf.
    destruct (remap_turn tol i (socket_color s) (socket_color t) nt last)
      as [nt1 last1].
    cbn [fst snd]. apply IH.
Qed.

Lemma build_remap_tree_wf src_img pairs tol nt :
  build_remap_tree src_img (py_pairs pairs) tol nt =
  (fst (turn_tree src_img (stored_pairs pairs) tol nt),
   Return (snd (turn_tree src_img (stored_pairs pairs) tol nt))).
Proof.
  unfold build_remap_tree, turn_tree.
  cbn [nodes_new nodes_clear nodes links fst snd length app].
  rewrite remap_loop_wf.
  match goal with
  | |- context [turn_loop ?a ?b ?c ?d ?e] => destruct (turn_loop a b c d e) as [nt1 l1]
  end.
  reflexivity.
Qed.

(** ** [apply_color_remaps] as a whole *)

Lemma nth_error_app_length {A} (l l' : list A) :
  nth_error (l ++ l') (length l) = nth_error l' 0.
Proof.
  rewrite <- (Nat.add_0_r (length l)). apply nth_error_app_offset.
Qed.

Lemma nth_error_app_keeps {A} (l l' : list A) (h : nat) (x : A) :
  nth_error l h = Some x -> nth_error (l ++ l') h = Some x.
Proof.
  intros H. rewrite nth_error_app_below; [exact H|].
  apply nth_error_Some. rewrite H. discriminate.
Qed.

Lemma turn_tree_any src_img pairs tol nt :
  turn_tree src_img pairs tol nt = turn_tree src_img pairs tol empty_tree.
Proof. reflexivity. Qed.

Lemma build_remap_tree_any src_img pairs tol nt :
  build_remap_tree src_img pairs tol nt =
  build_remap_tree src_img pairs tol empty_tree.
Proof. reflexivity. Qed.

Lemma apply_color_remaps_failure d base_obj variant_obj pairs tol :
  variant_obj = None \/ image_source d base_obj = None ->
  apply_color_remaps d base_obj variant_obj pairs tol = (d, Return None).
Proof.
  unfold apply_color_remaps, image_source.
  destruct base_obj as [base|]; [|reflexivity].
  destruct variant_obj as [variant|]; [|reflexivity].
  intros [H|H]; [discriminate|].
  destruct (active_material d base) as [h|]; [|reflexivity].
  destruct (nth_error (materials d) h) as [mt|]; [|reflexivity].
  now rewrite H.
Qed.

(** Every way a call can end once the image source is found: the new
    material is in [bpy.data.materials] in each of them, the slots change
    only when the call returns. *)
Lemma apply_color_remaps_started d base variant pairs tol src_img :
  image_source d (Some base) = Some src_img ->
  let r := apply_color_remaps d (Some base) (Some variant) pairs tol in
  let built := build_remap_tree src_img pairs tol empty_tree in
  materials (fst r)
    = materials d ++ [mkMaterial (remap_material_name d variant) true (fst built)] /\
  unique_name (fst r) = unique_name d /\
  match snd built, data variant with
  | Return _, Some me =>
      snd r = Return (Some (length (materials d))) /\
      (forall k, mesh_materials (fst r) k =
                 if Nat.eqb k me then [Some (length (materials d))]
                 else mesh_materials d k)
  | Return _, None =>
      snd r = Raise AttributeError /\ mesh_materials (fst r) = mesh_materials d
  | Raise e, _ =>
      snd r = Raise e /\ mesh_materials (fst r) = mesh_materials d
  end.
Proof.
  unfold apply_color_remaps, image_source.
  destruct (active_material d base) as [h|]; [|discriminate].
  destruct (nth_error (materials d) h) as [mt|]; [|discriminate].
  intros ->. cbn zeta.
  unfold materials_new. cbn [fst snd].
  match goal with
  | |- context [build_remap_tree ?i ?p ?t (material_tree ?dd ?m)] =>
      change (build_remap_tree i p t (material_tree dd m))
        with (build_remap_tree i p t empty_tree)
  end.
  destruct (build_remap_tree src_img pairs tol empty_tree) as [nt built].
  cbn [fst snd].
  unfold material_set, mesh_materials_append, mesh_materials_clear, mesh_set.
  cbn [materials mesh_materials unique_name].
  repeat (rewrite list_update_app_0; cbn [list_update]).
  cbn [enable_nodes set_node_tree mat_name use_nodes node_tree].
  destruct built as [b|e].
  - destruct (data variant) as [me|]; cbn [fst snd materials mesh_materials unique_name].
    + refine (conj eq_refl (conj eq_refl (conj eq_refl _))).
      intros k. rewrite Nat.eqb_refl. destruct (Nat.eqb k me); reflexivity.
    + refine (conj eq_refl (conj eq_refl (conj eq_refl eq_refl))).
  - cbn [fst snd materials mesh_materials unique_name].
    refine (conj eq_refl (conj eq_refl (conj eq_refl eq_refl))).
Qed.

Lemma apply_color_remaps_success d base variant pairs tol src_img me :
  image_source d (Some base) = Some src_img ->
  data variant = Some me ->
  let r := apply_color_remaps d (Some base) (Some variant) (py_pairs pairs) tol in
  snd r = Return (Some (length (materials d))) /\
  materials (fst r)
    = materials d ++ [remap_material d variant src_img (stored_pairs pairs) tol] /\
  (forall k, mesh_materials (fst r) k =
             if Nat.eqb k me then [Some (length (materials d))]
             else mesh_materials d k).
Proof.
  intros Himg Hme.
  pose proof (apply_color_remaps_started d base variant (py_pairs pairs) tol
                src_img Himg) as H.
  cbn zeta in H. rewrite build_remap_tree_wf, Hme in H. cbn [fst snd] in H.
  destruct H as (Hm & _ & Hr & Hs).
  cbn zeta. refine (conj Hr (conj Hm Hs)).
Qed.

Lemma remap_material_tree_success d base variant pairs tol src_img me :
  image_source d (Some base) = Some src_img ->
  data variant = Some me ->
  remap_material_tree d (Some base) (Some variant) (py_pairs pairs) tol =
  Some (fst (turn_tree src_img (stored_pairs pairs) tol empty_tree)).
Proof.
  intros H Hme. unfold remap_material_tree.
  destruct (apply_color_remaps_success d base variant pairs tol src_img me H Hme)
    as (Hr & Hm & _).
  destruct (apply_color_remaps d (Some base) (Some variant) (py_pairs pairs) tol)
    as [d' r].
  cbn [fst snd] in *. subst r. rewrite Hm, nth_error_app_length.
  reflexivity.
Qed.

Lemma turn_tree_output src_img pairs tol :
  find_node "OUTPUT_MATERIAL"
    (nodes (fst (turn_tree src_img pairs tol empty_tree))) = Some 0%nat.
Proof.
  rewrite turn_tree_eq. cbn zeta. cbn [fst]. rewrite !nodes_links_new.
  destruct (turn_loop_nodes tol pairs 0 (base_nodes_tree src_img)
              (2%nat, Sock.TexImage_Color)) as [added ->].
  reflexivity.
Qed.

(** The colour the remap tree shades with is the chained blend of the
    texture sample. *)
Lemma remap_tree_surface sample src_img pairs tol extra :
  surface_color (extra + (5 * length pairs + 2)) sample
    (fst (turn_tree src_img pairs tol empty_tree))
  = Some (chain_blend tol pairs (sample src_img)).
Proof.
  unfold surface_color. rewrite turn_tree_output.
  destruct (turn_tree_eval sample src_img pairs tol empty_tree extra)
    as (_ & H & _).
  cbn zeta in H. now rewrite H.
Qed.

Lemma turn_tree_bsdf src_img pairs tol :
  option_map bl_idname
    (nth_error (nodes (fst (turn_tree src_img pairs tol empty_tree))) 1)
  = Some ShaderNodeBsdfPrincipled /\
  snd (turn_tree src_img pairs tol empty_tree) = 1%nat.
Proof.
  rewrite turn_tree_eq. cbn zeta. cbn [fst snd]. rewrite !nodes_links_new.
  destruct (turn_loop_nodes tol pairs 0 (base_nodes_tree src_img)
              (2%nat, Sock.TexImage_Color)) as [added ->].
  split; reflexivity.
Qed.

(** The colour the returned material shades with: the chained blend of the
    texture sample over the pairs as the RGB nodes hold them. *)
Lemma remap_output_chain sample d base variant pairs tol src_img me extra :
  image_source d (Some base) = Some src_img ->
  data variant = Some me ->
  remap_output (extra + (5 * length pairs + 2)) sample d base variant
               (py_pairs pairs) tol
  = Some (chain_blend tol (stored_pairs pairs) (sample src_img)).
Proof.
  intros H Hme. unfold remap_output.
  rewrite (remap_material_tree_success d base variant pairs tol src_img me H Hme).
  rewrite <- (length_stored_pairs pairs).
  apply remap_tree_surface.
Qed.

Lemma remap_output_chain_nonneg sample d base variant pairs tol src_img me extra :
  image_source d (Some base) = Some src_img ->
  data variant = Some me ->
  Forall nonneg_pair pairs ->
  remap_output (extra + (5 * length pairs + 2)) sample d base variant
               (py_pairs pairs) tol
  = Some (chain_blend tol pairs (sample src_img)).
Proof.
  intros H Hme Hnn.
  rewrite (remap_output_chain sample d base variant pairs tol src_img me extra H Hme).
  now rewrite stored_pairs_nonneg.
Qed.

Lemma single_pair_output sample d base variant s t tol src_img me extra :
  image_source d (Some base) = Some src_img ->
  data variant = Some me ->
  remap_output (extra + 7) sample d base variant (py_pairs [(s, t)]) tol
  = Some (lerp (sample src_img) (socket_color t)
               (blend_factor tol (sample src_img) (socket_color s))).
Proof.
  intros H Hme.
  change (extra + 7)%nat with (extra + (5 * length [(s, t)] + 2))%nat.
  rewrite (remap_output_chain sample d base variant [(s, t)] tol src_img me extra
             H Hme).
  reflexivity.
Qed.


Lemma distance_rgb_red c s :
  green c = green s -> blue c = blue s ->
  distance_rgb c s = Rabs (red c - red s).
Proof.
  intros Hg Hb. unfold distance_rgb. rewrite Hg, Hb.
  replace (Rsqr (red c - red s) + Rsqr (green s - green s)
           + Rsqr (blue s - blue s))
    with (Rsqr (red c - red s)) by (unfold Rsqr; lra).
  apply sqrt_Rsqr_abs.
Qed.

Lemma distance_rgba_red c s :
  green c = green s -> blue c = blue s -> alpha c = alpha s ->
  distance_rgba c s = Rabs (red c - red s).
Proof.
  intros Hg Hb Ha. unfold distance_rgba. rewrite Hg, Hb, Ha.
  replace (Rsqr (red c - red s) + Rsqr (green s - green s)
           + Rsqr (blue s - blue s) + Rsqr (alpha s - alpha s))
    with (Rsqr (red c - red s)) by (unfold Rsqr; lra).
  apply sqrt_Rsqr_abs.
Qed.

Lemma distance_rgba_alpha c s :
  red c = red s -> green c = green s -> blue c = blue s ->
  distance_rgba c s = Rabs (alpha c - alpha s).
Proof.
  intros Hr Hg Hb. unfold distance_rgba. rewrite Hr, Hg, Hb.
  replace (Rsqr (red s - red s) + Rsqr (green s - green s)
           + Rsqr (blue s - blue s) + Rsqr (alpha c - alpha s))
    with (Rsqr (alpha c - alpha s)) by (unfold Rsqr; lra).
  apply sqrt_Rsqr_abs.
Qed.


Lemma color_neq_green c1 c2 : green c1 <> green c2 -> c1 <> c2.
Proof. intros H E. apply H. now rewrite E. Qed.

Lemma blend_factor_self tol c s :
  red c = red s -> green c = green s -> blue c = blue s ->
  blend_factor tol c s = 1.
Proof.
  intros Hr Hg Hb. unfold blend_factor.
  rewrite distance_rgb_self_rgb by assumption.
  apply factor_of_distance_zero.
Qed.

(** What the colour sockets hold of the example colours. *)
Lemma socket_color_below : socket_color ex_below = ex_black.
Proof.
  unfold socket_color, ex_below, ex_black; cbn [red green blue alpha].
  rewrite (Rmax_right (-1/2) 0) by lra.
  rewrite (Rmax_left 0 0) by lra. rewrite (Rmax_left 1 0) by lra. reflexivity.
Qed.

Lemma nonneg_yellow : nonneg ex_yellow.
Proof. unfold nonneg, ex_yellow; cbn [red green blue alpha]. lra. Qed.

Lemma nonneg_blue : nonneg ex_blue.
Proof. unfold nonneg, ex_blue; cbn [red green blue alpha]. lra. Qed.

Lemma nonneg_black : nonneg ex_black.
Proof. unfold nonneg, ex_black; cbn [red green blue alpha]. lra. Qed.

Lemma socket_color_yellow : socket_color ex_yellow = ex_yellow.
Proof. apply socket_color_nonneg, nonneg_yellow. Qed.

Lemma socket_color_blue : socket_color ex_blue = ex_blue.
Proof. apply socket_color_nonneg, nonneg_blue. Qed.

(** ** C1: the graph computes the chained blend *)




(** ** C2: the distance that drives the blend factor *)

(** C2, as stated, fails twice over.  The alpha channel does not enter:
    with the pair yellow -> blue and a texel that is yellow with alpha 1/2,
    the four-channel distance to the source is 1/2, but the distance node
    delivers 0 and the texel is replaced in full.  And the distance is
    taken to the source as the RGB node holds it: with the source
    (-1/2, 0, 0, 1) and a black texel the distance to the given source is
    1/2 over three channels and over four, but the node delivers 0. *)
Lemma C2_distance_counterexample :
  (distance_rgba ex_yellow_half_alpha ex_yellow = 1 / 2 /\
   exists nt,
     remap_material_tree ex_data (Some ex_base) (Some ex_variant)
                         (py_pairs [(ex_yellow, ex_blue)]) (1/10) = Some nt /\
     eval_output 2 (fun _ => ex_yellow_half_alpha) nt (5%nat, Sock.VectorMath_Value)
       = Some (VFloat 0) /\
     eval_output 2 (fun _ => ex_yellow_half_alpha) nt (5%nat, Sock.VectorMath_Value)
       <> Some (VFloat (distance_rgba ex_yellow_half_alpha ex_yellow)) /\
     surface_color 7 (fun _ => ex_yellow_half_alpha) nt = Some ex_blue) /\
  (distance_rgba ex_black ex_below = 1 / 2 /\
   distance_rgb ex_black ex_below = 1 / 2 /\
   exists nt,
     remap_material_tree ex_data (Some ex_base) (Some ex_variant)
                         (py_pairs [(ex_below, ex_blue)]) (1/10) = Some nt /\
     eval_output 2 (fun _ => ex_black) nt (5%nat, Sock.VectorMath_Value)
       = Some (VFloat 0) /\
     eval_output 2 (fun _ => ex_black) nt (5%nat, Sock.VectorMath_Value)
       <> Some (VFloat (distance_rgba ex_black ex_below))).
Proof.
  split.
  - assert (Hd4 : distance_rgba ex_yellow_half_alpha ex_yellow = 1 / 2).
    { rewrite distance_rgba_alpha by reflexivity.
      cbn [alpha ex_yellow_half_alpha ex_yellow].
      rewrite Rabs_left by lra. lra. }
    assert (Hd3 : distance_rgb ex_yellow_half_alpha ex_yellow = 0).
    { now apply distance_rgb_self_rgb. }
    split; [exact Hd4|].
    exists (fst (turn_tree ex_image (stored_pairs [(ex_yellow, ex_blue)]) (1/10)
                   empty_tree)).
    destruct (turn_tree_eval (fun _ => ex_yellow_half_alpha) ex_image
                (stored_pairs [(ex_yellow, ex_blue)]) (1/10) empty_tree 0)
      as (_ & _ & Hd).
    cbn zeta in Hd.
    destruct (Hd 0%nat (socket_color ex_yellow) (socket_color ex_blue) eq_refl)
      as [Hd0 _].
    clear Hd. rename Hd0 into Hd.
    cbn [firstn chain_blend fold_left] in Hd.
    rewrite socket_color_yellow, Hd3 in Hd.
    change (0 + (5 * 0 + 2))%nat with 2%nat in Hd.
    change (3 + 7 * 0 + 2)%nat with 5%nat in Hd.
    refine (conj _ (conj Hd (conj _ _))).
    + now apply (remap_material_tree_success ex_data ex_base ex_variant
                   [(ex_yellow, ex_blue)] (1/10) ex_image 1%nat).
    + rewrite Hd, Hd4. intros E. inversion E. lra.
    + change 7%nat
        with (0 + (5 * length (stored_pairs [(ex_yellow, ex_blue)]) + 2))%nat.
      rewrite (remap_tree_surface (fun _ => ex_yellow_half_alpha) ex_image
                 (stored_pairs [(ex_yellow, ex_blue)]) (1/10) 0).
      cbn [chain_blend fold_left stored_pairs List.map stored_pair fst snd].
      unfold blend_step, stored_pair. cbn [fst snd].
      rewrite socket_color_yellow, socket_color_blue.
      rewrite blend_factor_self by reflexivity. now rewrite lerp_one.
  - assert (Hd4 : distance_rgba ex_black ex_below = 1 / 2).
    { rewrite distance_rgba_red by reflexivity.
      cbn [red ex_black ex_below]. rewrite Rabs_right by lra. lra. }
    assert (Hd3 : distance_rgb ex_black ex_below = 1 / 2).
    { rewrite distance_rgb_red by reflexivity.
      cbn [red ex_black ex_below]. rewrite Rabs_right by lra. lra. }
    refine (conj Hd4 (conj Hd3 _)).
    exists (fst (turn_tree ex_image (stored_pairs [(ex_below, ex_blue)]) (1/10)
                   empty_tree)).
    destruct (turn_tree_eval (fun _ => ex_black) ex_image
                (stored_pairs [(ex_below, ex_blue)]) (1/10) empty_tree 0)
      as (_ & _ & Hd).
    cbn zeta in Hd.
    destruct (Hd 0%nat (socket_color ex_below) (socket_color ex_blue) eq_refl)
      as [Hd0 _].
    clear Hd. rename Hd0 into Hd.
    cbn [firstn chain_blend fold_left] in Hd.
    rewrite socket_color_below in Hd.
    rewrite (distance_rgb_self_rgb ex_black ex_black) in Hd by reflexivity.
    change (0 + (5 * 0 + 2))%nat with 2%nat in Hd.
    change (3 + 7 * 0 + 2)%nat with 5%nat in Hd.
    refine (conj _ (conj Hd _)).
    + now apply (remap_material_tree_success ex_data ex_base ex_variant
                   [(ex_below, ex_blue)] (1/10) ex_image 1%nat).
    + rewrite Hd, Hd4. intros E. inversion E. lra.
Qed.

(** C2, amended.  For every pair of the chain, the distance node of that
    pair delivers the Euclidean distance over the three channels R, G and B
    between the current colour and the pair's source as the RGB node holds
    it (the given source when it has no negative channel), and the clamp
    node of the pair turns exactly that distance into the blend factor; the
    alpha channel does not enter, so two colours that differ only in alpha
    are at distance 0. *)
Theorem C2_distance_over_rgb :
  forall d base variant me pairs tol src_img (sample : Image -> color) extra j s t,
  image_source d (Some base) = Some src_img ->
  data variant = Some me ->
  nth_error pairs j = Some (s, t) ->
  exists nt,
    remap_material_tree d (Some base) (Some variant) (py_pairs pairs) tol = Some nt /\
    eval_output (extra + (5 * j + 2)) sample nt
                ((3 + 7 * j + 2)%nat, Sock.VectorMath_Value)
      = Some (VFloat (distance_rgb
                        (chain_blend tol (firstn j (stored_pairs pairs))
                                     (sample src_img))
                        (socket_color s))) /\
    eval_output (extra + (5 * j + 5)) sample nt
                ((3 + 7 * j + 5)%nat, Sock.Clamp_Result)
      = Some (VFloat (factor_of_distance tol
                        (distance_rgb
                           (chain_blend tol (firstn j (stored_pairs pairs))
                                        (sample src_img))
                           (socket_color s)))) /\
    (Forall nonneg_pair pairs ->
     eval_output (extra + (5 * j + 2)) sample nt
                 ((3 + 7 * j + 2)%nat, Sock.VectorMath_Value)
       = Some (VFloat (distance_rgb
                         (chain_blend tol (firstn j pairs) (sample src_img)) s))) /\
    (forall c c', red c = red c' -> green c = green c' -> blue c = blue c' ->
                  distance_rgb c c' = 0).
Proof.
  intros d base variant me pairs tol src_img sample extra j s t Himg Hme Hj.
  exists (fst (turn_tree src_img (stored_pairs pairs) tol empty_tree)).
  destruct (turn_tree_eval sample src_img (stored_pairs pairs) tol empty_tree extra)
    as (_ & _ & Hd).
  assert (Hj' : nth_error (stored_pairs pairs) j
                = Some (socket_color s, socket_color t)).
  { unfold stored_pairs. rewrite nth_error_map, Hj. reflexivity. }
  destruct (Hd j _ _ Hj') as [Hdj Hcj].
  refine (conj _ (conj Hdj (conj Hcj (conj _ distance_rgb_self_rgb)))).
  - now apply (remap_material_tree_success d base variant pairs tol src_img me).
  - intros Hnn. rewrite Hdj. rewrite stored_pairs_nonneg by exact Hnn.
    rewrite Forall_forall in Hnn.
    destruct (Hnn (s, t) (nth_error_In _ _ Hj)) as [Hs _].
    now rewrite (socket_color_nonneg s Hs).
Qed.

Lemma C2_distance_over_rgb_witness :
  image_source ex_data (Some ex_base) = Some ex_image /\
  data ex_variant = Some 1%nat /\
  nth_error [(ex_yellow, ex_blue); (ex_blue, ex_black)] 1 = Some (ex_blue, ex_black) /\
  exists nt,
    remap_material_tree ex_data (Some ex_base) (Some ex_variant)
      (py_pairs [(ex_yellow, ex_blue); (ex_blue, ex_black)]) (1/10) = Some nt /\
    eval_output (0 + (5 * 1 + 2)) (fun _ => ex_yellow) nt
                ((3 + 7 * 1 + 2)%nat, Sock.VectorMath_Value)
      = Some (VFloat (distance_rgb
                        (chain_blend (1/10)
                           (firstn 1 (stored_pairs
                                        [(ex_yellow, ex_blue); (ex_blue, ex_black)]))
                           ex_yellow)
                        (socket_color ex_blue))) /\
    eval_output (0 + (5 * 1 + 5)) (fun _ => ex_yellow) nt
                ((3 + 7 * 1 + 5)%nat, Sock.Clamp_Result)
      = Some (VFloat (factor_of_distance (1/10)
                        (distance_rgb
                           (chain_blend (1/10)
                              (firstn 1 (stored_pairs
                                           [(ex_yellow, ex_blue); (ex_blue, ex_black)]))
                              ex_yellow)
                           (socket_color ex_blue)))) /\
    (Forall nonneg_pair [(ex_yellow, ex_blue); (ex_blue, ex_black)] ->
     eval_output (0 + (5 * 1 + 2)) (fun _ => ex_yellow) nt
                 ((3 + 7 * 1 + 2)%nat, Sock.VectorMath_Value)
       = Some (VFloat (distance_rgb
                         (chain_blend (1/10)
                            (firstn 1 [(ex_yellow, ex_blue); (ex_blue, ex_black)])
                            ex_yellow) ex_blue))) /\
    (forall c c', red c = red c' -> green c = green c' -> blue c = blue c' ->
                  distance_rgb c c' = 0).
Proof.
  split; [reflexivity|]. split; [reflexivity|]. split; [reflexivity|].
  apply (C2_distance_over_rgb ex_data ex_base ex_variant 1%nat
           [(ex_yellow, ex_blue); (ex_blue, ex_black)] (1/10) ex_image
           (fun _ => ex_yellow) 0 1 ex_blue ex_black); reflexivity.
Defined.

(** ** C3-C5: a chain with a single pair *)

(** C3, as stated, fails in two ways.  A negative channel of the target is
    held as 0: with the pair yellow -> (-1/2, 0, 0, 1) and the texel yellow
    the graph delivers black, not the target.  And "exactly" does not
    survive single precision: on the scenario of the specification (yellow
    -> blue, tolerance 0.1, texel yellow) the blend factor is exactly 1,
    but the Mix node computes [0.8 + 1 * (0.2 - 0.8)] in binary32, which is
    13421772 * 2^-26, one unit in the last place below the target's green
    channel 13421773 * 2^-26. *)
Lemma C3_exact_match_counterexample :
  (remap_output 7 (fun _ => ex_yellow) ex_data ex_base ex_variant
                (py_pairs [(ex_yellow, ex_below)]) (1/10) = Some ex_black /\
   remap_output 7 (fun _ => ex_yellow) ex_data ex_base ex_variant
                (py_pairs [(ex_yellow, ex_below)]) (1/10) <> Some ex_below) /\
  (Single.blend_factor ex_tolerance32 ex_yellow32 ex_yellow32 = Single.one /\
   Single.green32 (Single.blend_step ex_tolerance32 ex_yellow32
                                     (ex_yellow32, ex_blue32))
     = S754_finite false 13421772 (-26) /\
   Single.green32 ex_blue32 = S754_finite false 13421773 (-26) /\
   Single.blend_step ex_tolerance32 ex_yellow32 (ex_yellow32, ex_blue32)
     <> ex_blue32).
Proof.
  split.
  - assert (Ho : remap_output 7 (fun _ => ex_yellow) ex_data ex_base ex_variant
                   (py_pairs [(ex_yellow, ex_below)]) (1/10) = Some ex_black).
    { change 7%nat with (0 + 7)%nat.
      rewrite (single_pair_output (fun _ => ex_yellow) ex_data ex_base ex_variant
                 ex_yellow ex_below (1/10) ex_image 1%nat 0 eq_refl eq_refl).
      rewrite socket_color_below, socket_color_yellow.
      rewrite blend_factor_self by reflexivity. now rewrite lerp_one. }
    split; [exact Ho|]. rewrite Ho. intros E. inversion E. lra.
  - refine (conj _ (conj _ (conj _ _))); try (vm_compute; reflexivity).
    vm_compute. intros E. discriminate E.
Qed.

(** C3, amended.  Single pair (S, T) without negative channel, any
    tolerance: for a texel equal to S the blend factor is exactly 1 and the
    graph delivers the Mix node's blend of the texel and T at factor 1,
    [texel + 1 * (T - texel)], which over the reals is T. *)
Theorem C3_exact_match :
  forall d base variant me S T tol src_img (sample : Image -> color) extra,
  image_source d (Some base) = Some src_img ->
  data variant = Some me ->
  nonneg S -> nonneg T ->
  sample src_img = S ->
  blend_factor tol (sample src_img) S = 1 /\
  remap_output (extra + 7) sample d base variant (py_pairs [(S, T)]) tol
    = Some (mix_blend (sample src_img) T 1) /\
  remap_output (extra + 7) sample d base variant (py_pairs [(S, T)]) tol = Some T.
Proof.
  intros d base variant me S T tol src_img sample extra Himg Hme HS HT Hs.
  assert (Hf : blend_factor tol (sample src_img) S = 1).
  { apply blend_factor_self; now rewrite Hs. }
  assert (Ho : remap_output (extra + 7) sample d base variant (py_pairs [(S, T)]) tol
               = Some T).
  { rewrite (single_pair_output sample d base variant S T tol src_img me extra
               Himg Hme).
    rewrite (socket_color_nonneg S HS), (socket_color_nonneg T HT).
    now rewrite Hf, lerp_one. }
  refine (conj Hf (conj _ Ho)).
  rewrite Ho, mix_blend_lerp, lerp_one. reflexivity.
Qed.

(** The scenario of the specification: yellow -> blue, tolerance 0.1,
    texel yellow. *)
Lemma C3_exact_match_witness :
  image_source ex_data (Some ex_base) = Some ex_image /\
  data ex_variant = Some 1%nat /\
  nonneg ex_yellow /\ nonneg ex_blue /\
  blend_factor (1/10) ex_yellow ex_yellow = 1 /\
  remap_output (0 + 7) (fun _ => ex_yellow) ex_data ex_base ex_variant
               (py_pairs [(ex_yellow, ex_blue)]) (1/10)
    = Some (mix_blend ex_yellow ex_blue 1) /\
  remap_output (0 + 7) (fun _ => ex_yellow) ex_data ex_base ex_variant
               (py_pairs [(ex_yellow, ex_blue)]) (1/10) = Some ex_blue.
Proof.
  split; [reflexivity|]. split; [reflexivity|].
  split; [exact nonneg_yellow|]. split; [exact nonneg_blue|].
  apply (C3_exact_match ex_data ex_base ex_variant 1%nat ex_yellow ex_blue (1/10)
           ex_image (fun _ => ex_yellow) 0).
  - reflexivity.
  - reflexivity.
  - exact nonneg_yellow.
  - exact nonneg_blue.
  - reflexivity.
Defined.

Lemma yellow_to_blue_output sample tol :
  red (sample ex_image) = 1 -> green (sample ex_image) = 8/10 ->
  blue (sample ex_image) = 0 ->
  remap_output 7 sample ex_data ex_base ex_variant
               (py_pairs [(ex_yellow, ex_blue)]) tol
  = Some (lerp (sample ex_image) ex_blue 1).
Proof.
  intros Hr Hg Hb. change 7%nat with (0 + 7)%nat.
  rewrite (single_pair_output sample ex_data ex_base ex_variant
             ex_yellow ex_blue tol ex_image 1%nat 0 eq_refl eq_refl).
  rewrite socket_color_yellow, socket_color_blue.
  now rewrite blend_factor_self by (rewrite ?Hr, ?Hg, ?Hb; reflexivity).
Qed.

Lemma below_to_blue_output tol :
  remap_output 7 (fun _ => ex_black) ex_data ex_base ex_variant
               (py_pairs [(ex_below, ex_blue)]) tol
  = Some ex_blue.
Proof.
  change 7%nat with (0 + 7)%nat.
  rewrite (single_pair_output (fun _ => ex_black) ex_data ex_base ex_variant
             ex_below ex_blue tol ex_image 1%nat 0 eq_refl eq_refl).
  rewrite socket_color_below, socket_color_blue.
  rewrite blend_factor_self by reflexivity. now rewrite lerp_one.
Qed.




Lemma lerp_half a b : lerp a b (1/2) = midpoint a b.
Proof.
  unfold lerp, lerp1, midpoint. f_equal; lra.
Qed.

(** C5, as stated, fails in four ways.  Below the floor of the divisor:
    with tolerance 0 the texel yellow is at distance 0 = 0/2 from the source
    yellow and leaves the graph as blue.  With the distance over four
    channels: yellow with alpha 1/2 is at distance 1/2 = 1/2 from yellow for
    tolerance 1 and leaves the graph as blue.  With a negative channel:
    black is at distance 1/2 = 1/2 from the source (-1/2, 0, 0, 1) for
    tolerance 1 and leaves the graph as blue.  None of these is the
    midpoint.  And "exactly" does not survive single precision: for the
    source (0, 0.1, 0, 1), the target (1, 0.3, 0, 1), tolerance 0.5 and the
    texel (0.25, 0.1, 0, 1) the distance is exactly half the tolerance and
    the blend factor exactly one half, but the Mix node delivers the green
    channel 13421774 * 2^-26 where the midpoint, rounded once, is
    13421773 * 2^-26. *)
Lemma C5_half_distance_counterexample :
  (distance_rgb ex_yellow ex_yellow = 0 / 2 /\
   distance_rgba ex_yellow ex_yellow = 0 / 2 /\
   remap_output 7 (fun _ => ex_yellow) ex_data ex_base ex_variant
                (py_pairs [(ex_yellow, ex_blue)]) 0 = Some ex_blue /\
   remap_output 7 (fun _ => ex_yellow) ex_data ex_base ex_variant
                (py_pairs [(ex_yellow, ex_blue)]) 0
     <> Some (midpoint ex_yellow ex_blue)) /\
  (distance_rgba ex_yellow_half_alpha ex_yellow = 1 / 2 /\
   remap_output 7 (fun _ => ex_yellow_half_alpha) ex_data ex_base ex_variant
                (py_pairs [(ex_yellow, ex_blue)]) 1 = Some ex_blue /\
   remap_output 7 (fun _ => ex_yellow_half_alpha) ex_data ex_base ex_variant
                (py_pairs [(ex_yellow, ex_blue)]) 1
     <> Some (midpoint ex_yellow_half_alpha ex_blue)) /\
  (distance_rgb ex_black ex_below = 1 / 2 /\
   distance_rgba ex_black ex_below = 1 / 2 /\
   remap_output 7 (fun _ => ex_black) ex_data ex_base ex_variant
                (py_pairs [(ex_below, ex_blue)]) 1 = Some ex_blue /\
   remap_output 7 (fun _ => ex_black) ex_data ex_base ex_variant
                (py_pairs [(ex_below, ex_blue)]) 1
     <> Some (midpoint ex_black ex_blue)) /\
  (Single.distance c5_texel32 c5_S32 = Single.mul Single.half c5_tolerance32 /\
   Single.blend_factor c5_tolerance32 c5_texel32 c5_S32 = Single.half /\
   Single.green32 (Single.blend_step c5_tolerance32 c5_texel32 (c5_S32, c5_T32))
     = S754_finite false 13421774 (-26) /\
   Single.green32 (Single.midpoint c5_texel32 c5_T32)
     = S754_finite false 13421773 (-26) /\
   Single.blend_step c5_tolerance32 c5_texel32 (c5_S32, c5_T32)
     <> Single.midpoint c5_texel32 c5_T32).
Proof.
  refine (conj _ (conj _ (conj _ _))).
  - rewrite (yellow_to_blue_output (fun _ => ex_yellow) 0) by reflexivity.
    rewrite lerp_one.
    refine (conj _ (conj _ (conj eq_refl _))).
    + rewrite distance_rgb_self_rgb by reflexivity. lra.
    + rewrite distance_rgba_alpha by reflexivity.
      cbn [alpha ex_yellow]. rewrite Rabs_right by lra. lra.
    + intros E. inversion E. lra.
  - rewrite (yellow_to_blue_output (fun _ => ex_yellow_half_alpha) 1)
      by reflexivity.
    rewrite lerp_one.
    refine (conj _ (conj eq_refl _)).
    + rewrite distance_rgba_alpha by reflexivity.
      cbn [alpha ex_yellow_half_alpha ex_yellow]. rewrite Rabs_left by lra. lra.
    + intros E. inversion E. lra.
  - rewrite (below_to_blue_output 1).
    refine (conj _ (conj _ (conj eq_refl _))).
    + rewrite distance_rgb_red by reflexivity.
      cbn [red ex_black ex_below]. rewrite Rabs_right by lra. lra.
    + rewrite distance_rgba_red by reflexivity.
      cbn [red ex_black ex_below]. rewrite Rabs_right by lra. lra.
    + intros E. inversion E. lra.
  - refine (conj _ (conj _ (conj _ (conj _ _)))); try (vm_compute; reflexivity).
    vm_compute. intros E. discriminate E.
Qed.

(** C5, amended.  Single pair (S, T) without negative channel, tolerance at
    least 1e-5: for a texel at distance exactly tolerance/2 from S over
    R, G, B the blend factor is one half and the graph delivers the Mix
    node's blend at that factor, [texel + 1/2 * (T - texel)], which over the
    reals is the midpoint [0.5*texel + 0.5*T]. *)
Theorem C5_half_distance_midpoint :
  forall d base variant me S T tol src_img (sample : Image -> color) extra,
  image_source d (Some base) = Some src_img ->
  data variant = Some me ->
  nonneg S -> nonneg T ->
  eps <= tol ->
  distance_rgb (sample src_img) S = tol / 2 ->
  blend_factor tol (sample src_img) S = 1 / 2 /\
  remap_output (extra + 7) sample d base variant (py_pairs [(S, T)]) tol
    = Some (mix_blend (sample src_img) T (1/2)) /\
  remap_output (extra + 7) sample d base variant (py_pairs [(S, T)]) tol
    = Some (midpoint (sample src_img) T).
Proof.
  intros d base variant me S T tol src_img sample extra Himg Hme HS HT Htol Hd.
  assert (Hf : blend_factor tol (sample src_img) S = 1 / 2).
  { unfold blend_factor. rewrite Hd. now apply factor_of_distance_half. }
  assert (Ho : remap_output (extra + 7) sample d base variant (py_pairs [(S, T)]) tol
               = Some (midpoint (sample src_img) T)).
  { rewrite (single_pair_output sample d base variant S T tol src_img me extra
               Himg Hme).
    rewrite (socket_color_nonneg S HS), (socket_color_nonneg T HT).
    now rewrite Hf, lerp_half. }
  refine (conj Hf (conj _ Ho)).
  rewrite Ho, mix_blend_lerp, lerp_half. reflexivity.
Qed.

Lemma C5_half_distance_midpoint_witness :
  image_source ex_data (Some ex_base) = Some ex_image /\
  data ex_variant = Some 1%nat /\
  nonneg ex_yellow /\ nonneg ex_blue /\
  eps <= 1 / 10 /\
  distance_rgb ex_near_yellow ex_yellow = 1 / 10 / 2 /\
  blend_factor (1/10) ex_near_yellow ex_yellow = 1 / 2 /\
  remap_output (0 + 7) (fun _ => ex_near_yellow) ex_data ex_base ex_variant
               (py_pairs [(ex_yellow, ex_blue)]) (1/10)
    = Some (mix_blend ex_near_yellow ex_blue (1/2)) /\
  remap_output (0 + 7) (fun _ => ex_near_yellow) ex_data ex_base ex_variant
               (py_pairs [(ex_yellow, ex_blue)]) (1/10)
    = Some (midpoint ex_near_yellow ex_blue).
Proof.
  assert (Hd : distance_rgb ex_near_yellow ex_yellow = 1 / 10 / 2).
  { rewrite distance_rgb_red by reflexivity.
    cbn [red ex_near_yellow ex_yellow]. rewrite Rabs_left by lra. lra. }
  split; [reflexivity|]. split; [reflexivity|].
  split; [exact nonneg_yellow|]. split; [exact nonneg_blue|].
  split; [unfold eps; lra|].
  split; [exact Hd|].
  apply (C5_half_distance_midpoint ex_data ex_base ex_variant 1%nat ex_yellow ex_blue
           (1/10) ex_image (fun _ => ex_near_yellow) 0).
  - reflexivity.
  - reflexivity.
  - exact nonneg_yellow.
  - exact nonneg_blue.
  - unfold eps; lra.
  - exact Hd.
Defined.

(** ** C6: the order of two pairs *)










(** ** C8: tolerances at or below zero *)

Lemma remap_iteration_tolerance tol tol' i s t nt last :
  Rmax tol eps = Rmax tol' eps ->
  remap_iteration tol i s t nt last = remap_iteration tol' i s t nt last.
Proof.
  intros H. unfold remap_iteration.
  destruct (color_of_seq s) as [source|]; [|reflexivity].
  destruct (color_of_seq t) as [target|]; [|reflexivity].
  rewrite H. reflexivity.
Qed.

Lemma remap_loop_tolerance tol tol' pairs :
  Rmax tol eps = Rmax tol' eps ->
  forall i nt last,
  remap_loop tol i pairs nt last = remap_loop tol' i pairs nt last.
Proof.
  intros H. induction pairs as [|[s t] rest IH]; intros i nt last.
  - reflexivity.
  - cbn [remap_loop]. rewrite (remap_iteration_tolerance tol tol' i s t nt last H).
    destruct (remap_iteration tol' i s t nt last) as [nt1 [last1|e]];
      [apply IH | reflexivity].
Qed.

Lemma build_remap_tree_tolerance tol tol' src_img pairs nt :
  Rmax tol eps = Rmax tol' eps ->
  build_remap_tree src_img pairs tol nt = build_remap_tree src_img pairs tol' nt.
Proof.
  intros H. unfold build_remap_tree.
  cbn [nodes_new nodes_clear nodes links fst snd length app].
  now rewrite (remap_loop_tolerance tol tol' pairs H).
Qed.

Lemma apply_color_remaps_tolerance tol tol' d base_obj variant_obj pairs :
  Rmax tol eps = Rmax tol' eps ->
  apply_color_remaps d base_obj variant_obj pairs tol =
  apply_color_remaps d base_obj variant_obj pairs tol'.
Proof.
  intros H. unfold apply_color_remaps.
  destruct base_obj as [base|]; [|reflexivity].
  destruct variant_obj as [variant|]; [|reflexivity].
  destruct (active_material d base) as [h|]; [|reflexivity].
  destruct (nth_error (materials d) h) as [mt|]; [|reflexivity].
  destruct (source_image mt) as [img|]; [|reflexivity].
  cbn zeta. unfold materials_new.
  now rewrite (build_remap_tree_tolerance tol tol' img pairs _ H).
Qed.

Lemma blend_step_tolerance tol tol' c p :
  Rmax tol eps = Rmax tol' eps -> blend_step tol c p = blend_step tol' c p.
Proof.
  intros H. unfold blend_step, blend_factor, factor_of_distance. now rewrite H.
Qed.

Lemma chain_blend_tolerance tol tol' pairs :
  Rmax tol eps = Rmax tol' eps ->
  forall c, chain_blend tol pairs c = chain_blend tol' pairs c.
Proof.
  intros H. induction pairs as [|p rest IH]; intros c.
  - reflexivity.
  - rewrite !chain_blend_cons, (blend_step_tolerance tol tol' c p H). apply IH.
Qed.

(** C8.  A tolerance at or below zero is no failure and divides by nothing
    that is zero: the divisor stored in the graph is [max(tolerance, 1e-5)
    = 1e-5 > 0], the call ends exactly as it ends for tolerance 1e-5 (same
    scene data, same outcome, same material handle, same tree) whatever
    the other arguments are, and the chain it computes is the chain for
    tolerance 1e-5.  With both objects, an image source, a variant with
    mesh data and pairs of four-channel colours the call returns the new
    material. *)
Theorem C8_nonpositive_tolerance :
  forall d base_obj variant_obj (remap_pairs : list (py_color * py_color))
         (pairs : list (color * color)) tol,
  tol <= 0 ->
  Rmax tol eps = eps /\ 0 < Rmax tol eps /\
  apply_color_remaps d base_obj variant_obj remap_pairs tol =
  apply_color_remaps d base_obj variant_obj remap_pairs eps /\
  (forall c, chain_blend tol pairs c = chain_blend eps pairs c) /\
  (forall base variant me src_img (sample : Image -> color) extra,
     base_obj = Some base -> variant_obj = Some variant ->
     data variant = Some me ->
     image_source d base_obj = Some src_img ->
     snd (apply_color_remaps d base_obj variant_obj (py_pairs pairs) tol)
       = Return (Some (length (materials d))) /\
     remap_output (extra + (5 * length pairs + 2)) sample d base variant
                  (py_pairs pairs) tol
       = Some (chain_blend eps (stored_pairs pairs) (sample src_img))).
Proof.
  intros d base_obj variant_obj remap_pairs pairs tol Htol.
  pose proof eps_pos as He.
  assert (Hmax : Rmax tol eps = eps) by (apply Rmax_right; lra).
  assert (Hmax' : Rmax tol eps = Rmax eps eps).
  { rewrite Hmax. symmetry. apply Rmax_right. lra. }
  refine (conj Hmax (conj (divisor_pos tol) (conj _ (conj _ _)))).
  - now apply apply_color_remaps_tolerance.
  - now apply chain_blend_tolerance.
  - intros base variant me src_img sample extra -> -> Hme Himg. split.
    + apply (apply_color_remaps_success d base variant pairs tol src_img me Himg Hme).
    + rewrite (remap_output_chain sample d base variant pairs tol src_img me extra
                 Himg Hme).
      now rewrite (chain_blend_tolerance tol eps (stored_pairs pairs) Hmax').
Qed.

Lemma C8_nonpositive_tolerance_witness :
  0 <= 0 /\
  Rmax 0 eps = eps /\ 0 < Rmax 0 eps /\
  apply_color_remaps ex_data (Some ex_base) (Some ex_variant)
                     (py_pairs [(ex_yellow, ex_blue)]) 0 =
  apply_color_remaps ex_data (Some ex_base) (Some ex_variant)
                     (py_pairs [(ex_yellow, ex_blue)]) eps /\
  (forall c, chain_blend 0 [(ex_yellow, ex_blue)] c
             = chain_blend eps [(ex_yellow, ex_blue)] c) /\
  (forall base variant me src_img (sample : Image -> color) extra,
     Some ex_base = Some base -> Some ex_variant = Some variant ->
     data variant = Some me ->
     image_source ex_data (Some ex_base) = Some src_img ->
     snd (apply_color_remaps ex_data (Some ex_base) (Some ex_variant)
            (py_pairs [(ex_yellow, ex_blue)]) 0)
       = Return (Some (length (materials ex_data))) /\
     remap_output (extra + (5 * length [(ex_yellow, ex_blue)] + 2)) sample
                  ex_data base variant (py_pairs [(ex_yellow, ex_blue)]) 0
       = Some (chain_blend eps (stored_pairs [(ex_yellow, ex_blue)])
                           (sample src_img))).
Proof.
  split; [lra|].
  apply (C8_nonpositive_tolerance ex_data (Some ex_base) (Some ex_variant)
           (py_pairs [(ex_yellow, ex_blue)]) [(ex_yellow, ex_blue)] 0).
  lra.
Defined.

(** ** C9: a missing image source *)

Lemma apply_color_remaps_none d base_obj variant_obj pairs tol :
  snd (apply_color_remaps d base_obj variant_obj pairs tol) = Return None ->
  base_obj = None \/ variant_obj = None \/ image_source d base_obj = None.
Proof.
  intros H.
  destruct base_obj as [base|]; [|now left].
  destruct variant_obj as [variant|]; [|now right; left].
  right; right.
  destruct (image_source d (Some base)) as [img|] eqn:E; [|reflexivity].
  pose proof (apply_color_remaps_started d base variant pairs tol img E) as S.
  cbn zeta in S. destruct S as (_ & _ & S).
  destruct (snd (build_remap_tree img pairs tol empty_tree)) as [b|e].
  - destruct (data variant) as [me|]; destruct S as [S _];
      rewrite S in H; discriminate.
  - destruct S as [S _]. rewrite S in H. discriminate.
Qed.

(** C9.  When the image source is absent - an object is missing, the base
    object has no active material, or its material holds no image-texture
    node with an image - [apply_color_remaps] returns [None] in place of a
    material, raises nothing and leaves the scene data as they were.
    [None] is returned in no other case: a call that returns it has met
    one of these conditions. *)
Theorem C9_missing_image_source :
  forall d base_obj variant_obj pairs tol,
  base_obj = None \/ variant_obj = None \/ image_source d base_obj = None ->
  apply_color_remaps d base_obj variant_obj pairs tol = (d, Return None) /\
  (forall d' base_obj' variant_obj' pairs' tol',
     snd (apply_color_remaps d' base_obj' variant_obj' pairs' tol') = Return None ->
     base_obj' = None \/ variant_obj' = None \/ image_source d' base_obj' = None).
Proof.
  intros d base_obj variant_obj pairs tol H. split.
  - apply apply_color_remaps_failure.
    destruct H as [->|[H|H]]; [right; reflexivity | now left | now right].
  - intros d' b' v' p' t'. apply apply_color_remaps_none.
Qed.

Lemma C9_missing_image_source_witness :
  (Some ex_base = None \/ Some ex_variant = None
   \/ image_source ex_plain_data (Some ex_base) = None) /\
  apply_color_remaps ex_plain_data (Some ex_base) (Some ex_variant)
                     (py_pairs [(ex_yellow, ex_blue)]) (1/10)
    = (ex_plain_data, Return None) /\
  (forall d' base_obj' variant_obj' pairs' tol',
     snd (apply_color_remaps d' base_obj' variant_obj' pairs' tol') = Return None ->
     base_obj' = None \/ variant_obj' = None \/ image_source d' base_obj' = None).
Proof.
  split; [right; right; reflexivity|].
  apply (C9_missing_image_source ex_plain_data (Some ex_base) (Some ex_variant)
           (py_pairs [(ex_yellow, ex_blue)]) (1/10)).
  right; right; reflexivity.
Defined.

(** ** C10: what the call changes *)

(** C10, as stated, fails when the two objects share their mesh datablock.
    The material slots belong to the mesh, so replacing the variant's slots
    replaces the base object's: after the call its active material is the
    new remap material.  The call also changes [bpy.data.materials], which
    holds one material more. *)
Lemma C10_shared_mesh_counterexample :
  data ex_base = data ex_linked_variant /\
  active_material ex_data ex_base = Some 0%nat /\
  snd (apply_color_remaps ex_data (Some ex_base) (Some ex_linked_variant)
         (py_pairs [(ex_yellow, ex_blue)]) (1/10)) = Return (Some 1%nat) /\
  active_material
    (fst (apply_color_remaps ex_data (Some ex_base) (Some ex_linked_variant)
            (py_pairs [(ex_yellow, ex_blue)]) (1/10))) ex_base = Some 1%nat /\
  mesh_materials
    (fst (apply_color_remaps ex_data (Some ex_base) (Some ex_linked_variant)
            (py_pairs [(ex_yellow, ex_blue)]) (1/10))) 0
  <> mesh_materials ex_data 0 /\
  length (materials ex_data) = 1%nat /\
  length (materials
            (fst (apply_color_remaps ex_data (Some ex_base) (Some ex_linked_variant)
                    (py_pairs [(ex_yellow, ex_blue)]) (1/10)))) = 2%nat.
Proof.
  destruct (apply_color_remaps_success ex_data ex_base ex_linked_variant
              [(ex_yellow, ex_blue)] (1/10) ex_image 0%nat eq_refl eq_refl)
    as (Hr & Hm & Hs).
  cbn zeta in Hr, Hm, Hs.
  refine (conj eq_refl (conj eq_refl (conj Hr (conj _ (conj _ (conj eq_refl _)))))).
  - unfold active_material. cbn [data ex_base]. rewrite Hs. reflexivity.
  - rewrite Hs. cbn. discriminate.
  - rewrite Hm. reflexivity.
Qed.

(** C10, amended.  [apply_color_remaps] changes no material that existed
    before the call, so the base material and its node tree stay as they
    were, and it leaves the base object's slots and active material as they
    were unless the base object shares its mesh datablock with the variant.
    On the failure paths - [None] is returned or an exception leaves the
    call - the material slots of every mesh, the variant's included, are
    unchanged; when [None] is returned nothing at all has changed.  When
    the call returns a material, that material is the one new entry of
    [bpy.data.materials], the variant's mesh has exactly that material in
    its slots whatever it had before, and the slots of every other mesh are
    unchanged. *)
Theorem C10_frame :
  forall d base_obj variant_obj (remap_pairs : list (py_color * py_color)) tol,
  (forall h mt, nth_error (materials d) h = Some mt ->
     nth_error (materials (fst (apply_color_remaps d base_obj variant_obj
                                  remap_pairs tol))) h
     = Some mt) /\
  (snd (apply_color_remaps d base_obj variant_obj remap_pairs tol) = Return None ->
     fst (apply_color_remaps d base_obj variant_obj remap_pairs tol) = d) /\
  ((snd (apply_color_remaps d base_obj variant_obj remap_pairs tol) = Return None \/
    exists e, snd (apply_color_remaps d base_obj variant_obj remap_pairs tol)
              = Raise e) ->
     mesh_materials (fst (apply_color_remaps d base_obj variant_obj remap_pairs tol))
     = mesh_materials d) /\
  (forall base,
     base_obj = Some base ->
     (forall variant, variant_obj = Some variant -> data base <> data variant) ->
     active_material (fst (apply_color_remaps d base_obj variant_obj remap_pairs tol))
                     base
     = active_material d base /\
     (forall me, data base = Some me ->
        mesh_materials (fst (apply_color_remaps d base_obj variant_obj
                               remap_pairs tol)) me
        = mesh_materials d me)) /\
  (forall m,
     snd (apply_color_remaps d base_obj variant_obj remap_pairs tol)
       = Return (Some m) ->
     exists base variant me,
       base_obj = Some base /\ variant_obj = Some variant /\
       data variant = Some me /\
       m = length (materials d) /\
       length (materials (fst (apply_color_remaps d base_obj variant_obj
                                 remap_pairs tol)))
         = S (length (materials d)) /\
       mesh_materials (fst (apply_color_remaps d base_obj variant_obj
                              remap_pairs tol)) me = [Some m] /\
       (forall k, k <> me ->
          mesh_materials (fst (apply_color_remaps d base_obj variant_obj
                                 remap_pairs tol)) k
          = mesh_materials d k)).
Proof.
  intros d base_obj variant_obj pairs tol.
  destruct base_obj as [base|];
    [|cbn [apply_color_remaps fst snd]; repeat split; auto; intros; discriminate].
  destruct variant_obj as [variant|];
    [|cbn [apply_color_remaps fst snd]; repeat split; auto; intros; discriminate].
  destruct (image_source d (Some base)) as [img|] eqn:E.
  - pose proof (apply_color_remaps_started d base variant pairs tol img E) as S.
    cbn zeta in S. destruct S as (Hm & _ & S).
    set (r := apply_color_remaps d (Some base) (Some variant) pairs tol) in *.
    assert (Hkeep : forall h mt, nth_error (materials d) h = Some mt ->
                                 nth_error (materials (fst r)) h = Some mt).
    { intros h mt H. rewrite Hm. now apply nth_error_app_keeps. }
    destruct (snd (build_remap_tree img pairs tol empty_tree)) as [b|e].
    + destruct (data variant) as [me|] eqn:Hme.
      * destruct S as [Hr Hs].
        refine (conj Hkeep (conj _ (conj _ (conj _ _)))).
        -- rewrite Hr. discriminate.
        -- rewrite Hr. intros [H|[e H]]; discriminate.
        -- intros base' Hb Hne. injection Hb as <-.
           specialize (Hne variant eq_refl).
           assert (Hs' : forall k, data base = Some k ->
                     mesh_materials (fst r) k = mesh_materials d k).
           { intros k Hk. rewrite Hs.
             destruct (Nat.eqb k me) eqn:Ek; [|reflexivity].
             apply Nat.eqb_eq in Ek. subst k. now rewrite Hk, Hme in Hne. }
           split; [|exact Hs'].
           unfold active_material. destruct (data base) as [k|]; [|reflexivity].
           now rewrite (Hs' k eq_refl).
        -- intros m Hsome. rewrite Hr in Hsome. injection Hsome as <-.
           exists base, variant, me.
           refine (conj eq_refl (conj eq_refl (conj Hme (conj eq_refl
                     (conj _ (conj _ _)))))).
           ++ rewrite Hm, length_app. cbn [length]. lia.
           ++ rewrite Hs, Nat.eqb_refl. reflexivity.
           ++ intros k Hk. rewrite Hs. apply Nat.eqb_neq in Hk. now rewrite Hk.
      * destruct S as [Hr Hs].
        refine (conj Hkeep (conj _ (conj (fun _ => Hs) (conj _ _)))).
        -- rewrite Hr. discriminate.
        -- intros base' Hb _. injection Hb as <-.
           unfold active_material. rewrite Hs. split; reflexivity.
        -- intros m Hsome. rewrite Hr in Hsome. discriminate.
    + destruct S as [Hr Hs].
      refine (conj Hkeep (conj _ (conj (fun _ => Hs) (conj _ _)))).
      * rewrite Hr. discriminate.
      * intros base' Hb _. injection Hb as <-.
        unfold active_material. rewrite Hs. split; reflexivity.
      * intros m Hsome. rewrite Hr in Hsome. discriminate.
  - rewrite (apply_color_remaps_failure d (Some base) (Some variant) pairs tol)
      by (now right).
    cbn [fst snd]. repeat split; auto. intros; discriminate.
Qed.

(** ** C7: the empty chain *)

(** C7, as stated, fails.  For a base material that does not pass its
    texture straight to Base Color, the empty chain shows the texel (black
    here) on the path through [apply_color_remaps] and the base material's
    own colour (the tint) on the copying path of [apply_multi_remap]. *)
Lemma C7_copy_differs_counterexample :
  image_source ex_tinted_data (Some ex_base) = Some ex_image /\
  object_color 3 (fun _ => ex_black)
    (fst (apply_color_remaps ex_tinted_data (Some ex_base) (Some ex_variant) [] (1/10)))
    ex_variant = Some ex_black /\
  object_color 3 (fun _ => ex_black)
    (fst (apply_multi_remap ex_tinted_data (Some ex_base) (Some ex_variant) [] (1/10)))
    ex_variant = Some ex_tint /\
  object_color 3 (fun _ => ex_black)
    (fst (apply_color_remaps ex_tinted_data (Some ex_base) (Some ex_variant) [] (1/10)))
    ex_variant
  <> object_color 3 (fun _ => ex_black)
    (fst (apply_multi_remap ex_tinted_data (Some ex_base) (Some ex_variant) [] (1/10)))
    ex_variant.
Proof.
  assert (H1 : object_color 3 (fun _ => ex_black)
                 (fst (apply_color_remaps ex_tinted_data (Some ex_base)
                         (Some ex_variant) [] (1/10))) ex_variant = Some ex_black)
    by reflexivity.
  assert (H2 : object_color 3 (fun _ => ex_black)
                 (fst (apply_multi_remap ex_tinted_data (Some ex_base)
                         (Some ex_variant) [] (1/10))) ex_variant = Some ex_tint)
    by reflexivity.
  refine (conj eq_refl (conj H1 (conj H2 _))).
  rewrite H1, H2. intros E. inversion E. lra.
Qed.

Lemma source_image_use_nodes mt img :
  source_image mt = Some img -> use_nodes mt = true.
Proof.
  unfold source_image. destruct (use_nodes mt); [reflexivity | discriminate].
Qed.

(** The variant after the copying path of [apply_multi_remap] shows what
    the base material shows. *)
Lemma object_color_after_copy d base variant tol me h base_mat fuel sample :
  data variant = Some me ->
  active_material d base = Some h ->
  nth_error (materials d) h = Some base_mat ->
  use_nodes base_mat = true ->
  snd (apply_multi_remap d (Some base) (Some variant) [] tol) = Return tt /\
  object_color fuel sample
    (fst (apply_multi_remap d (Some base) (Some variant) [] tol)) variant
  = surface_color fuel sample (node_tree base_mat).
Proof.
  intros Hme Ha Hm Hu.
  unfold apply_multi_remap, material_copy. rewrite Ha, Hm, Hme.
  split; [reflexivity|].
  unfold object_color, mesh_materials_append, mesh_materials_clear, mesh_set.
  cbn [fst mesh_materials materials]. rewrite Hme.
  rewrite !Nat.eqb_refl. cbn [app].
  rewrite nth_error_app_length. cbn [nth_error use_nodes node_tree].
  now rewrite Hu.
Qed.

Lemma object_color_after_remap d base variant pairs tol src_img me sample extra :
  image_source d (Some base) = Some src_img ->
  data variant = Some me ->
  object_color (extra + (5 * length pairs + 2)) sample
    (fst (apply_color_remaps d (Some base) (Some variant) (py_pairs pairs) tol))
    variant
  = Some (chain_blend tol (stored_pairs pairs) (sample src_img)).
Proof.
  intros Himg Hme.
  destruct (apply_color_remaps_success d base variant pairs tol src_img me Himg Hme)
    as (_ & Hmat & Hs).
  cbn zeta in Hmat, Hs.
  unfold object_color. rewrite Hme, Hs, Nat.eqb_refl, Hmat, nth_error_app_length.
  cbn [nth_error remap_material use_nodes node_tree].
  rewrite <- (length_stored_pairs pairs).
  apply remap_tree_surface.
Qed.

(** C7, amended.  For an empty chain [apply_color_remaps] links the Color
    output of the image texture straight to the Base Color input, so the
    variant shows the texel unchanged.  The other path, by which
    [apply_multi_remap] copies the base material onto the variant, shows
    what the base material shows; it is observably equivalent to the
    passthrough exactly when the base material itself shows the texel of
    its first image texture unchanged. *)
Theorem C7_empty_chain_identity :
  forall d base variant me tol (sample : Image -> color) extra src_img,
  image_source d (Some base) = Some src_img ->
  data variant = Some me ->
  (exists nt,
     remap_material_tree d (Some base) (Some variant) [] tol = Some nt /\
     link_to nt (1%nat, Sock.Bsdf_Base_Color) = Some (2%nat, Sock.TexImage_Color) /\
     eval_output (extra + 1) sample nt (2%nat, Sock.TexImage_Color)
       = Some (VColor (sample src_img)) /\
     eval_input (extra + 1) sample nt (1%nat, Sock.Bsdf_Base_Color)
       = Some (VColor (sample src_img))) /\
  object_color (extra + 2) sample
    (fst (apply_color_remaps d (Some base) (Some variant) [] tol)) variant
    = Some (sample src_img) /\
  (exists h base_mat,
     active_material d base = Some h /\
     nth_error (materials d) h = Some base_mat /\
     snd (apply_multi_remap d (Some base) (Some variant) [] tol) = Return tt /\
     (forall fuel,
        object_color fuel sample
          (fst (apply_multi_remap d (Some base) (Some variant) [] tol)) variant
        = surface_color fuel sample (node_tree base_mat)) /\
     (object_color (extra + 2) sample
        (fst (apply_multi_remap d (Some base) (Some variant) [] tol)) variant
      = object_color (extra + 2) sample
        (fst (apply_color_remaps d (Some base) (Some variant) [] tol)) variant
      <-> surface_color (extra + 2) sample (node_tree base_mat)
          = Some (sample src_img))).
Proof.
  intros d base variant me tol sample extra src_img Himg Hme.
  assert (Hrem : object_color (extra + 2) sample
            (fst (apply_color_remaps d (Some base) (Some variant) [] tol)) variant
            = Some (sample src_img)).
  { exact (object_color_after_remap d base variant [] tol src_img me sample extra
             Himg Hme). }
  refine (conj _ (conj Hrem _)).
  - exists (fst (turn_tree src_img [] tol empty_tree)).
    refine (conj _ (conj eq_refl (conj _ _))).
    + exact (remap_material_tree_success d base variant [] tol src_img me Himg Hme).
    + replace (extra + 1)%nat with (S extra) by lia. reflexivity.
    + destruct (turn_tree_eval sample src_img [] tol empty_tree extra)
        as (Hb & _ & _).
      exact Hb.
  - unfold image_source in Himg.
    destruct (active_material d base) as [h|] eqn:Ha; [|discriminate].
    destruct (nth_error (materials d) h) as [base_mat|] eqn:Hm; [|discriminate].
    exists h, base_mat.
    pose proof (source_image_use_nodes base_mat src_img Himg) as Hu.
    assert (Hcopy : forall fuel,
              object_color fuel sample
                (fst (apply_multi_remap d (Some base) (Some variant) [] tol)) variant
              = surface_color fuel sample (node_tree base_mat)).
    { intros fuel.
      apply (object_color_after_copy d base variant tol me h base_mat fuel sample
               Hme Ha Hm Hu). }
    refine (conj eq_refl (conj Hm (conj _ (conj Hcopy _)))).
    + apply (object_color_after_copy d base variant tol me h base_mat 0%nat sample
               Hme Ha Hm Hu).
    + rewrite Hcopy, Hrem. reflexivity.
Qed.

Lemma C7_empty_chain_identity_witness :
  image_source ex_data (Some ex_base) = Some ex_image /\
  data ex_variant = Some 1%nat /\
  (exists nt,
     remap_material_tree ex_data (Some ex_base) (Some ex_variant) [] (8/100) = Some nt /\
     link_to nt (1%nat, Sock.Bsdf_Base_Color) = Some (2%nat, Sock.TexImage_Color) /\
     eval_output (0 + 1) (fun _ => ex_yellow) nt (2%nat, Sock.TexImage_Color)
       = Some (VColor ex_yellow) /\
     eval_input (0 + 1) (fun _ => ex_yellow) nt (1%nat, Sock.Bsdf_Base_Color)
       = Some (VColor ex_yellow)) /\
  object_color (0 + 2) (fun _ => ex_yellow)
    (fst (apply_color_remaps ex_data (Some ex_base) (Some ex_variant) [] (8/100)))
    ex_variant = Some ex_yellow /\
  (exists h base_mat,
     active_material ex_data ex_base = Some h /\
     nth_error (materials ex_data) h = Some base_mat /\
     snd (apply_multi_remap ex_data (Some ex_base) (Some ex_variant) [] (8/100))
       = Return tt /\
     (forall fuel,
        object_color fuel (fun _ => ex_yellow)
          (fst (apply_multi_remap ex_data (Some ex_base) (Some ex_variant) [] (8/100)))
          ex_variant
        = surface_color fuel (fun _ => ex_yellow) (node_tree base_mat)) /\
     (object_color (0 + 2) (fun _ => ex_yellow)
        (fst (apply_multi_remap ex_data (Some ex_base) (Some ex_variant) [] (8/100)))
        ex_variant
      = object_color (0 + 2) (fun _ => ex_yellow)
        (fst (apply_color_remaps ex_data (Some ex_base) (Some ex_variant) [] (8/100)))
        ex_variant
      <-> surface_color (0 + 2) (fun _ => ex_yellow) (node_tree base_mat)
          = Some ex_yellow)).
Proof.
  split; [reflexivity|].
  split; [reflexivity|].
  apply (C7_empty_chain_identity ex_data ex_base ex_variant 1%nat (8/100)
           (fun _ => ex_yellow) 0 ex_image); reflexivity.
Defined.

(** * Further properties of the code *)

(** ** The chain of [apply_color_remaps] beyond one pair *)

Lemma lerp1_unit a b f :
  0 <= a <= 1 -> 0 <= b <= 1 -> 0 <= f <= 1 -> 0 <= lerp1 a b f <= 1.
Proof. intros Ha Hb Hf. unfold lerp1. nra. Qed.

Lemma blend_factor_unit tol c s : 0 <= blend_factor tol c s <= 1.
Proof. unfold blend_factor, factor_of_distance. apply clamp_unit_range. Qed.

Lemma blend_step_unit tol c p :
  in_unit c -> in_unit (snd p) -> in_unit (blend_step tol c p).
Proof.
  intros (Hr & Hg & Hb & Ha) (Tr & Tg & Tb & Ta).
  pose proof (blend_factor_unit tol c (fst p)) as Hf.
  unfold blend_step, in_unit, lerp; cbn [red green blue alpha].
  repeat split; apply lerp1_unit; tauto.
Qed.

Lemma chain_blend_unit tol pairs :
  forall c, in_unit c -> Forall (fun p => in_unit (snd p)) pairs ->
            in_unit (chain_blend tol pairs c).
Proof.
  induction pairs as [|p rest IH]; intros c Hc Hp.
  - exact Hc.
  - rewrite chain_blend_cons. inversion Hp; subst.
    apply IH; [now apply blend_step_unit | assumption].
Qed.

Lemma in_unit_nonneg c : in_unit c -> nonneg c.
Proof. unfold in_unit, nonneg. tauto. Qed.

Lemma stored_targets_in_unit pairs :
  Forall (fun p => in_unit (snd p)) pairs ->
  Forall (fun p => in_unit (snd p)) (stored_pairs pairs).
Proof.
  induction 1 as [|[s t] rest Ht _ IH]; [apply Forall_nil|].
  change (stored_pairs ((s, t) :: rest))
    with ((socket_color s, socket_color t) :: stored_pairs rest).
  apply Forall_cons; [|exact IH]. cbn [snd] in *.
  now rewrite (socket_color_nonneg t (in_unit_nonneg t Ht)).
Qed.

(** X1.  Whatever the tolerance and the source colours, when the texel and
    every target colour have all channels in [0, 1], so has the colour the
    remap material shades with: blending never leaves the range. *)
Theorem remap_output_in_unit :
  forall d base variant me pairs tol src_img (sample : Image -> color) extra,
  image_source d (Some base) = Some src_img ->
  data variant = Some me ->
  in_unit (sample src_img) ->
  Forall (fun p => in_unit (snd p)) pairs ->
  exists c,
    remap_output (extra + (5 * length pairs + 2)) sample d base variant
                 (py_pairs pairs) tol
      = Some c /\ in_unit c.
Proof.
  intros d base variant me pairs tol src_img sample extra Himg Hme Hc Hp.
  exists (chain_blend tol (stored_pairs pairs) (sample src_img)). split.
  - now apply (remap_output_chain sample d base variant pairs tol src_img me).
  - apply chain_blend_unit; [exact Hc | now apply stored_targets_in_unit].
Qed.

Lemma ex_colors_in_unit : in_unit ex_yellow /\ in_unit ex_blue /\ in_unit ex_black.
Proof.
  unfold in_unit, ex_yellow, ex_blue, ex_black; cbn [red green blue alpha].
  repeat split; lra.
Qed.

Lemma remap_output_in_unit_witness :
  image_source ex_data (Some ex_base) = Some ex_image /\
  data ex_variant = Some 1%nat /\
  in_unit ex_yellow /\
  Forall (fun p => in_unit (snd p)) [(ex_yellow, ex_blue); (ex_below, ex_black)] /\
  exists c,
    remap_output (0 + (5 * length [(ex_yellow, ex_blue); (ex_below, ex_black)] + 2))
                 (fun _ => ex_yellow) ex_data ex_base ex_variant
                 (py_pairs [(ex_yellow, ex_blue); (ex_below, ex_black)]) (-1)
      = Some c /\ in_unit c.
Proof.
  destruct ex_colors_in_unit as (Hy & Hb & Hk).
  assert (Hp : Forall (fun p => in_unit (snd p))
                 [(ex_yellow, ex_blue); (ex_below, ex_black)]).
  { apply Forall_cons; [exact Hb|]. apply Forall_cons; [exact Hk|].
    apply Forall_nil. }
  split; [reflexivity|]. split; [reflexivity|].
  split; [exact Hy|]. split; [exact Hp|].
  apply (remap_output_in_unit ex_data ex_base ex_variant 1%nat
           [(ex_yellow, ex_blue); (ex_below, ex_black)] (-1) ex_image
           (fun _ => ex_yellow) 0); [reflexivity | reflexivity | exact Hy | exact Hp].
Defined.

Lemma blend_step_out_of_reach tol c p :
  out_of_reach tol c p -> blend_step tol c p = c.
Proof.
  intros H. unfold blend_step, blend_factor.
  now rewrite (factor_of_distance_far tol _ H), lerp_zero.
Qed.

Lemma chain_blend_out_of_reach tol pairs c :
  Forall (out_of_reach tol c) pairs -> chain_blend tol pairs c = c.
Proof.
  induction pairs as [|p rest IH]; intros H.
  - reflexivity.
  - inversion H; subst. rewrite chain_blend_cons, blend_step_out_of_reach by assumption.
    now apply IH.
Qed.




Lemma chain_blend_app tol l1 l2 c :
  chain_blend tol (l1 ++ l2) c = chain_blend tol l2 (chain_blend tol l1 c).
Proof. unfold chain_blend. apply fold_left_app. Qed.

(** X3.  The chain acts as a lookup on separated colours.  For pairs
    without negative channel: when the texel is out of reach of the sources
    that come before a pair (S, T), matches S in R, G and B, and T is out
    of reach of the sources that come after it, the remap material shows
    the Mix node's blend of the texel and T at factor 1,
    [texel + 1 * (T - texel)], which over the reals is T. *)
Theorem remap_output_single_hit :
  forall d base variant me before S T after tol src_img
         (sample : Image -> color) extra,
  image_source d (Some base) = Some src_img ->
  data variant = Some me ->
  Forall nonneg_pair (before ++ (S, T) :: after) ->
  Forall (out_of_reach tol (sample src_img)) before ->
  distance_rgb (sample src_img) S = 0 ->
  Forall (out_of_reach tol T) after ->
  remap_output (extra + (5 * length (before ++ (S, T) :: after) + 2)) sample
               d base variant (py_pairs (before ++ (S, T) :: after)) tol
    = Some (mix_blend (sample src_img) T 1) /\
  mix_blend (sample src_img) T 1 = T.
Proof.
  intros d base variant me before S T after tol src_img sample extra
         Himg Hme Hnn Hb Hs Ha.
  assert (Hmix : mix_blend (sample src_img) T 1 = T)
    by (rewrite mix_blend_lerp; apply lerp_one).
  split; [|exact Hmix]. rewrite Hmix.
  rewrite (remap_output_chain_nonneg sample d base variant _ tol src_img me extra
             Himg Hme Hnn).
  rewrite chain_blend_app, (chain_blend_out_of_reach tol before _ Hb).
  rewrite chain_blend_cons.
  assert (Hstep : blend_step tol (sample src_img) (S, T) = T).
  { unfold blend_step, blend_factor; cbn [fst snd].
    now rewrite Hs, factor_of_distance_zero, lerp_one. }
  rewrite Hstep. now rewrite chain_blend_out_of_reach.
Qed.

Lemma ex_single_hit_facts :
  Forall (out_of_reach (1/10) ex_yellow) [(ex_black, ex_blue)] /\
  distance_rgb ex_yellow ex_yellow = 0 /\
  Forall (out_of_reach (1/10) ex_blue) [(ex_black, ex_yellow)].
Proof.
  assert (Hm : Rmax (1/10) eps = 1/10) by (apply Rmax_left; unfold eps; lra).
  assert (Hs : 1/10 = sqrt (Rsqr (1/10))) by (rewrite sqrt_Rsqr; lra).
  split; [|split].
  - apply Forall_cons; [|apply Forall_nil].
    unfold out_of_reach; rewrite Hm; cbn [fst];
      rewrite Hs at 1; apply sqrt_le_1_alt;
      unfold Rsqr, ex_black, ex_yellow; cbn [red green blue]; lra.
  - now apply distance_rgb_self_rgb.
  - apply Forall_cons; [|apply Forall_nil].
    unfold out_of_reach; rewrite Hm; cbn [fst];
      rewrite Hs at 1; apply sqrt_le_1_alt;
      unfold Rsqr, ex_black, ex_blue; cbn [red green blue]; lra.
Qed.

Lemma ex_single_hit_nonneg :
  Forall nonneg_pair
         ([(ex_black, ex_blue)] ++ (ex_yellow, ex_blue) :: [(ex_black, ex_yellow)]).
Proof.
  repeat (apply Forall_cons; [split; cbn [fst snd];
            first [exact nonneg_yellow | exact nonneg_blue | exact nonneg_black]|]).
  apply Forall_nil.
Qed.

Lemma remap_output_single_hit_witness :
  image_source ex_data (Some ex_base) = Some ex_image /\
  data ex_variant = Some 1%nat /\
  Forall nonneg_pair
         ([(ex_black, ex_blue)] ++ (ex_yellow, ex_blue) :: [(ex_black, ex_yellow)]) /\
  Forall (out_of_reach (1/10) ex_yellow) [(ex_black, ex_blue)] /\
  distance_rgb ex_yellow ex_yellow = 0 /\
  Forall (out_of_reach (1/10) ex_blue) [(ex_black, ex_yellow)] /\
  remap_output
    (0 + (5 * length ([(ex_black, ex_blue)] ++ (ex_yellow, ex_blue)
                        :: [(ex_black, ex_yellow)]) + 2))
    (fun _ => ex_yellow) ex_data ex_base ex_variant
    (py_pairs ([(ex_black, ex_blue)] ++ (ex_yellow, ex_blue)
                 :: [(ex_black, ex_yellow)])) (1/10)
    = Some (mix_blend ex_yellow ex_blue 1) /\
  mix_blend ex_yellow ex_blue 1 = ex_blue.
Proof.
  destruct ex_single_hit_facts as (H1 & H2 & H3).
  split; [reflexivity|]. split; [reflexivity|].
  split; [exact ex_single_hit_nonneg|].
  split; [exact H1|]. split; [exact H2|]. split; [exact H3|].
  apply (remap_output_single_hit ex_data ex_base ex_variant 1%nat
           [(ex_black, ex_blue)] ex_yellow ex_blue [(ex_black, ex_yellow)]
           (1/10) ex_image (fun _ => ex_yellow) 0);
    [reflexivity | reflexivity | exact ex_single_hit_nonneg
     | exact H1 | exact H2 | exact H3].
Defined.

(** ** Size and shape of the remap tree *)

Lemma find_none_filter {A} (f : A -> bool) (l : list A) :
  find f l = None -> filter (fun x => negb (f x)) l = l.
Proof.
  induction l as [|x l IH]; cbn [find filter]; [reflexivity|].
  destruct (f x); [discriminate|]. intros H. cbn [negb]. now rewrite IH.
Qed.

Lemma links_new_fresh src dst nt :
  link_to nt dst = None ->
  links (links_new src dst nt) = links nt ++ [mkLink src dst].
Proof.
  unfold link_to, links_new. cbn [links]. intros H.
  destruct (find (fun l => socket_eqb (to_socket l) dst) (links nt)) eqn:E;
    [discriminate|].
  now rewrite (find_none_filter _ _ E).
Qed.

Lemma length_links_new_fresh src dst nt :
  link_to nt dst = None ->
  length (links (links_new src dst nt)) = S (length (links nt)).
Proof.
  intros H. rewrite (links_new_fresh src dst nt H), length_app. cbn. lia.
Qed.

Lemma link_to_same_links nt nt' q :
  links nt = links nt' -> link_to nt q = link_to nt' q.
Proof. unfold link_to. now intros ->. Qed.

Lemma links_node_set n f nt : links (node_set n f nt) = links nt.
Proof. reflexivity. Qed.

Lemma link_to_mkTree ns ns' ls q :
  link_to {| nodes := ns; links := ls |} q = link_to {| nodes := ns'; links := ls |} q.
Proof. reflexivity. Qed.

Lemma remap_turn_link_count tol i s t nt last lo :
  links_within lo nt ->
  length (links (fst (remap_turn tol i s t nt last))) =
  (length (links nt) + 8)%nat.
Proof.
  intros Hw. destruct nt as [ns ls].
  assert (Hnone : forall ns' q, (length ns <= fst q)%nat ->
                    link_to {| nodes := ns'; links := ls |} q = None).
  { intros ns' q Hq. rewrite (link_to_mkTree ns' ns).
    now apply (no_link_beyond lo). }
  unfold remap_turn, nodes_new. cbn [nodes links fst snd].
  rewrite !length_app. cbn [length].
  rewrite <- !Nat.add_assoc. cbn [Nat.add].
  unfold Sock.MixRGB_Fac, Sock.Clamp_in_Value, Sock.Clamp_Result,
    Sock.RGB_Color, Sock.Math_Value, Sock.VectorMath_Value.
  repeat
    (first
       [ rewrite links_node_set
       | rewrite length_links_new_fresh;
         [ | repeat (rewrite link_to_links_new || rewrite link_to_node_set);
             unfold socket_eqb; cbn [fst snd]; decide_eqb;
             apply Hnone; cbn [fst]; lia ] ]).
  cbn [links]. lia.
Qed.

Lemma turn_loop_link_count tol lo pairs :
  forall i nt last,
  links_within lo nt ->
  (lo <= fst last < length (nodes nt))%nat ->
  length (links (fst (turn_loop tol i pairs nt last))) =
  (length (links nt) + 8 * length pairs)%nat.
Proof.
  induction pairs as [|[s t] rest IH]; intros i nt last Hw Hlast.
  - cbn [turn_loop fst length]. lia.
  - cbn [turn_loop].
    pose proof (remap_turn_within tol i s t nt last lo Hw Hlast) as Hw1.
    pose proof (remap_turn_length tol i s t nt last) as Hlen1.
    pose proof (remap_turn_last tol i s t nt last) as Hlast1.
    pose proof (remap_turn_link_count tol i s t nt last lo Hw) as Hc1.
    destruct (remap_turn tol i s t nt last) as [nt1 last1].
    cbn [fst snd] in *. subst last1.
    rewrite IH by (auto; cbn [fst]; lia).
    rewrite Hc1. cbn [length]. lia.
Qed.

Lemma turn_tree_size src_img pairs tol :
  length (nodes (fst (turn_tree src_img pairs tol empty_tree)))
    = (3 + 7 * length pairs)%nat /\
  length (links (fst (turn_tree src_img pairs tol empty_tree)))
    = (2 + 8 * length pairs)%nat /\
  (forall q src,
     link_to (fst (turn_tree src_img pairs tol empty_tree)) q = Some src ->
     (fst q < 3 + 7 * length pairs)%nat /\ (fst src < 3 + 7 * length pairs)%nat) /\
  find_node "OUTPUT_MATERIAL" (nodes (fst (turn_tree src_img pairs tol empty_tree)))
    = Some 0%nat /\
  link_to (fst (turn_tree src_img pairs tol empty_tree)) (0%nat, Sock.Output_Surface)
    = Some (1%nat, Sock.Bsdf_BSDF).
Proof.
  pose proof (turn_tree_output src_img pairs tol) as Hout.
  rewrite turn_tree_eq in *. cbn zeta in *. cbn [fst] in *.
  set (t0 := base_nodes_tree src_img) in *.
  assert (Hr0 : (2 <= fst (2%nat, Sock.TexImage_Color) < length (nodes t0))%nat)
    by (cbn; lia).
  assert (H0 : eval_output 1 (fun _ => RGBA 0 0 0 1) t0 (2%nat, Sock.TexImage_Color)
               = Some (VColor (RGBA 0 0 0 1))) by reflexivity.
  destruct (turn_loop_eval (fun _ => RGBA 0 0 0 1) tol 2 pairs 0 t0 _ 1%nat _
              (base_nodes_within src_img) Hr0 H0)
    as (Hw & Hr & Hlen & _).
  destruct (turn_loop_links tol 2 pairs 0 t0 _ (base_nodes_within src_img) Hr0)
    as (Hkeep & _).
  pose proof (turn_loop_link_count tol 2 pairs 0 t0 _
                (base_nodes_within src_img) Hr0) as Hcount.
  set (r := turn_loop tol 0 pairs t0 (2%nat, Sock.TexImage_Color)) in *.
  change (length (nodes t0)) with 3%nat in *.
  change (length (links t0)) with 0%nat in Hcount.
  refine (conj _ (conj _ (conj _ (conj Hout _)))).
  - rewrite !nodes_links_new. exact Hlen.
  - rewrite !length_links_new_fresh.
    + rewrite Hcount. lia.
    + rewrite Hkeep by (cbn; lia). reflexivity.
    + rewrite link_to_links_new. unfold socket_eqb; cbn [fst snd andb Nat.eqb
        Sock.Bsdf_Base_Color Sock.Output_Surface].
      rewrite Hkeep by (cbn; lia). reflexivity.
  - intros q src. rewrite !link_to_links_new.
    destruct (socket_eqb q (0%nat, Sock.Output_Surface)) eqn:E0.
    { apply socket_eqb_eq in E0. subst q. intros E; inversion E; subst src.
      cbn [fst]. lia. }
    destruct (socket_eqb q (1%nat, Sock.Bsdf_Base_Color)) eqn:E1.
    { apply socket_eqb_eq in E1. subst q. intros E; inversion E; subst src.
      cbn [fst]. lia. }
    intros E. destruct (Hw _ _ E) as [Hq Hs]. rewrite Hlen in Hq, Hs. lia.
  - rewrite link_to_links_new. reflexivity.
Qed.

(** X4.  The tree built for N pairs of four-channel colours has 3 + 7*N
    nodes and 2 + 8*N links, and no link dangles: every link starts and
    ends at a node of the tree.  The material output is node 0 and its
    Surface input is linked to the BSDF output of the Principled BSDF,
    node 1, the handle the construction returns. *)
Theorem remap_tree_size :
  forall src_img pairs tol nt0,
  length (nodes (fst (build_remap_tree src_img (py_pairs pairs) tol nt0)))
    = (3 + 7 * length pairs)%nat /\
  length (links (fst (build_remap_tree src_img (py_pairs pairs) tol nt0)))
    = (2 + 8 * length pairs)%nat /\
  (forall q src,
     link_to (fst (build_remap_tree src_img (py_pairs pairs) tol nt0)) q = Some src ->
     (fst q < 3 + 7 * length pairs)%nat /\ (fst src < 3 + 7 * length pairs)%nat) /\
  find_node "OUTPUT_MATERIAL"
    (nodes (fst (build_remap_tree src_img (py_pairs pairs) tol nt0)))
    = Some 0%nat /\
  link_to (fst (build_remap_tree src_img (py_pairs pairs) tol nt0))
          (0%nat, Sock.Output_Surface)
    = Some (1%nat, Sock.Bsdf_BSDF) /\
  snd (build_remap_tree src_img (py_pairs pairs) tol nt0) = Return 1%nat.
Proof.
  intros src_img pairs tol nt0.
  rewrite (build_remap_tree_any src_img (py_pairs pairs) tol nt0).
  rewrite build_remap_tree_wf. cbn [fst snd].
  destruct (turn_tree_size src_img (stored_pairs pairs) tol)
    as (H1 & H2 & H3 & H4 & H5).
  rewrite length_stored_pairs in *.
  refine (conj H1 (conj H2 (conj H3 (conj H4 (conj H5 _))))).
  now destruct (turn_tree_bsdf src_img (stored_pairs pairs) tol) as [_ ->].
Qed.

(** ** Calling [apply_color_remaps] again *)

Lemma image_source_after_success d base variant pairs tol src_img me :
  image_source d (Some base) = Some src_img ->
  data variant = Some me ->
  data base <> data variant ->
  image_source (fst (apply_color_remaps d (Some base) (Some variant)
                       (py_pairs pairs) tol))
               (Some base) = Some src_img.
Proof.
  intros Himg Hme Hne.
  destruct (apply_color_remaps_success d base variant pairs tol src_img me Himg Hme)
    as (_ & Hm & Hs).
  cbn zeta in Hm, Hs.
  unfold image_source, active_material in *.
  destruct (data base) as [k|]; [|discriminate].
  rewrite Hs.
  assert (Hk : Nat.eqb k me = false).
  { apply Nat.eqb_neq. intros ->. now rewrite Hme in Hne. }
  rewrite Hk.
  destruct (nth_error (mesh_materials d k) (active_material_index base))
    as [[h|]|]; try discriminate.
  rewrite Hm.
  destruct (nth_error (materials d) h) as [mt|] eqn:E; [|discriminate].
  now rewrite (nth_error_app_keeps _ _ _ _ E).
Qed.

(** X5.  Nothing is ever removed from [bpy.data.materials]: a second call
    with the same arguments (base and variant on different meshes) creates
    a second remap material, with the same node tree as the first under a
    name of the host's choosing, and assigns that one; the material of the
    first call stays in [bpy.data.materials] with no slot of the variant
    referring to it. *)
Theorem apply_color_remaps_twice :
  forall d base variant me pairs tol src_img,
  image_source d (Some base) = Some src_img ->
  data variant = Some me ->
  data base <> data variant ->
  snd (apply_color_remaps
         (fst (apply_color_remaps d (Some base) (Some variant) (py_pairs pairs) tol))
         (Some base) (Some variant) (py_pairs pairs) tol)
    = Return (Some (S (length (materials d)))) /\
  (exists first second,
     materials
       (fst (apply_color_remaps
               (fst (apply_color_remaps d (Some base) (Some variant)
                       (py_pairs pairs) tol))
               (Some base) (Some variant) (py_pairs pairs) tol))
     = materials d ++ [first; second] /\
     node_tree second = node_tree first /\
     use_nodes second = true /\ use_nodes first = true /\
     first = remap_material d variant src_img (stored_pairs pairs) tol) /\
  mesh_materials
    (fst (apply_color_remaps
            (fst (apply_color_remaps d (Some base) (Some variant) (py_pairs pairs) tol))
            (Some base) (Some variant) (py_pairs pairs) tol)) me
    = [Some (S (length (materials d)))].
Proof.
  intros d base variant me pairs tol src_img Himg Hme Hne.
  pose proof (image_source_after_success d base variant pairs tol src_img me
                Himg Hme Hne) as Himg1.
  destruct (apply_color_remaps_success d base variant pairs tol src_img me Himg Hme)
    as (_ & Hm & _).
  cbn zeta in Hm.
  set (d1 := fst (apply_color_remaps d (Some base) (Some variant)
                    (py_pairs pairs) tol)) in *.
  destruct (apply_color_remaps_success d1 base variant pairs tol src_img me
              Himg1 Hme) as (Hr2 & Hm2 & Hs2).
  cbn zeta in Hr2, Hm2, Hs2.
  assert (Hlen : length (materials d1) = S (length (materials d))).
  { rewrite Hm, length_app. cbn. lia. }
  refine (conj _ (conj _ _)).
  - now rewrite Hr2, Hlen.
  - exists (remap_material d variant src_img (stored_pairs pairs) tol),
           (remap_material d1 variant src_img (stored_pairs pairs) tol).
    refine (conj _ (conj eq_refl (conj eq_refl (conj eq_refl eq_refl)))).
    rewrite Hm2, Hm, <- app_assoc. reflexivity.
  - now rewrite Hs2, Nat.eqb_refl, Hlen.
Qed.

Lemma apply_color_remaps_twice_witness :
  image_source ex_data (Some ex_base) = Some ex_image /\
  data ex_variant = Some 1%nat /\
  data ex_base <> data ex_variant /\
  snd (apply_color_remaps
         (fst (apply_color_remaps ex_data (Some ex_base) (Some ex_variant)
                 (py_pairs [(ex_yellow, ex_blue)]) (1/10)))
         (Some ex_base) (Some ex_variant) (py_pairs [(ex_yellow, ex_blue)]) (1/10))
    = Return (Some (S (length (materials ex_data)))) /\
  (exists first second,
     materials
       (fst (apply_color_remaps
               (fst (apply_color_remaps ex_data (Some ex_base) (Some ex_variant)
                       (py_pairs [(ex_yellow, ex_blue)]) (1/10)))
               (Some ex_base) (Some ex_variant)
               (py_pairs [(ex_yellow, ex_blue)]) (1/10)))
     = materials ex_data ++ [first; second] /\
     node_tree second = node_tree first /\
     use_nodes second = true /\ use_nodes first = true /\
     first = remap_material ex_data ex_variant ex_image
               (stored_pairs [(ex_yellow, ex_blue)]) (1/10)) /\
  mesh_materials
    (fst (apply_color_remaps
            (fst (apply_color_remaps ex_data (Some ex_base) (Some ex_variant)
                    (py_pairs [(ex_yellow, ex_blue)]) (1/10)))
            (Some ex_base) (Some ex_variant) (py_pairs [(ex_yellow, ex_blue)]) (1/10)))
    1
    = [Some (S (length (materials ex_data)))].
Proof.
  split; [reflexivity|]. split; [reflexivity|]. split; [cbn; discriminate|].
  apply (apply_color_remaps_twice ex_data ex_base ex_variant 1%nat
           [(ex_yellow, ex_blue)] (1/10) ex_image);
    [reflexivity | reflexivity | cbn; discriminate].
Defined.

(** ** [apply_multi_remap] *)

Lemma apply_multi_remap_skips d base_obj variant_obj
    (remap_list : list (py_color * py_color)) tol :
  base_obj = None \/ variant_obj = None \/
  (remap_list = [] /\
   exists base, base_obj = Some base /\ active_material d base = None) \/
  (remap_list <> [] /\ image_source d base_obj = None) ->
  apply_multi_remap d base_obj variant_obj remap_list tol = (d, Return tt).
Proof.
  intros H.
  unfold apply_multi_remap.
  destruct base_obj as [base|]; [|reflexivity].
  destruct variant_obj as [variant|]; [|reflexivity].
  destruct H as [H|[H|[(-> & b & Hb & Ha)|(Hne & Himg)]]]; try discriminate.
  - inversion Hb; subst b. now rewrite Ha.
  - destruct remap_list as [|p rest]; [contradiction|].
    rewrite apply_color_remaps_failure by (now right). reflexivity.
Qed.

(** X6.  [apply_multi_remap] returns with [bpy.data] exactly as it was - no
    material created, no slot changed - when an object is missing, when the
    list is empty and the base object has no active material, or when the
    list is not empty and the base material offers no image texture. *)
Theorem apply_multi_remap_unchanged :
  forall d base_obj variant_obj (remap_list : list (py_color * py_color)) tol,
  base_obj = None \/ variant_obj = None \/
  (remap_list = [] /\
   exists base, base_obj = Some base /\ active_material d base = None) \/
  (remap_list <> [] /\ image_source d base_obj = None) ->
  apply_multi_remap d base_obj variant_obj remap_list tol = (d, Return tt).
Proof.
  intros d base_obj variant_obj remap_list tol H.
  now apply apply_multi_remap_skips.
Qed.

Lemma apply_multi_remap_unchanged_witness :
  (Some ex_base = None \/ Some ex_variant = None \/
   (py_pairs [(ex_yellow, ex_blue)] = [] /\
    exists base, Some ex_base = Some base /\ active_material ex_plain_data base = None) \/
   (py_pairs [(ex_yellow, ex_blue)] <> [] /\
    image_source ex_plain_data (Some ex_base) = None)) /\
  apply_multi_remap ex_plain_data (Some ex_base) (Some ex_variant)
                    (py_pairs [(ex_yellow, ex_blue)]) (8/100)
  = (ex_plain_data, Return tt).
Proof.
  assert (H : py_pairs [(ex_yellow, ex_blue)] <> [] /\
              image_source ex_plain_data (Some ex_base) = None).
  { split; [discriminate | reflexivity]. }
  split; [right; right; right; exact H|].
  apply (apply_multi_remap_unchanged ex_plain_data (Some ex_base) (Some ex_variant)
           (py_pairs [(ex_yellow, ex_blue)]) (8/100)).
  right; right; right; exact H.
Defined.

(** X7.  With an empty list, a base object that has an active material and
    a variant with a mesh, [apply_multi_remap] returns after adding one
    material to [bpy.data.materials], a copy with the node tree and the
    node switch of the base material, which it makes the only material of
    the variant's mesh.  Every earlier material and the slots of every
    other mesh stay as they were; the variant does not refer to the base
    material itself. *)
Theorem apply_multi_remap_empty_copies :
  forall d base variant me tol h base_mat,
  active_material d base = Some h ->
  nth_error (materials d) h = Some base_mat ->
  data variant = Some me ->
  snd (apply_multi_remap d (Some base) (Some variant) [] tol) = Return tt /\
  exists mat_copy,
    materials (fst (apply_multi_remap d (Some base) (Some variant) [] tol))
      = materials d ++ [mat_copy] /\
    node_tree mat_copy = node_tree base_mat /\
    use_nodes mat_copy = use_nodes base_mat /\
    mesh_materials (fst (apply_multi_remap d (Some base) (Some variant) [] tol)) me
      = [Some (length (materials d))] /\
    length (materials d) <> h /\
    (forall k, k <> me ->
       mesh_materials (fst (apply_multi_remap d (Some base) (Some variant) [] tol)) k
       = mesh_materials d k).
Proof.
  intros d base variant me tol h base_mat Ha Hm Hme.
  unfold apply_multi_remap, material_copy. rewrite Ha, Hm, Hme.
  split; [reflexivity|].
  exists (mkMaterial (unique_name d (material_names d) (mat_name base_mat))
                     (use_nodes base_mat) (node_tree base_mat)).
  unfold mesh_materials_append, mesh_materials_clear, mesh_set.
  cbn [fst materials mesh_materials node_tree use_nodes].
  rewrite !Nat.eqb_refl.
  refine (conj eq_refl (conj eq_refl (conj eq_refl (conj eq_refl (conj _ _))))).
  - assert (h < length (materials d))%nat; [|lia].
    apply nth_error_Some. rewrite Hm. discriminate.
  - intros k Hk. apply Nat.eqb_neq in Hk. now rewrite Hk.
Qed.

Lemma apply_multi_remap_empty_copies_witness :
  active_material ex_tinted_data ex_base = Some 0%nat /\
  nth_error (materials ex_tinted_data) 0 = Some (mkMaterial "Tinted" true ex_tinted_tree) /\
  data ex_variant = Some 1%nat /\
  snd (apply_multi_remap ex_tinted_data (Some ex_base) (Some ex_variant) [] (8/100))
    = Return tt /\
  exists mat_copy,
    materials (fst (apply_multi_remap ex_tinted_data (Some ex_base) (Some ex_variant)
                      [] (8/100)))
      = materials ex_tinted_data ++ [mat_copy] /\
    node_tree mat_copy = node_tree (mkMaterial "Tinted" true ex_tinted_tree) /\
    use_nodes mat_copy = use_nodes (mkMaterial "Tinted" true ex_tinted_tree) /\
    mesh_materials (fst (apply_multi_remap ex_tinted_data (Some ex_base)
                           (Some ex_variant) [] (8/100))) 1
      = [Some (length (materials ex_tinted_data))] /\
    length (materials ex_tinted_data) <> 0%nat /\
    (forall k, k <> 1%nat ->
       mesh_materials (fst (apply_multi_remap ex_tinted_data (Some ex_base)
                              (Some ex_variant) [] (8/100))) k
       = mesh_materials ex_tinted_data k).
Proof.
  split; [reflexivity|]. split; [reflexivity|]. split; [reflexivity|].
  apply (apply_multi_remap_empty_copies ex_tinted_data ex_base ex_variant 1%nat
           (8/100) 0%nat (mkMaterial "Tinted" true ex_tinted_tree)); reflexivity.
Defined.





(** ** The operators of [utils/ui.py] *)

Lemma firstn_length_app {A} (l : list A) (x : A) :
  firstn (length (l ++ [x]) - 1) (l ++ [x]) = l.
Proof.
  rewrite length_app. cbn [length].
  replace (length l + 1 - 1)%nat with (length l + 0)%nat by lia.
  rewrite firstn_app_2. cbn [firstn]. apply app_nil_r.
Qed.

(** X9.  Removing right after adding is a round trip: "Add Remap" followed
    by "Remove Remap" leaves the whole session, the list of pairs included,
    as it was, and both operators finish. *)
Theorem ui_add_then_remove :
  forall s,
  fst (LV_OT_RemoveRemap_execute (fst (LV_OT_AddRemap_execute s))) = s /\
  snd (LV_OT_AddRemap_execute s) = FINISHED /\
  snd (LV_OT_RemoveRemap_execute (fst (LV_OT_AddRemap_execute s))) = FINISHED.
Proof.
  intros [d obs ims sc act md cv dirs fs rl rp].
  unfold LV_OT_RemoveRemap_execute, LV_OT_AddRemap_execute, with_remap_list.
  cbn [fst snd remap_list bpy_data objects images scene_objects active_object
       mode canvas directories files reports].
  refine (conj _ (conj eq_refl eq_refl)).
  destruct (rl ++ [mkColorMap (RGBA 1 1 1 1) (RGBA 1 0 0 1)]) eqn:E.
  - destruct rl; discriminate.
  - rewrite <- E. now rewrite firstn_length_app.
Qed.

(** X10.  "Remove Remap" drops exactly the last pair of the list and
    touches nothing else; on an empty list it changes nothing.  It finishes
    in either case. *)
Theorem ui_remove_drops_last :
  forall s,
  snd (LV_OT_RemoveRemap_execute s) = FINISHED /\
  remap_list (fst (LV_OT_RemoveRemap_execute s)) = removelast (remap_list s) /\
  (remap_list s = [] -> fst (LV_OT_RemoveRemap_execute s) = s) /\
  bpy_data (fst (LV_OT_RemoveRemap_execute s)) = bpy_data s /\
  objects (fst (LV_OT_RemoveRemap_execute s)) = objects s /\
  reports (fst (LV_OT_RemoveRemap_execute s)) = reports s.
Proof.
  intros s. unfold LV_OT_RemoveRemap_execute. cbn [fst snd].
  destruct (remap_list s) as [|e rest] eqn:E.
  - rewrite E. repeat split; reflexivity.
  - unfold with_remap_list. cbn [remap_list bpy_data objects reports].
    rewrite E. rewrite Nat.sub_1_r, <- removelast_firstn_len.
    repeat split; try reflexivity. discriminate.
Qed.

Lemma prefix_length p : forall s,
  String.prefix p s = true -> (String.length p <= String.length s)%nat.
Proof.
  induction p as [|a p IH]; intros s H.
  - cbn. lia.
  - destruct s as [|b s]; cbn [String.prefix] in H; [discriminate|].
    destruct (Ascii.ascii_dec a b); [|discriminate].
    cbn [String.length]. apply IH in H. lia.
Qed.

Lemma string_length_append a b :
  String.length (a ++ b) = (String.length a + String.length b)%nat.
Proof.
  induction a as [|c a IH]; cbn; [reflexivity | now rewrite IH].
Qed.

Lemma not_own_variant_prefix n : String.prefix (n ++ "_Variant") n = false.
Proof.
  destruct (String.prefix (n ++ "_Variant") n) eqn:E; [|reflexivity].
  apply prefix_length in E. rewrite string_length_append in E. cbn in E. lia.
Qed.

Lemma find_variant_some s p v :
  find_variant s p = Some v ->
  In v (scene_objects s) /\
  exists vo, nth_error (objects s) v = Some vo /\ String.prefix p (ob_name vo) = true.
Proof.
  unfold find_variant. intros H. apply find_some in H. destruct H as [Hin Hp].
  split; [exact Hin|].
  destruct (nth_error (objects s) v) as [vo|]; [|discriminate].
  now exists vo.
Qed.

(** X11.  "Apply Color Remaps" never takes the base object for its own
    variant: the object it picks is in the scene, bears a name that starts
    with the base name followed by "_Variant", and is a different object. *)
Theorem ui_variant_is_not_base :
  forall s b base v,
  active_object s = Some b ->
  nth_error (objects s) b = Some base ->
  find_variant s (ob_name base ++ "_Variant") = Some v ->
  v <> b /\ In v (scene_objects s) /\
  exists vo, nth_error (objects s) v = Some vo /\
             String.prefix (ob_name base ++ "_Variant") (ob_name vo) = true.
Proof.
  intros s b base v Ha Hb Hf.
  destruct (find_variant_some s _ v Hf) as (Hin & vo & Hvo & Hp).
  refine (conj _ (conj Hin _)).
  - intros ->. rewrite Hb in Hvo. inversion Hvo; subst vo.
    rewrite not_own_variant_prefix in Hp. discriminate.
  - now exists vo.
Qed.

Lemma ui_variant_is_not_base_witness :
  active_object ex_pair_session = Some 0%nat /\
  nth_error (objects ex_pair_session) 0 = Some ex_pair_base /\
  find_variant ex_pair_session (ob_name ex_pair_base ++ "_Variant") = Some 1%nat /\
  1%nat <> 0%nat /\ In 1%nat (scene_objects ex_pair_session) /\
  exists vo, nth_error (objects ex_pair_session) 1 = Some vo /\
             String.prefix (ob_name ex_pair_base ++ "_Variant") (ob_name vo) = true.
Proof.
  split; [reflexivity|]. split; [reflexivity|]. split; [reflexivity|].
  apply (ui_variant_is_not_base ex_pair_session 0%nat ex_pair_base 1%nat);
    reflexivity.
Defined.

(** X12.  "Apply Color Remaps" is cancelled exactly when there is no
    active object or no object of the scene bears a name starting with the
    base name followed by "_Variant".  A cancelled run leaves [bpy.data]
    as it was and adds one error report; a finished run adds one info
    report; a run that an exception ends reports nothing. *)
Theorem ui_generate_cancelled :
  forall s,
  (snd (LV_OT_GenerateVariant_execute s) = Return CANCELLED <->
   (object_data s (active_object s) = None \/
    exists base, object_data s (active_object s) = Some base /\
                 find_variant s (ob_name base ++ "_Variant") = None)) /\
  (snd (LV_OT_GenerateVariant_execute s) = Return CANCELLED ->
   bpy_data (fst (LV_OT_GenerateVariant_execute s)) = bpy_data s /\
   exists msg, reports (fst (LV_OT_GenerateVariant_execute s))
               = reports s ++ [(ERROR, msg)]) /\
  (snd (LV_OT_GenerateVariant_execute s) = Return FINISHED ->
   exists msg, reports (fst (LV_OT_GenerateVariant_execute s))
               = reports s ++ [(INFO, msg)]) /\
  (forall e, snd (LV_OT_GenerateVariant_execute s) = Raise e ->
   reports (fst (LV_OT_GenerateVariant_execute s)) = reports s).
Proof.
  intros s. unfold LV_OT_GenerateVariant_execute.
  destruct (object_data s (active_object s)) as [base|].
  - destruct (find_variant s (ob_name base ++ "_Variant")) as [v|] eqn:Ef.
    + destruct (apply_multi_remap (bpy_data s) (object_ref s (active_object s))
                  (object_ref s (Some v)) (collect_remaps s)
                  multi_remap_default_tolerance) as [d' [u|e]]; cbn [fst snd].
      * refine (conj _ (conj _ (conj _ _))).
        -- split; [discriminate|].
           intros [H|(b' & Hb & Hn)]; [discriminate|].
           inversion Hb; subst b'. rewrite Ef in Hn. discriminate.
        -- discriminate.
        -- intros _. eexists. reflexivity.
        -- discriminate.
      * refine (conj _ (conj _ (conj _ _))).
        -- split; [discriminate|].
           intros [H|(b' & Hb & Hn)]; [discriminate|].
           inversion Hb; subst b'. rewrite Ef in Hn. discriminate.
        -- discriminate.
        -- discriminate.
        -- intros _ _. reflexivity.
    + cbn [fst snd]. refine (conj _ (conj _ (conj _ _))).
      * split; [|reflexivity]. intros _. right. exists base. now split.
      * intros _. split; [reflexivity|]. eexists. reflexivity.
      * discriminate.
      * discriminate.
  - cbn [fst snd]. refine (conj _ (conj _ (conj _ _))).
    + split; [|reflexivity]. intros _. now left.
    + intros _. split; [reflexivity|]. eexists. reflexivity.
    + discriminate.
    + discriminate.
Qed.

(** The operator with a variant found: [bpy.data] is what
    [apply_multi_remap] leaves, and the operator ends as that call ends. *)
Lemma generate_variant_data s b base v :
  active_object s = Some b ->
  nth_error (objects s) b = Some base ->
  find_variant s (ob_name base ++ "_Variant") = Some v ->
  bpy_data (fst (LV_OT_GenerateVariant_execute s))
    = fst (apply_multi_remap (bpy_data s) (Some (to_object base))
             (option_map to_object (nth_error (objects s) v))
             (collect_remaps s) multi_remap_default_tolerance) /\
  match snd (apply_multi_remap (bpy_data s) (Some (to_object base))
               (option_map to_object (nth_error (objects s) v))
               (collect_remaps s) multi_remap_default_tolerance) with
  | Return _ =>
      snd (LV_OT_GenerateVariant_execute s) = Return FINISHED /\
      reports (fst (LV_OT_GenerateVariant_execute s))
        = reports s
          ++ [(INFO, ("Remaps applied to "
                      ++ match nth_error (objects s) v with
                         | Some variant => ob_name variant
                         | None => EmptyString
                         end)%string)]
  | Raise e =>
      snd (LV_OT_GenerateVariant_execute s) = Raise e /\
      reports (fst (LV_OT_GenerateVariant_execute s)) = reports s
  end.
Proof.
  intros Ha Hb Hf. unfold LV_OT_GenerateVariant_execute, object_ref, object_data.
  rewrite Ha, Hb, Hf. cbn [option_map].
  destruct (apply_multi_remap (bpy_data s) (Some (to_object base))
              (option_map to_object (nth_error (objects s) v))
              (collect_remaps s) multi_remap_default_tolerance) as [d' [u|e]];
    cbn [fst snd]; repeat split; reflexivity.
Qed.





(** X14.  "Apply Color Remaps" reports success whether or not anything was
    applied: with a variant in the scene, pairs in the list and a base
    material without image texture, it finishes with the info report
    "Remaps applied to <variant>" and [bpy.data] is unchanged. *)
Theorem ui_generate_reports_success_on_failure :
  forall s b base v vo,
  active_object s = Some b ->
  nth_error (objects s) b = Some base ->
  find_variant s (ob_name base ++ "_Variant") = Some v ->
  nth_error (objects s) v = Some vo ->
  remap_list s <> [] ->
  image_source (bpy_data s) (Some (to_object base)) = None ->
  snd (LV_OT_GenerateVariant_execute s) = Return FINISHED /\
  bpy_data (fst (LV_OT_GenerateVariant_execute s)) = bpy_data s /\
  reports (fst (LV_OT_GenerateVariant_execute s))
    = reports s ++ [(INFO, ("Remaps applied to " ++ ob_name vo)%string)].
Proof.
  intros s b base v vo Ha Hb Hf Hv Hne Himg.
  destruct (generate_variant_data s b base v Ha Hb Hf) as (Hd & Ho).
  rewrite Hv in Hd, Ho. cbn [option_map] in Hd, Ho.
  assert (E : apply_multi_remap (bpy_data s) (Some (to_object base))
                (Some (to_object vo)) (collect_remaps s)
                multi_remap_default_tolerance = (bpy_data s, Return tt)).
  { apply apply_multi_remap_skips. right; right; right. split; [|exact Himg].
    unfold collect_remaps. destruct (remap_list s); [contradiction | discriminate]. }
  rewrite E in Hd, Ho. cbn [fst snd] in Hd, Ho.
  destruct Ho as [Hfin Hr]. exact (conj Hfin (conj Hd Hr)).
Qed.

Lemma ui_generate_reports_success_on_failure_witness :
  active_object ex_plain_session = Some 0%nat /\
  nth_error (objects ex_plain_session) 0 = Some ex_pair_base /\
  find_variant ex_plain_session (ob_name ex_pair_base ++ "_Variant") = Some 1%nat /\
  nth_error (objects ex_plain_session) 1 = Some ex_pair_variant /\
  remap_list ex_plain_session <> [] /\
  image_source (bpy_data ex_plain_session) (Some (to_object ex_pair_base)) = None /\
  snd (LV_OT_GenerateVariant_execute ex_plain_session) = Return FINISHED /\
  bpy_data (fst (LV_OT_GenerateVariant_execute ex_plain_session))
    = bpy_data ex_plain_session /\
  reports (fst (LV_OT_GenerateVariant_execute ex_plain_session))
    = reports ex_plain_session
      ++ [(INFO, ("Remaps applied to " ++ ob_name ex_pair_variant)%string)].
Proof.
  split; [reflexivity|]. split; [reflexivity|]. split; [reflexivity|].
  split; [reflexivity|]. split; [discriminate|]. split; [reflexivity|].
  apply (ui_generate_reports_success_on_failure ex_plain_session 0%nat
           ex_pair_base 1%nat ex_pair_variant);
    try reflexivity. discriminate.
Defined.

(** ** [utils/texture_setup.py] *)

Lemma existsb_add_path p ps : existsb (String.eqb p) (add_path p ps) = true.
Proof.
  unfold add_path. destruct (existsb (String.eqb p) ps) eqn:E; [exact E|].
  rewrite existsb_app. cbn. rewrite String.eqb_refl. apply orb_true_r.
Qed.

Lemma existsb_add_path_keeps q p ps :
  existsb (String.eqb q) ps = true -> existsb (String.eqb q) (add_path p ps) = true.
Proof.
  intros H. unfold add_path. destruct (existsb (String.eqb p) ps); [exact H|].
  rewrite existsb_app, H. reflexivity.
Qed.

(** The session [save_image_to_temp] leaves when nothing raises. *)
Lemma save_image_to_temp_ok h s img filename :
  path_exists (temp_dir_of h) s = true \/
  can_make_directory h (temp_dir_of h) = true ->
  can_write_image h (saved_path h filename) = true ->
  save_image_to_temp h s img filename
  = (image_set img (set_fake_user true)
       (write_file (saved_path h filename)
          (image_set img (set_image_file (saved_path h filename) "PNG")
             (if negb (path_exists (temp_dir_of h) s)
              then makedirs (temp_dir_of h) s else s))),
     Return (saved_path h filename)).
Proof.
  intros Hdir Hw. unfold save_image_to_temp. cbn zeta.
  fold (saved_path h filename). rewrite Hw.
  destruct (path_exists (temp_dir_of h) s) eqn:E; cbn [negb andb]; [reflexivity|].
  destruct Hdir as [Hdir|Hdir]; [discriminate|]. rewrite Hdir. reflexivity.
Qed.

(** X15.  [save_image_to_temp] builds its path with [os.path.join] from the
    temp directory (the home directory when the host has none) and the file
    name.  When the directory exists or can be made and the image can be
    written, it returns that path; afterwards the file and the directory
    exist, the image carries the path, the format PNG and a fake user, and
    [bpy.data] and the objects are untouched.  When the directory is
    missing and cannot be made the call raises with the session unchanged;
    when the image cannot be written it raises after the path and the
    format were set, without file and without fake user. *)
Theorem save_image_to_temp_path :
  forall h s img filename,
  (path_exists (temp_dir_of h) s = true \/
   can_make_directory h (temp_dir_of h) = true ->
   can_write_image h (saved_path h filename) = true ->
   snd (save_image_to_temp h s img filename) = Return (saved_path h filename) /\
   path_exists (saved_path h filename)
               (fst (save_image_to_temp h s img filename)) = true /\
   path_exists (temp_dir_of h) (fst (save_image_to_temp h s img filename)) = true /\
   nth_error (images (fst (save_image_to_temp h s img filename))) img
     = option_map (fun i => set_fake_user true
                              (set_image_file (saved_path h filename) "PNG" i))
                  (nth_error (images s) img) /\
   bpy_data (fst (save_image_to_temp h s img filename)) = bpy_data s /\
   objects (fst (save_image_to_temp h s img filename)) = objects s) /\
  (path_exists (temp_dir_of h) s = false ->
   can_make_directory h (temp_dir_of h) = false ->
   save_image_to_temp h s img filename = (s, Raise OSError)) /\
  (path_exists (temp_dir_of h) s = true \/
   can_make_directory h (temp_dir_of h) = true ->
   can_write_image h (saved_path h filename) = false ->
   snd (save_image_to_temp h s img filename) = Raise RuntimeError /\
   files (fst (save_image_to_temp h s img filename)) = files s /\
   nth_error (images (fst (save_image_to_temp h s img filename))) img
     = option_map (set_image_file (saved_path h filename) "PNG")
                  (nth_error (images s) img)) /\
  saved_path h filename = path_join h (temp_dir_of h) filename /\
  temp_dir_of h = (if String.eqb (tempdir h) EmptyString then home h else tempdir h).
Proof.
  intros h s img filename.
  refine (conj _ (conj _ (conj _ (conj eq_refl eq_refl)))).
  - intros Hdir Hw. rewrite (save_image_to_temp_ok h s img filename Hdir Hw).
    cbn [fst snd]. set (p := saved_path h filename).
    refine (conj eq_refl (conj _ (conj _ (conj _ (conj _ _))))).
    + unfold path_exists, image_set, with_images, write_file.
      cbn [files directories]. rewrite existsb_add_path. apply orb_true_r.
    + unfold path_exists at 1, image_set, with_images, write_file.
      cbn [files directories].
      destruct (path_exists (temp_dir_of h) s) eqn:E; cbn [negb].
      * unfold path_exists in E. apply orb_true_iff in E. destruct E as [E|E].
        -- now rewrite E.
        -- rewrite (existsb_add_path_keeps _ p _ E). apply orb_true_r.
      * unfold makedirs. cbn [directories]. now rewrite existsb_add_path.
    + unfold image_set, with_images, write_file. cbn [images].
      destruct (negb (path_exists (temp_dir_of h) s)); cbn [images makedirs];
        rewrite !nth_error_list_update, Nat.eqb_refl;
        destruct (nth_error (images s) img); reflexivity.
    + destruct (negb (path_exists (temp_dir_of h) s)); reflexivity.
    + destruct (negb (path_exists (temp_dir_of h) s)); reflexivity.
  - intros E Hm. unfold save_image_to_temp. cbn zeta. now rewrite E, Hm.
  - intros Hdir Hw. unfold save_image_to_temp. cbn zeta.
    fold (saved_path h filename). rewrite Hw.
    assert (Hc : negb (path_exists (temp_dir_of h) s)
                 && negb (can_make_directory h (temp_dir_of h)) = false).
    { destruct Hdir as [-> | ->]; [reflexivity|].
      destruct (path_exists (temp_dir_of h) s); reflexivity. }
    rewrite Hc. cbn [fst snd].
    refine (conj eq_refl (conj _ _)).
    + destruct (negb (path_exists (temp_dir_of h) s)); reflexivity.
    + unfold image_set, with_images.
      destruct (negb (path_exists (temp_dir_of h) s)); cbn [images makedirs];
        rewrite nth_error_list_update, Nat.eqb_refl;
        destruct (nth_error (images s) img); reflexivity.
Qed.

(** What a successful [save_image_to_temp] leaves alone. *)
Lemma save_image_keeps h s img filename :
  path_exists (temp_dir_of h) s = true \/
  can_make_directory h (temp_dir_of h) = true ->
  can_write_image h (saved_path h filename) = true ->
  snd (save_image_to_temp h s img filename) = Return (saved_path h filename) /\
  bpy_data (fst (save_image_to_temp h s img filename)) = bpy_data s /\
  objects (fst (save_image_to_temp h s img filename)) = objects s /\
  scene_objects (fst (save_image_to_temp h s img filename)) = scene_objects s /\
  active_object (fst (save_image_to_temp h s img filename)) = active_object s /\
  remap_list (fst (save_image_to_temp h s img filename)) = remap_list s /\
  reports (fst (save_image_to_temp h s img filename)) = reports s /\
  image_name (fst (save_image_to_temp h s img filename)) img = image_name s img /\
  length (images (fst (save_image_to_temp h s img filename))) = length (images s).
Proof.
  intros Hdir Hw. rewrite (save_image_to_temp_ok h s img filename Hdir Hw).
  cbn [fst snd].
  assert (Hl : forall s0,
            length (images (image_set img (set_fake_user true)
                          (write_file (saved_path h filename)
                             (image_set img
                                (set_image_file (saved_path h filename) "PNG") s0))))
            = length (images s0)).
  { intros s0. unfold image_set, with_images, write_file.
    cbn [images]. now rewrite !length_list_update. }
  assert (Hn : forall s0,
            image_name (image_set img (set_fake_user true)
                          (write_file (saved_path h filename)
                             (image_set img
                                (set_image_file (saved_path h filename) "PNG") s0)))
                       img = image_name s0 img).
  { intros s0. unfold image_name, image_set, with_images, write_file.
    cbn [images]. rewrite !nth_error_list_update, Nat.eqb_refl.
    destruct (nth_error (images s0) img); reflexivity. }
  destruct (negb (path_exists (temp_dir_of h) s));
    (repeat split; try reflexivity); first [rewrite Hn | rewrite Hl]; reflexivity.
Qed.

(** X16.  Without an object, or for an object that is no mesh,
    [create_base_material_with_texture] returns (None, None) and leaves the
    session as it was: no material, no image, no file. *)
Theorem create_base_material_rejects :
  forall h s obj col,
  obj = None \/
  (exists ob, object_data s obj = Some ob /\ String.eqb (ob_type ob) "MESH" = false) ->
  create_base_material_with_texture h s obj col = (s, Return (None, None)).
Proof.
  intros h s obj col H. unfold create_base_material_with_texture.
  destruct obj as [o|]; [|reflexivity].
  destruct H as [H|(ob & Hob & Hty)]; [discriminate|].
  cbn [object_data] in Hob. rewrite Hob, Hty. reflexivity.
Qed.

Lemma create_base_material_rejects_witness :
  (Some 0%nat = None \/
   (exists ob, object_data ex_rigged_session (Some 0%nat) = Some ob /\
               String.eqb (ob_type ob) "MESH" = false)) /\
  create_base_material_with_texture ex_host ex_rigged_session (Some 0%nat) ex_yellow
    = (ex_rigged_session, Return (None, None)).
Proof.
  assert (H : exists ob, object_data ex_rigged_session (Some 0%nat) = Some ob /\
                         String.eqb (ob_type ob) "MESH" = false).
  { exists ex_rig. split; reflexivity. }
  split; [right; exact H|].
  apply (create_base_material_rejects ex_host ex_rigged_session (Some 0%nat) ex_yellow).
  right; exact H.
Defined.

Lemma base_material_tree_surface sample img extra :
  surface_color (extra + 2) sample (base_material_tree img) = Some (sample img).
Proof.
  replace (extra + 2)%nat with (S (S extra)) by lia. reflexivity.
Qed.
Lemma prepare_texture_paint_ok h img s ob :
  object_data s (active_object s) = Some ob ->
  mode_set_error h ob "TEXTURE_PAINT" = None ->
  mode_set_error h ob "OBJECT" = None ->
  prepare_texture_paint h img s
  = (set_mode "OBJECT" (set_canvas img (set_mode "TEXTURE_PAINT" s)), Return tt).
Proof.
  intros Ha Ht Ho. unfold prepare_texture_paint, mode_set.
  rewrite Ha, Ht.
  change (object_data (set_canvas img (set_mode "TEXTURE_PAINT" s))
            (active_object (set_canvas img (set_mode "TEXTURE_PAINT" s))))
    with (object_data s (active_object s)).
  now rewrite Ha, Ho.
Qed.

Lemma prepare_texture_paint_no_object h img s :
  object_data s (active_object s) = None ->
  prepare_texture_paint h img s = (s, Raise RuntimeError).
Proof.
  intros Ha. unfold prepare_texture_paint, mode_set. now rewrite Ha.
Qed.

Lemma base_material_nodes_tree img nt :
  node_set 0 (set_image img) (base_material_nodes nt) = base_material_tree img.
Proof. reflexivity. Qed.

(** [create_base_material_with_texture] up to line 91, for a mesh object
    whose image can be saved: the session [before] the mode changes. *)
Lemma create_base_material_steps h s o ob me col :
  nth_error (objects s) o = Some ob ->
  String.eqb (ob_type ob) "MESH" = true ->
  ob_data ob = Some me ->
  can_save h s ob ->
  exists before,
    create_base_material_with_texture h s (Some o) col
    = match prepare_texture_paint h (base_image_name s ob) before with
      | (s', Raise e) => (s', Raise e)
      | (s', Return _) =>
          (s', Return (Some (length (materials (bpy_data s))),
                       Some (image_name s' (length (images s)))))
      end /\
    materials (bpy_data before) = materials (bpy_data s) ++ [base_material_of s ob] /\
    unique_name (bpy_data before) = unique_name (bpy_data s) /\
    (forall k, mesh_materials (bpy_data before) k =
               if Nat.eqb k me
               then Some (length (materials (bpy_data s)))
                    :: tl (mesh_materials (bpy_data s) me)
               else mesh_materials (bpy_data s) k) /\
    objects before = objects s /\
    scene_objects before = scene_objects s /\
    active_object before = active_object s /\
    remap_list before = remap_list s /\
    reports before = reports s /\
    image_name before (length (images s)) = base_image_name s ob /\
    length (images before) = S (length (images s)).
Proof.
  intros Hob Hty Hme [Hdir Hw].
  unfold create_base_material_with_texture.
  rewrite Hob, Hty. cbn [negb].
  unfold materials_new, images_new. cbn zeta.
  match goal with
  | |- context [save_image_to_temp ?hh ?ss ?ii ?ff] =>
      pose proof (save_image_keeps hh ss ii ff Hdir Hw)
        as (Kret & Kd & Ko & Ks & Ka & Kr & Kp & Kn & Kl);
      destruct (save_image_to_temp hh ss ii ff) as [s2 [path|e]];
        [|discriminate Kret]
  end.
  cbn [fst snd] in Kret, Kd, Ko, Ks, Ka, Kr, Kp, Kn, Kl.
  assert (Kn' : image_name s2 (length (images s)) = base_image_name s ob).
  { etransitivity; [exact Kn|].
    unfold image_name, image_set, with_images, with_data. cbn [images].
    rewrite nth_error_list_update, Nat.eqb_refl, nth_error_app_length.
    reflexivity. }
  clear Kn.
  unfold image_set, with_images, with_data in Kd, Ko, Ks, Ka, Kr, Kp, Kl.
  cbn [fst snd bpy_data objects images scene_objects active_object mode canvas
       directories files remap_list reports materials mesh_materials] in *.
  unfold material_set in Kd. cbn [materials mesh_materials unique_name] in Kd.
  rewrite !list_update_app_0 in Kd. cbn [list_update enable_nodes set_node_tree
    mat_name use_nodes node_tree] in Kd.
  rewrite Hme.
  unfold with_data.
  cbn [bpy_data objects images scene_objects active_object mode canvas
       directories files remap_list reports].
  set (img := image_name s2 (length (images s))) in *.
  rewrite Kd, Ko, Ks, Ka, Kr, Kp.
  unfold material_set. cbn [materials mesh_materials unique_name].
  rewrite list_update_app_0.
  cbn [list_update enable_nodes set_node_tree mat_name use_nodes node_tree].
  rewrite base_material_nodes_tree.
  rewrite length_list_update, length_app, Nat.add_1_r in Kl.
  fold (base_material_of s ob).
  destruct (mesh_materials (bpy_data s) me) as [|slot rest] eqn:Es;
    match goal with
    | |- context [prepare_texture_paint h ?i ?S] =>
        replace i with (base_image_name s ob) by (symmetry; exact Kn');
        exists S
    end;
    rewrite Kn';
    unfold mesh_materials_append, mesh_slot_set_first, mesh_set;
    cbn [fst snd bpy_data objects images scene_objects active_object mode canvas
         directories files remap_list reports materials mesh_materials unique_name];
    rewrite ?Es; cbn [app list_update tl];
    (repeat split; try reflexivity; try assumption).
Qed.

(** X17.  For a mesh object with mesh data whose image file can be saved:
    when the context has an active object that the host lets enter texture
    paint and object mode, [create_base_material_with_texture] returns the
    one material it appends to [bpy.data.materials] and the image it
    created; the material's tree passes the Color of that image straight to
    Base Color, so it shows the texel unchanged and is a valid source for
    [apply_color_remaps]; the material goes into the first slot of the
    object's mesh, replacing what was there, while the other slots, the
    other meshes and the objects are as before, and it is the object's
    active material when the active slot is slot 0.  Without an active
    object the call ends with RuntimeError at line 94, after the material
    and the image were created and the slot was assigned.  The image bears
    the name "<name>_BaseTex" when the host's naming rule keeps free names
    and that name is free and within the length limit. *)
Theorem create_base_material_result_ok :
  forall h s o ob me col (sample : Image -> color) extra,
  nth_error (objects s) o = Some ob ->
  String.eqb (ob_type ob) "MESH" = true ->
  ob_data ob = Some me ->
  can_save h s ob ->
  (paint_ready h s ->
   snd (create_base_material_with_texture h s (Some o) col)
     = Return (Some (length (materials (bpy_data s))), Some (base_image_name s ob)) /\
   materials (bpy_data (fst (create_base_material_with_texture h s (Some o) col)))
     = materials (bpy_data s) ++ [base_material_of s ob] /\
   source_image (base_material_of s ob) = Some (base_image_name s ob) /\
   surface_color (extra + 2) sample (node_tree (base_material_of s ob))
     = Some (sample (base_image_name s ob)) /\
   mesh_materials (bpy_data (fst (create_base_material_with_texture h s (Some o) col)))
                  me
     = Some (length (materials (bpy_data s)))
       :: tl (mesh_materials (bpy_data s) me) /\
   (forall k, k <> me ->
      mesh_materials
        (bpy_data (fst (create_base_material_with_texture h s (Some o) col))) k
      = mesh_materials (bpy_data s) k) /\
   objects (fst (create_base_material_with_texture h s (Some o) col)) = objects s /\
   (ob_active_material_index ob = 0%nat ->
    active_material
      (bpy_data (fst (create_base_material_with_texture h s (Some o) col)))
      (to_object ob)
    = Some (length (materials (bpy_data s))))) /\
  (object_data s (active_object s) = None ->
   snd (create_base_material_with_texture h s (Some o) col) = Raise RuntimeError /\
   length (materials
             (bpy_data (fst (create_base_material_with_texture h s (Some o) col))))
     = S (length (materials (bpy_data s))) /\
   length (images (fst (create_base_material_with_texture h s (Some o) col)))
     = S (length (images s)) /\
   mesh_materials (bpy_data (fst (create_base_material_with_texture h s (Some o) col)))
                  me
     = Some (length (materials (bpy_data s)))
       :: tl (mesh_materials (bpy_data s) me)) /\
  (keeps_free_names (unique_name (bpy_data s)) ->
   (String.length (ob_name ob ++ "_BaseTex") <= name_limit)%nat ->
   ~ In (ob_name ob ++ "_BaseTex")%string (image_names s) ->
   base_image_name s ob = (ob_name ob ++ "_BaseTex")%string).
Proof.
  intros h s o ob me col sample extra Hob Hty Hme Hsave.
  destruct (create_base_material_steps h s o ob me col Hob Hty Hme Hsave)
    as (before & Hrun & Hm & _ & Hs & Ho & _ & Ha & _ & _ & Hn & Hl).
  refine (conj _ (conj _ _)).
  - intros (ob0 & Hact & Htp & Hom).
    assert (Hact' : object_data before (active_object before) = Some ob0).
    { unfold object_data in *. now rewrite Ha, Ho. }
    rewrite (prepare_texture_paint_ok h _ before ob0 Hact' Htp Hom) in Hrun.
    rewrite Hrun. cbn [fst snd set_mode set_canvas bpy_data objects].
    change (image_name (set_mode "OBJECT"
                          (set_canvas (base_image_name s ob)
                             (set_mode "TEXTURE_PAINT" before)))
                       (length (images s)))
      with (image_name before (length (images s))).
    rewrite Hn.
    refine (conj eq_refl (conj Hm (conj eq_refl (conj _ (conj _ (conj _ (conj Ho _))))))).
    + apply base_material_tree_surface.
    + now rewrite Hs, Nat.eqb_refl.
    + intros k Hk. rewrite Hs. apply Nat.eqb_neq in Hk. now rewrite Hk.
    + intros Hidx. unfold active_material, to_object. cbn [data active_material_index].
      rewrite Hme, Hs, Nat.eqb_refl, Hidx. reflexivity.
  - intros Hnone.
    assert (Hnone' : object_data before (active_object before) = None).
    { unfold object_data in *. now rewrite Ha, Ho. }
    rewrite (prepare_texture_paint_no_object h _ before Hnone') in Hrun.
    rewrite Hrun. cbn [fst snd].
    refine (conj eq_refl (conj _ (conj Hl _))).
    + rewrite Hm, length_app. cbn [length]. lia.
    + now rewrite Hs, Nat.eqb_refl.
  - intros Hrule Hlen Hfree. unfold base_image_name. now apply Hrule.
Qed.

Lemma ex_session_can_save : can_save ex_host ex_session ex_cube.
Proof. split; [right; reflexivity | reflexivity]. Qed.

Lemma ex_unselected_can_save : can_save ex_host ex_unselected_session ex_cube.
Proof. split; [right; reflexivity | reflexivity]. Qed.

Lemma ex_session_paint_ready : paint_ready ex_host ex_session.
Proof. exists ex_cube. repeat split; reflexivity. Qed.

Lemma create_base_material_result_ok_witness :
  (nth_error (objects ex_session) 0 = Some ex_cube /\
   String.eqb (ob_type ex_cube) "MESH" = true /\
   ob_data ex_cube = Some 0%nat /\
   can_save ex_host ex_session ex_cube /\
   paint_ready ex_host ex_session /\
   snd (create_base_material_with_texture ex_host ex_session (Some 0%nat) ex_yellow)
     = Return (Some 0%nat, Some "Cube_BaseTex") /\
   materials (bpy_data (fst (create_base_material_with_texture ex_host ex_session
                               (Some 0%nat) ex_yellow)))
     = [base_material_of ex_session ex_cube] /\
   mesh_materials (bpy_data (fst (create_base_material_with_texture ex_host ex_session
                                    (Some 0%nat) ex_yellow))) 0
     = [Some 0%nat] /\
   active_material (bpy_data (fst (create_base_material_with_texture ex_host ex_session
                                     (Some 0%nat) ex_yellow)))
                   (to_object ex_cube)
     = Some 0%nat) /\
  (nth_error (objects ex_unselected_session) 0 = Some ex_cube /\
   can_save ex_host ex_unselected_session ex_cube /\
   object_data ex_unselected_session (active_object ex_unselected_session) = None /\
   snd (create_base_material_with_texture ex_host ex_unselected_session (Some 0%nat)
          ex_yellow)
     = Raise RuntimeError /\
   length (materials
             (bpy_data (fst (create_base_material_with_texture ex_host
                               ex_unselected_session (Some 0%nat) ex_yellow))))
     = 1%nat /\
   length (images (fst (create_base_material_with_texture ex_host
                          ex_unselected_session (Some 0%nat) ex_yellow)))
     = 1%nat).
Proof.
  split.
  - pose proof (create_base_material_result_ok ex_host ex_session 0%nat ex_cube 0%nat
                  ex_yellow (fun _ => ex_yellow) 0 eq_refl eq_refl eq_refl
                  ex_session_can_save) as (H & _ & _).
    destruct (H ex_session_paint_ready) as (Hr & Hm & _ & _ & Hs & _ & _ & Hact).
    split; [reflexivity|]. split; [reflexivity|]. split; [reflexivity|].
    split; [exact ex_session_can_save|]. split; [exact ex_session_paint_ready|].
    split; [exact Hr|]. split; [exact Hm|]. split; [exact Hs|].
    exact (Hact eq_refl).
  - pose proof (create_base_material_result_ok ex_host ex_unselected_session 0%nat
                  ex_cube 0%nat ex_yellow (fun _ => ex_yellow) 0 eq_refl eq_refl
                  eq_refl ex_unselected_can_save) as (_ & H & _).
    destruct (H eq_refl) as (Hr & Hm & Hi & _).
    exact (conj eq_refl (conj ex_unselected_can_save (conj eq_refl
             (conj Hr (conj Hm Hi))))).
Defined.

(** ** [duplicate_with_rig_and_texture] *)

Lemma list_update_app_l {A} (l l' : list A) (k : nat) (f : A -> A) :
  (k < length l)%nat -> list_update (l ++ l') k f = list_update l k f ++ l'.
Proof.
  revert k; induction l as [|x l IH]; intros k Hk; cbn in Hk; [lia|].
  destruct k as [|k]; cbn; [reflexivity|].
  rewrite IH by lia. reflexivity.
Qed.

Lemma data_id_below_new_mesh_id s o ob :
  nth_error (objects s) o = Some ob -> (data_id ob < new_mesh_id s)%nat.
Proof.
  intros H. unfold new_mesh_id.
  assert (Hall : Forall (fun k => (k <= list_max (List.map data_id (objects s)))%nat)
                        (List.map data_id (objects s))).
  { apply list_max_le. lia. }
  rewrite Forall_forall in Hall.
  assert (Hin : In (data_id ob) (List.map data_id (objects s))).
  { apply in_map. eapply nth_error_In. exact H. }
  specialize (Hall _ Hin). lia.
Qed.

Lemma new_mesh_id_after_copy s o ob x :
  nth_error (objects s) o = Some ob ->
  data_id x = data_id ob ->
  new_mesh_id (with_objects (fun l => l ++ [x]) s) = new_mesh_id s.
Proof.
  intros H Hx. pose proof (data_id_below_new_mesh_id s o ob H) as Hlt.
  unfold new_mesh_id in *. unfold with_objects. cbn [objects].
  rewrite map_app, list_max_app. cbn [List.map list_max fold_right]. lia.
Qed.

Lemma fold_slots_result me slots :
  forall s0,
  let f := fold_left (fun s slot => with_data (mesh_slot_append me slot) s) slots s0 in
  objects f = objects s0 /\ images f = images s0 /\
  scene_objects f = scene_objects s0 /\ active_object f = active_object s0 /\
  mode f = mode s0 /\ canvas f = canvas s0 /\ directories f = directories s0 /\
  files f = files s0 /\ remap_list f = remap_list s0 /\ reports f = reports s0 /\
  materials (bpy_data f) = materials (bpy_data s0) /\
  unique_name (bpy_data f) = unique_name (bpy_data s0) /\
  (forall k, mesh_materials (bpy_data f) k =
             if Nat.eqb k me then mesh_materials (bpy_data s0) me ++ slots
             else mesh_materials (bpy_data s0) k).
Proof.
  induction slots as [|slot rest IH]; intros s0; cbn [fold_left].
  - repeat split; try reflexivity.
    intros k. destruct (Nat.eqb k me) eqn:E; [|reflexivity].
    apply Nat.eqb_eq in E. subst k. now rewrite app_nil_r.
  - specialize (IH (with_data (mesh_slot_append me slot) s0)).
    cbn zeta in IH.
    destruct IH as (H1&H2&H3&H4&H5&H6&H7&H8&H9&H10&H11&H11'&H12).
    cbn zeta.
    refine (conj H1 (conj H2 (conj H3 (conj H4 (conj H5 (conj H6 (conj H7
              (conj H8 (conj H9 (conj H10 (conj H11 (conj H11' _)))))))))))).
    intros k. rewrite H12.
    unfold with_data, mesh_slot_append, mesh_set. cbn [bpy_data mesh_materials].
    rewrite Nat.eqb_refl.
    destruct (Nat.eqb k me); [now rewrite <- app_assoc | reflexivity].
Qed.

Lemma parent_is_armature_app s s' base x :
  objects s' = objects s ++ [x] ->
  String.eqb (ob_type x) "ARMATURE" = false ->
  parent_is_armature s' base = parent_is_armature s base.
Proof.
  intros Ho Hx. unfold parent_is_armature.
  destruct (ob_parent base) as [p|]; [|reflexivity].
  rewrite Ho.
  destruct (Nat.lt_ge_cases p (length (objects s))) as [Hp|Hp].
  - now rewrite nth_error_app1.
  - assert (Hn : nth_error (objects s) p = None) by now apply nth_error_None.
    rewrite Hn. rewrite nth_error_app2 by exact Hp.
    destruct (p - length (objects s))%nat as [|k]; cbn [nth_error].
    + exact Hx.
    + destruct k; reflexivity.
Qed.

Lemma nth_error_list_update_same {A} (l : list A) (k : nat) (f : A -> A) x :
  nth_error l k = Some x -> nth_error (list_update l k f) k = Some (f x).
Proof.
  intros H. now rewrite nth_error_list_update, Nat.eqb_refl, H.
Qed.

Lemma list_update_at {A} (l : list A) (b : nat) (f g : A -> A) x :
  nth_error l b = Some x -> f x = g x -> list_update l b f = list_update l b g.
Proof.
  revert b. induction l as [|y l IH]; intros [|b] Hb Hfg; cbn in *;
    try discriminate; try reflexivity.
  - inversion Hb; subst y. now rewrite Hfg.
  - f_equal. now apply IH.
Qed.

(** The session a duplication leaves, for a mesh object with mesh data. *)
Lemma duplicate_result h s b base base_me :
  nth_error (objects s) b = Some base ->
  String.eqb (ob_type base) "MESH" = true ->
  ob_data base = Some base_me ->
  snd (duplicate_with_rig_and_texture h s (Some b))
    = Return (Some (length (objects s))) /\
  objects (fst (duplicate_with_rig_and_texture h s (Some b)))
    = list_update (objects s) b
        (set_location_x (Single.sub (location_x base) two))
      ++ [duplicate_of h s base] /\
  materials (bpy_data (fst (duplicate_with_rig_and_texture h s (Some b))))
    = materials (bpy_data s) /\
  unique_name (bpy_data (fst (duplicate_with_rig_and_texture h s (Some b))))
    = unique_name (bpy_data s) /\
  (forall k,
     mesh_materials (bpy_data (fst (duplicate_with_rig_and_texture h s (Some b)))) k
     = if Nat.eqb k (new_mesh_id s) then mesh_materials (bpy_data s) base_me
       else mesh_materials (bpy_data s) k) /\
  scene_objects (fst (duplicate_with_rig_and_texture h s (Some b)))
    = scene_objects s ++ [length (objects s)] /\
  active_object (fst (duplicate_with_rig_and_texture h s (Some b))) = active_object s /\
  remap_list (fst (duplicate_with_rig_and_texture h s (Some b))) = remap_list s /\
  reports (fst (duplicate_with_rig_and_texture h s (Some b))) = reports s /\
  images (fst (duplicate_with_rig_and_texture h s (Some b))) = images s.
Proof.
  intros Hb Hty Hme.
  assert (Hlt : (b < length (objects s))%nat).
  { apply nth_error_Some. rewrite Hb. discriminate. }
  pose proof (data_id_below_new_mesh_id s b base Hb) as Hfresh.
  unfold data_id in Hfresh. rewrite Hme in Hfresh.
  assert (Hne : Nat.eqb base_me (new_mesh_id s) = false).
  { apply Nat.eqb_neq. lia. }
  assert (Hmesh : String.eqb (ob_type base) "ARMATURE" = false).
  { apply String.eqb_eq in Hty. rewrite Hty. reflexivity. }
  unfold duplicate_with_rig_and_texture. rewrite Hb, Hty, Hme. cbn [negb].
  unfold mesh_copy. cbn zeta.
  rewrite (new_mesh_id_after_copy s b base
             (set_ob_name (unique_name (bpy_data s) (object_names s) (ob_name base))
                          base) Hb eq_refl).
  match goal with
  | |- context [parent_is_armature ?s3 base] =>
      assert (Hpa : parent_is_armature s3 base = parent_is_armature s base)
  end.
  { apply (parent_is_armature_app s _ base
             (set_ob_name (variant_name s base)
                (set_ob_data (new_mesh_id s)
                   (set_ob_name (unique_name (bpy_data s) (object_names s)
                                             (ob_name base)) base)))).
    - cbn [objects object_set collection_link with_objects with_data].
      repeat (rewrite list_update_app_0; cbn [list_update]).
      reflexivity.
    - exact Hmesh. }
  rewrite Hpa. clear Hpa.
  match goal with
  | |- context [if parent_is_armature s base then ?t1 else ?t2] =>
      set (s4 := if parent_is_armature s base then t1 else t2)
  end.
  assert (O4 : objects s4 = objects s ++
                 [mkObjectData (variant_name s base) (ob_type base)
                    (Some (new_mesh_id s)) (ob_active_material_index base)
                    (ob_parent base) (ob_location base)
                    (if parent_is_armature s base
                     then copy_modifiers h (ob_modifiers base) []
                     else ob_modifiers base)]).
  { unfold s4. destruct (parent_is_armature s base);
      cbn [objects object_set collection_link with_objects with_data];
      repeat (rewrite list_update_app_0; cbn [list_update]);
      reflexivity. }
  assert (D4 : bpy_data s4 =
               mesh_set (new_mesh_id s) (mesh_materials (bpy_data s) base_me)
                        (bpy_data s)).
  { unfold s4. destruct (parent_is_armature s base);
      cbn [bpy_data objects images scene_objects active_object remap_list reports
           object_set collection_link with_objects with_data]; reflexivity. }
  assert (S4 : scene_objects s4 = scene_objects s ++ [length (objects s)]).
  { unfold s4. destruct (parent_is_armature s base);
      cbn [bpy_data objects images scene_objects active_object remap_list reports
           object_set collection_link with_objects with_data]; reflexivity. }
  assert (A4 : active_object s4 = active_object s).
  { unfold s4. destruct (parent_is_armature s base);
      cbn [bpy_data objects images scene_objects active_object remap_list reports
           object_set collection_link with_objects with_data]; reflexivity. }
  assert (R4 : remap_list s4 = remap_list s).
  { unfold s4. destruct (parent_is_armature s base);
      cbn [bpy_data objects images scene_objects active_object remap_list reports
           object_set collection_link with_objects with_data]; reflexivity. }
  assert (P4 : reports s4 = reports s).
  { unfold s4. destruct (parent_is_armature s base);
      cbn [bpy_data objects images scene_objects active_object remap_list reports
           object_set collection_link with_objects with_data]; reflexivity. }
  assert (I4 : images s4 = images s).
  { unfold s4. destruct (parent_is_armature s base);
      cbn [bpy_data objects images scene_objects active_object remap_list reports
           object_set collection_link with_objects with_data]; reflexivity. }
  clearbody s4.
  assert (Hslots : mesh_materials
                     (bpy_data (with_data (mesh_materials_clear (new_mesh_id s)) s4))
                     base_me
                   = mesh_materials (bpy_data s) base_me).
  { unfold with_data, mesh_materials_clear, mesh_set. cbn [bpy_data mesh_materials].
    rewrite Hne, D4. unfold mesh_set. cbn [mesh_materials]. now rewrite Hne. }
  rewrite Hslots.
  match goal with
  | |- context [fold_left ?f ?l ?s0] =>
      destruct (fold_slots_result (new_mesh_id s) l s0)
        as (F1&F2&F3&F4&_&_&_&_&F9&F10&F11&F11'&F12);
      cbn zeta in F1, F2, F3, F4, F9, F10, F11, F11', F12;
      set (s6 := fold_left f l s0) in *
  end.
  unfold with_data in F1, F2, F3, F4, F9, F10, F11, F11', F12.
  cbn [bpy_data objects images scene_objects active_object remap_list reports]
    in F1, F2, F3, F4, F9, F10, F11, F11', F12.
  unfold mesh_materials_clear, mesh_set in F11, F11', F12.
  cbn [materials mesh_materials unique_name] in F11, F11', F12.
  rewrite D4 in F11, F11', F12. unfold mesh_set in F11, F11', F12.
  cbn [materials mesh_materials unique_name] in F11, F11', F12.
  clearbody s6.
  assert (B7 : nth_error
                 (objects (object_set b
                    (fun o => set_location_x (Single.sub (location_x o) two) o) s6)) b
               = Some (set_location_x (Single.sub (location_x base) two) base)).
  { unfold object_set, with_objects. cbn [objects]. rewrite F1, O4.
    rewrite list_update_app_l by exact Hlt.
    rewrite nth_error_app1 by (rewrite length_list_update; exact Hlt).
    rewrite nth_error_list_update, Nat.eqb_refl, Hb. reflexivity. }
  rewrite B7.
  unfold object_set, with_objects.
  cbn [fst snd bpy_data objects images scene_objects active_object mode canvas
       directories files remap_list reports].
  rewrite F1, F2, F3, F4, F9, F10, F11, F11', O4, S4, A4, R4, P4, I4.
  refine (conj eq_refl (conj _ (conj eq_refl (conj eq_refl (conj _
            (conj eq_refl (conj eq_refl (conj eq_refl (conj eq_refl eq_refl))))))))).
  - rewrite (list_update_app_l _ _ b) by exact Hlt.
    assert (Hlen : length (list_update (objects s) b
                     (fun o => set_location_x (Single.sub (location_x o) two) o))
                   = length (objects s)) by apply length_list_update.
    rewrite <- Hlen at 1. rewrite list_update_app_0. cbn [list_update].
    f_equal. now apply (list_update_at _ _ _ _ base).
  - intros k. rewrite F12, Nat.eqb_refl.
    destruct (Nat.eqb k (new_mesh_id s)); reflexivity.
Qed.

(** X18.  Without an object, or for an object that is no mesh,
    [duplicate_with_rig_and_texture] returns [None] and changes nothing. *)
Theorem duplicate_rejects :
  forall h s base_obj,
  base_obj = None \/
  (exists ob, object_data s base_obj = Some ob /\ String.eqb (ob_type ob) "MESH" = false) ->
  duplicate_with_rig_and_texture h s base_obj = (s, Return None).
Proof.
  intros h s base_obj H. unfold duplicate_with_rig_and_texture.
  destruct base_obj as [b|]; [|reflexivity].
  destruct H as [H|(ob & Hob & Hty)]; [discriminate|].
  cbn [object_data] in Hob. rewrite Hob, Hty. reflexivity.
Qed.

Lemma duplicate_rejects_witness :
  (Some 0%nat = None \/
   (exists ob, object_data ex_rigged_session (Some 0%nat) = Some ob /\
               String.eqb (ob_type ob) "MESH" = false)) /\
  duplicate_with_rig_and_texture ex_host ex_rigged_session (Some 0%nat)
    = (ex_rigged_session, Return None).
Proof.
  assert (H : exists ob, object_data ex_rigged_session (Some 0%nat) = Some ob /\
                         String.eqb (ob_type ob) "MESH" = false).
  { exists ex_rig. split; reflexivity. }
  split; [right; exact H|].
  apply (duplicate_rejects ex_host ex_rigged_session (Some 0%nat)).
  right; exact H.
Defined.

Lemma duplicate_object_at h s b base base_me :
  nth_error (objects s) b = Some base ->
  String.eqb (ob_type base) "MESH" = true ->
  ob_data base = Some base_me ->
  nth_error (objects (fst (duplicate_with_rig_and_texture h s (Some b))))
            (length (objects s)) = Some (duplicate_of h s base) /\
  nth_error (objects (fst (duplicate_with_rig_and_texture h s (Some b)))) b
    = Some (set_location_x (Single.sub (location_x base) two) base) /\
  (forall o, o <> b -> (o < length (objects s))%nat ->
     nth_error (objects (fst (duplicate_with_rig_and_texture h s (Some b)))) o
     = nth_error (objects s) o).
Proof.
  intros Hb Hty Hme.
  destruct (duplicate_result h s b base base_me Hb Hty Hme) as (_ & Ho & _).
  assert (Hlt : (b < length (objects s))%nat).
  { apply nth_error_Some. rewrite Hb. discriminate. }
  rewrite Ho. refine (conj _ (conj _ _)).
  - rewrite <- (length_list_update (objects s) b
                  (set_location_x (Single.sub (location_x base) two))) at 1.
    now rewrite nth_error_app_length.
  - rewrite nth_error_app1 by (rewrite length_list_update; exact Hlt).
    now rewrite nth_error_list_update, Nat.eqb_refl, Hb.
  - intros o Hne Hlo.
    rewrite nth_error_app1 by (rewrite length_list_update; exact Hlo).
    rewrite nth_error_list_update.
    destruct (Nat.eqb b o) eqn:E; [|reflexivity].
    apply Nat.eqb_eq in E. congruence.
Qed.

Lemma new_mesh_id_unused s o ob :
  nth_error (objects s) o = Some ob -> ob_data ob <> Some (new_mesh_id s).
Proof.
  intros Ho E. pose proof (data_id_below_new_mesh_id s o ob Ho) as Hlt.
  unfold data_id in Hlt. rewrite E in Hlt. lia.
Qed.

(** X19.  The duplicate of a mesh object with mesh data is a new object
    with a mesh datablock of its own, shared with no earlier object, whose
    material slots are those of the base object's mesh, slot by slot.  No
    material is created: the duplicate links the very materials of the
    base.  Every other mesh keeps its slots, and the new object is linked
    to the scene.  Its name is the one the host gives when asked for
    "<name>_Variant"; it is "<name>_Variant" itself when the host's naming
    rule keeps free names and no object bears that name, which is within
    the length limit. *)
Theorem duplicate_has_own_mesh :
  forall h s b base base_me,
  nth_error (objects s) b = Some base ->
  String.eqb (ob_type base) "MESH" = true ->
  ob_data base = Some base_me ->
  snd (duplicate_with_rig_and_texture h s (Some b))
    = Return (Some (length (objects s))) /\
  exists variant me,
    nth_error (objects (fst (duplicate_with_rig_and_texture h s (Some b))))
              (length (objects s)) = Some variant /\
    ob_name variant = variant_name s base /\
    ob_type variant = ob_type base /\
    ob_data variant = Some me /\
    (forall o ob, nth_error (objects s) o = Some ob -> ob_data ob <> Some me) /\
    mesh_materials (bpy_data (fst (duplicate_with_rig_and_texture h s (Some b)))) me
      = mesh_materials (bpy_data s) base_me /\
    (forall k, k <> me ->
       mesh_materials (bpy_data (fst (duplicate_with_rig_and_texture h s (Some b)))) k
       = mesh_materials (bpy_data s) k) /\
    materials (bpy_data (fst (duplicate_with_rig_and_texture h s (Some b))))
      = materials (bpy_data s) /\
    scene_objects (fst (duplicate_with_rig_and_texture h s (Some b)))
      = scene_objects s ++ [length (objects s)] /\
    (keeps_free_names (unique_name (bpy_data s)) ->
     (String.length (ob_name base ++ "_Variant") <= name_limit)%nat ->
     ~ In (ob_name base ++ "_Variant")%string (object_names s) ->
     ob_name variant = (ob_name base ++ "_Variant")%string).
Proof.
  intros h s b base base_me Hb Hty Hme.
  destruct (duplicate_result h s b base base_me Hb Hty Hme)
    as (Hr & _ & Hm & _ & Hs & Hsc & _).
  destruct (duplicate_object_at h s b base base_me Hb Hty Hme) as (Hv & _ & _).
  split; [exact Hr|].
  exists (duplicate_of h s base), (new_mesh_id s).
  refine (conj Hv (conj eq_refl (conj eq_refl (conj eq_refl (conj _ (conj _
            (conj _ (conj Hm (conj Hsc _))))))))).
  - intros o ob Ho. exact (new_mesh_id_unused s o ob Ho).
  - rewrite Hs. now rewrite Nat.eqb_refl.
  - intros k Hk. rewrite Hs. apply Nat.eqb_neq in Hk. now rewrite Hk.
  - intros Hrule Hlen Hfree. cbn [duplicate_of ob_name]. unfold variant_name.
    now apply Hrule.
Qed.

Lemma duplicate_has_own_mesh_witness :
  nth_error (objects ex_pair_session) 0 = Some ex_pair_base /\
  String.eqb (ob_type ex_pair_base) "MESH" = true /\
  ob_data ex_pair_base = Some 0%nat /\
  variant_name ex_pair_session ex_pair_base = "Cube_Variant.001" /\
  snd (duplicate_with_rig_and_texture ex_host ex_pair_session (Some 0%nat))
    = Return (Some (length (objects ex_pair_session))) /\
  exists variant me,
    nth_error (objects (fst (duplicate_with_rig_and_texture ex_host ex_pair_session
                               (Some 0%nat))))
              (length (objects ex_pair_session)) = Some variant /\
    ob_name variant = variant_name ex_pair_session ex_pair_base /\
    ob_type variant = ob_type ex_pair_base /\
    ob_data variant = Some me /\
    (forall o ob, nth_error (objects ex_pair_session) o = Some ob ->
                  ob_data ob <> Some me) /\
    mesh_materials (bpy_data (fst (duplicate_with_rig_and_texture ex_host ex_pair_session
                                     (Some 0%nat)))) me
      = mesh_materials (bpy_data ex_pair_session) 0 /\
    (forall k, k <> me ->
       mesh_materials (bpy_data (fst (duplicate_with_rig_and_texture ex_host
                                        ex_pair_session (Some 0%nat)))) k
       = mesh_materials (bpy_data ex_pair_session) k) /\
    materials (bpy_data (fst (duplicate_with_rig_and_texture ex_host ex_pair_session
                                (Some 0%nat))))
      = materials (bpy_data ex_pair_session) /\
    scene_objects (fst (duplicate_with_rig_and_texture ex_host ex_pair_session (Some 0%nat)))
      = scene_objects ex_pair_session ++ [length (objects ex_pair_session)] /\
    (keeps_free_names (unique_name (bpy_data ex_pair_session)) ->
     (String.length (ob_name ex_pair_base ++ "_Variant") <= name_limit)%nat ->
     ~ In (ob_name ex_pair_base ++ "_Variant")%string (object_names ex_pair_session) ->
     ob_name variant = (ob_name ex_pair_base ++ "_Variant")%string).
Proof.
  split; [reflexivity|]. split; [reflexivity|]. split; [reflexivity|].
  split; [reflexivity|].
  apply (duplicate_has_own_mesh ex_host ex_pair_session 0%nat ex_pair_base 0%nat);
    reflexivity.
Defined.

(** X20.  Spacing is relative, not absolute, and in single precision: the
    base object's X becomes its old X minus 2, rounded, and the duplicate's
    X the moved base's X plus 4, rounded, both at the base's Y and Z.  A
    base at X = 0 gives X = -2 and X = +2.  A base at X = 100000000 does
    not move, its neighbours in single precision being 8 apart.  No other
    object moves. *)
Theorem duplicate_spacing :
  forall h s b base base_me,
  nth_error (objects s) b = Some base ->
  String.eqb (ob_type base) "MESH" = true ->
  ob_data base = Some base_me ->
  exists base' variant,
    nth_error (objects (fst (duplicate_with_rig_and_texture h s (Some b)))) b
      = Some base' /\
    nth_error (objects (fst (duplicate_with_rig_and_texture h s (Some b))))
              (length (objects s)) = Some variant /\
    location_x base' = Single.sub (location_x base) two /\
    location_x variant = Single.add (location_x base') four /\
    snd (fst (ob_location base')) = snd (fst (ob_location base)) /\
    snd (ob_location base') = snd (ob_location base) /\
    snd (fst (ob_location variant)) = snd (fst (ob_location base)) /\
    snd (ob_location variant) = snd (ob_location base) /\
    (location_x base = Single.zero ->
     location_x base' = Single.of_Z (-2) /\ location_x variant = Single.of_Z 2) /\
    (location_x base = Single.of_Z 100000000 ->
     location_x base' = location_x base) /\
    (forall o, o <> b -> (o < length (objects s))%nat ->
       nth_error (objects (fst (duplicate_with_rig_and_texture h s (Some b)))) o
       = nth_error (objects s) o).
Proof.
  intros h s b base base_me Hb Hty Hme.
  destruct (duplicate_object_at h s b base base_me Hb Hty Hme) as (Hv & Hb' & Hothers).
  exists (set_location_x (Single.sub (location_x base) two) base),
         (duplicate_of h s base).
  refine (conj Hb' (conj Hv _)).
  unfold duplicate_of, set_location_x, location_x.
  cbn [ob_location fst snd].
  refine (conj eq_refl (conj eq_refl (conj eq_refl (conj eq_refl (conj eq_refl
            (conj eq_refl (conj _ (conj _ Hothers)))))))).
  - intros ->. split; vm_compute; reflexivity.
  - intros ->. vm_compute. reflexivity.
Qed.

Lemma duplicate_spacing_witness :
  nth_error (objects ex_session) 0 = Some ex_cube /\
  String.eqb (ob_type ex_cube) "MESH" = true /\
  ob_data ex_cube = Some 0%nat /\
  exists base' variant,
    nth_error (objects (fst (duplicate_with_rig_and_texture ex_host ex_session
                               (Some 0%nat)))) 0
      = Some base' /\
    nth_error (objects (fst (duplicate_with_rig_and_texture ex_host ex_session
                               (Some 0%nat))))
              (length (objects ex_session)) = Some variant /\
    location_x base' = Single.sub (location_x ex_cube) two /\
    location_x variant = Single.add (location_x base') four /\
    snd (fst (ob_location base')) = snd (fst (ob_location ex_cube)) /\
    snd (ob_location base') = snd (ob_location ex_cube) /\
    snd (fst (ob_location variant)) = snd (fst (ob_location ex_cube)) /\
    snd (ob_location variant) = snd (ob_location ex_cube) /\
    (location_x ex_cube = Single.zero ->
     location_x base' = Single.of_Z (-2) /\ location_x variant = Single.of_Z 2) /\
    (location_x ex_cube = Single.of_Z 100000000 ->
     location_x base' = location_x ex_cube) /\
    (forall o, o <> 0%nat -> (o < length (objects ex_session))%nat ->
       nth_error (objects (fst (duplicate_with_rig_and_texture ex_host ex_session
                                  (Some 0%nat)))) o
       = nth_error (objects ex_session) o).
Proof.
  split; [reflexivity|]. split; [reflexivity|]. split; [reflexivity|].
  apply (duplicate_spacing ex_host ex_session 0%nat ex_cube 0%nat); reflexivity.
Defined.

Lemma copy_modifiers_length h mods :
  forall acc, (length (copy_modifiers h mods acc) <= length acc + length mods)%nat.
Proof.
  induction mods as [|m rest IH]; intros acc; cbn [copy_modifiers length].
  - lia.
  - destruct (modifiers_new h acc (mod_name m) (mod_type m)).
    + specialize (IH (acc ++ [copy_attributes h m m0])).
      rewrite length_app in IH. cbn [length] in IH. lia.
    + specialize (IH acc). lia.
Qed.

Lemma copy_modifiers_all h mods :
  (forall acc n t, modifiers_new h acc n t <> None) ->
  forall acc, length (copy_modifiers h mods acc) = (length acc + length mods)%nat.
Proof.
  intros Hall. induction mods as [|m rest IH]; intros acc;
    cbn [copy_modifiers length].
  - lia.
  - destruct (modifiers_new h acc (mod_name m) (mod_type m)) eqn:E.
    + rewrite IH, length_app. cbn [length]. lia.
    + exfalso. exact (Hall _ _ _ E).
Qed.

(** X21.  The duplicate of a mesh object with mesh data keeps the base
    object's parent in every case.  Its modifiers are the base object's own
    unless the parent is an armature; then they are rebuilt one by one, a
    modifier the host refuses to create is dropped without failing the
    call, so the duplicate has at most as many modifiers as the base, and
    exactly as many when the host refuses none. *)
Theorem duplicate_rig :
  forall h s b base base_me,
  nth_error (objects s) b = Some base ->
  String.eqb (ob_type base) "MESH" = true ->
  ob_data base = Some base_me ->
  snd (duplicate_with_rig_and_texture h s (Some b))
    = Return (Some (length (objects s))) /\
  exists variant,
    nth_error (objects (fst (duplicate_with_rig_and_texture h s (Some b))))
              (length (objects s)) = Some variant /\
    ob_parent variant = ob_parent base /\
    (parent_is_armature s base = false -> ob_modifiers variant = ob_modifiers base) /\
    (parent_is_armature s base = true ->
       ob_modifiers variant = copy_modifiers h (ob_modifiers base) []) /\
    (length (ob_modifiers variant) <= length (ob_modifiers base))%nat /\
    ((forall acc n t, modifiers_new h acc n t <> None) ->
       length (ob_modifiers variant) = length (ob_modifiers base)).
Proof.
  intros h s b base base_me Hb Hty Hme.
  destruct (duplicate_result h s b base base_me Hb Hty Hme) as (Hr & _).
  destruct (duplicate_object_at h s b base base_me Hb Hty Hme) as (Hv & _ & _).
  split; [exact Hr|].
  exists (duplicate_of h s base).
  refine (conj Hv (conj eq_refl _)).
  cbn [duplicate_of ob_modifiers].
  destruct (parent_is_armature s base).
  - refine (conj _ (conj _ (conj _ _))).
    + discriminate.
    + reflexivity.
    + pose proof (copy_modifiers_length h (ob_modifiers base) []) as H.
      cbn [length] in H. lia.
    + intros Hall. rewrite (copy_modifiers_all h _ Hall). reflexivity.
  - refine (conj _ (conj _ (conj _ _))).
    + reflexivity.
    + discriminate.
    + lia.
    + reflexivity.
Qed.

Lemma duplicate_rig_witness :
  nth_error (objects ex_rigged_session) 1 = Some ex_body /\
  String.eqb (ob_type ex_body) "MESH" = true /\
  ob_data ex_body = Some 1%nat /\
  snd (duplicate_with_rig_and_texture ex_host ex_rigged_session (Some 1%nat))
    = Return (Some (length (objects ex_rigged_session))) /\
  exists variant,
    nth_error (objects (fst (duplicate_with_rig_and_texture ex_host ex_rigged_session
                               (Some 1%nat))))
              (length (objects ex_rigged_session)) = Some variant /\
    ob_parent variant = ob_parent ex_body /\
    (parent_is_armature ex_rigged_session ex_body = false ->
       ob_modifiers variant = ob_modifiers ex_body) /\
    (parent_is_armature ex_rigged_session ex_body = true ->
       ob_modifiers variant = copy_modifiers ex_host (ob_modifiers ex_body) []) /\
    (length (ob_modifiers variant) <= length (ob_modifiers ex_body))%nat /\
    ((forall acc n t, modifiers_new ex_host acc n t <> None) ->
       length (ob_modifiers variant) = length (ob_modifiers ex_body)).
Proof.
  split; [reflexivity|]. split; [reflexivity|]. split; [reflexivity|].
  apply (duplicate_rig ex_host ex_rigged_session 1%nat ex_body 1%nat); reflexivity.
Defined.

(** ** The pair and its remaps, end to end *)

(** The session [create_base_material_with_texture] leaves when nothing
    raises. *)
Lemma create_base_material_result h s o ob me col :
  nth_error (objects s) o = Some ob ->
  String.eqb (ob_type ob) "MESH" = true ->
  ob_data ob = Some me ->
  can_save h s ob ->
  paint_ready h s ->
  snd (create_base_material_with_texture h s (Some o) col)
    = Return (Some (length (materials (bpy_data s))), Some (base_image_name s ob)) /\
  materials (bpy_data (fst (create_base_material_with_texture h s (Some o) col)))
    = materials (bpy_data s) ++ [base_material_of s ob] /\
  unique_name (bpy_data (fst (create_base_material_with_texture h s (Some o) col)))
    = unique_name (bpy_data s) /\
  (forall k,
     mesh_materials
       (bpy_data (fst (create_base_material_with_texture h s (Some o) col))) k
     = if Nat.eqb k me
       then Some (length (materials (bpy_data s)))
            :: tl (mesh_materials (bpy_data s) me)
       else mesh_materials (bpy_data s) k) /\
  objects (fst (create_base_material_with_texture h s (Some o) col)) = objects s /\
  scene_objects (fst (create_base_material_with_texture h s (Some o) col))
    = scene_objects s /\
  active_object (fst (create_base_material_with_texture h s (Some o) col))
    = active_object s /\
  remap_list (fst (create_base_material_with_texture h s (Some o) col))
    = remap_list s /\
  reports (fst (create_base_material_with_texture h s (Some o) col)) = reports s.
Proof.
  intros Hob Hty Hme Hsave (ob0 & Hact & Htp & Hom).
  destruct (create_base_material_steps h s o ob me col Hob Hty Hme Hsave)
    as (before & Hrun & Hm & Hu & Hs & Ho & Hsc & Ha & Hrl & Hrp & Hn & Hl).
  assert (Hact' : object_data before (active_object before) = Some ob0).
  { unfold object_data in *. now rewrite Ha, Ho. }
  rewrite (prepare_texture_paint_ok h _ before ob0 Hact' Htp Hom) in Hrun.
  rewrite Hrun.
  cbn [fst snd set_mode set_canvas bpy_data objects scene_objects active_object
       remap_list reports].
  change (image_name (set_mode "OBJECT"
                        (set_canvas (base_image_name s ob)
                           (set_mode "TEXTURE_PAINT" before)))
                     (length (images s)))
    with (image_name before (length (images s))).
  rewrite Hn.
  exact (conj eq_refl (conj Hm (conj Hu (conj Hs (conj Ho (conj Hsc
           (conj Ha (conj Hrl Hrp)))))))).
Qed.

Lemma duplicate_of_same_objects h s s' base :
  objects s' = objects s ->
  unique_name (bpy_data s') = unique_name (bpy_data s) ->
  duplicate_of h s' base = duplicate_of h s base.
Proof.
  intros Ho Hu.
  unfold duplicate_of, variant_name, object_names, new_mesh_id, parent_is_armature.
  now rewrite Ho, Hu.
Qed.

Lemma can_save_same h s s' ob :
  directories s' = directories s -> files s' = files s ->
  can_save h s ob -> can_save h s' ob.
Proof.
  intros Hd Hf [H1 H2]. split; [|exact H2].
  unfold path_exists in *. now rewrite Hd, Hf.
Qed.

Lemma create_pair_result h s b base base_me :
  active_object s = Some b ->
  nth_error (objects s) b = Some base ->
  String.eqb (ob_type base) "MESH" = true ->
  ob_data base = Some base_me ->
  can_save h s base ->
  paint_ready h s ->
  snd (create_textured_duplicate_with_spacing h s)
    = Return (Some b, Some (length (objects s))) /\
  objects (fst (create_textured_duplicate_with_spacing h s))
    = list_update (objects s) b
        (set_location_x (Single.sub (location_x base) two))
      ++ [duplicate_of h s base] /\
  materials (bpy_data (fst (create_textured_duplicate_with_spacing h s)))
    = materials (bpy_data s) ++ [base_material_of s base] /\
  (forall k,
     mesh_materials (bpy_data (fst (create_textured_duplicate_with_spacing h s))) k
     = if Nat.eqb k (new_mesh_id s) || Nat.eqb k base_me
       then Some (length (materials (bpy_data s)))
            :: tl (mesh_materials (bpy_data s) base_me)
       else mesh_materials (bpy_data s) k) /\
  scene_objects (fst (create_textured_duplicate_with_spacing h s))
    = scene_objects s ++ [length (objects s)] /\
  active_object (fst (create_textured_duplicate_with_spacing h s)) = Some b /\
  remap_list (fst (create_textured_duplicate_with_spacing h s)) = remap_list s /\
  reports (fst (create_textured_duplicate_with_spacing h s)) = reports s.
Proof.
  intros Ha Hb Hty Hme Hsave Hready.
  unfold create_textured_duplicate_with_spacing.
  rewrite Ha, Hb, Hty. cbn [negb].
  pose proof (create_base_material_result h s b base base_me
                (RGBA (8/10) (8/10) (8/10) 1) Hb Hty Hme Hsave Hready) as Hc.
  destruct (create_base_material_with_texture h s (Some b)
              (RGBA (8/10) (8/10) (8/10) 1)) as [s1 [[m1 i1]|e]];
    cbn [fst snd] in Hc;
    destruct Hc as (Hr & Hm & Hu & Hs & Ho & Hsc & Hact & Hrl & Hrp);
    [|discriminate Hr].
  inversion Hr; subst m1 i1.
  assert (Hb1 : nth_error (objects s1) b = Some base) by now rewrite Ho.
  pose proof (duplicate_result h s1 b base base_me Hb1 Hty Hme) as Hd.
  destruct (duplicate_with_rig_and_texture h s1 (Some b)) as [s2 [dup|e]];
    cbn [fst snd] in Hd;
    destruct Hd as (Hdup & Ho2 & Hm2 & Hu2 & Hs2 & Hsc2 & Hact2 & Hrl2 & Hrp2 & _);
    [|discriminate Hdup].
  inversion Hdup; subst dup. cbn [fst snd].
  rewrite Ho2, Hm2, Hsc2, Hact2, Hrl2, Hrp2, Hm, Ho, Hsc, Hact, Hrl, Hrp, Ha.
  rewrite (duplicate_of_same_objects h s s1 base Ho Hu).
  refine (conj eq_refl (conj eq_refl (conj eq_refl (conj _
            (conj eq_refl (conj eq_refl (conj eq_refl eq_refl))))))).
  intros k. rewrite Hs2.
  assert (Hn : new_mesh_id s1 = new_mesh_id s)
    by (unfold new_mesh_id; now rewrite Ho).
  rewrite Hn, !Hs, Nat.eqb_refl.
  destruct (Nat.eqb k (new_mesh_id s)); reflexivity.
Qed.

(** X22.  "Create Textured Pair" without a selected object, or with a
    selected object that is not a mesh, is cancelled: nothing is created
    and the session is as before but for one error report. *)
Theorem ui_create_pair_cancelled :
  forall h s,
  active_object s = None \/
  (exists ob, object_data s (active_object s) = Some ob /\
              String.eqb (ob_type ob) "MESH" = false) ->
  create_textured_duplicate_with_spacing h s = (s, Return (None, None)) /\
  LV_OT_CreateBaseAndVariant_execute h s
    = (report ERROR "Failed to create pair — check selection." s, Return CANCELLED).
Proof.
  intros h s H.
  assert (E : create_textured_duplicate_with_spacing h s = (s, Return (None, None))).
  { unfold create_textured_duplicate_with_spacing.
    destruct H as [H|(ob & Hob & Hty)].
    - now rewrite H.
    - destruct (active_object s) as [b|]; [|reflexivity].
      cbn [object_data] in Hob. now rewrite Hob, Hty. }
  split; [exact E|].
  unfold LV_OT_CreateBaseAndVariant_execute. rewrite E. reflexivity.
Qed.

Lemma ui_create_pair_cancelled_witness :
  (active_object ex_rig_selected = None \/
   (exists ob, object_data ex_rig_selected (active_object ex_rig_selected) = Some ob /\
               String.eqb (ob_type ob) "MESH" = false)) /\
  create_textured_duplicate_with_spacing ex_host ex_rig_selected
    = (ex_rig_selected, Return (None, None)) /\
  LV_OT_CreateBaseAndVariant_execute ex_host ex_rig_selected
    = (report ERROR "Failed to create pair — check selection." ex_rig_selected,
       Return CANCELLED).
Proof.
  assert (H : exists ob, object_data ex_rig_selected (active_object ex_rig_selected)
                           = Some ob /\
                         String.eqb (ob_type ob) "MESH" = false).
  { exists ex_rig. split; reflexivity. }
  split; [right; exact H|].
  apply (ui_create_pair_cancelled ex_host ex_rig_selected).
  right; exact H.
Defined.

Lemma create_pair_objects h s b base base_me :
  active_object s = Some b ->
  nth_error (objects s) b = Some base ->
  String.eqb (ob_type base) "MESH" = true ->
  ob_data base = Some base_me ->
  can_save h s base ->
  paint_ready h s ->
  nth_error (objects (fst (create_textured_duplicate_with_spacing h s))) b
    = Some (set_location_x (Single.sub (location_x base) two) base) /\
  nth_error (objects (fst (create_textured_duplicate_with_spacing h s)))
            (length (objects s))
    = Some (duplicate_of h s base) /\
  (forall i o, nth_error (objects s) i = Some o ->
     exists o', nth_error (objects (fst (create_textured_duplicate_with_spacing h s))) i
                  = Some o' /\ ob_name o' = ob_name o).
Proof.
  intros Ha Hb Hty Hme Hsave Hready.
  destruct (create_pair_result h s b base base_me Ha Hb Hty Hme Hsave Hready)
    as (_ & Ho & _).
  rewrite Ho.
  assert (Hlen : length (list_update (objects s) b
                           (set_location_x (Single.sub (location_x base) two)))
                 = length (objects s)) by apply length_list_update.
  refine (conj _ (conj _ _)).
  - rewrite nth_error_app_below
      by (rewrite Hlen; apply nth_error_Some; rewrite Hb; discriminate).
    rewrite nth_error_list_update, Nat.eqb_refl, Hb. reflexivity.
  - rewrite <- Hlen at 1. rewrite nth_error_app_length. reflexivity.
  - intros i o Hi.
    rewrite nth_error_app_below
      by (rewrite Hlen; apply nth_error_Some; rewrite Hi; discriminate).
    rewrite nth_error_list_update, Hi.
    destruct (Nat.eqb b i); eexists; split; reflexivity.
Qed.

Lemma ui_create_pair_session h s b base base_me :
  active_object s = Some b ->
  nth_error (objects s) b = Some base ->
  String.eqb (ob_type base) "MESH" = true ->
  ob_data base = Some base_me ->
  can_save h s base ->
  paint_ready h s ->
  LV_OT_CreateBaseAndVariant_execute h s
  = (report INFO ("Pair created: " ++ ob_name base ++ ", "
                  ++ variant_name s base)%string
            (fst (create_textured_duplicate_with_spacing h s)),
     Return FINISHED).
Proof.
  intros Ha Hb Hty Hme Hsave Hready.
  destruct (create_pair_result h s b base base_me Ha Hb Hty Hme Hsave Hready)
    as (Hr & _).
  destruct (create_pair_objects h s b base base_me Ha Hb Hty Hme Hsave Hready)
    as (Hb' & Hv & _).
  unfold LV_OT_CreateBaseAndVariant_execute.
  destruct (create_textured_duplicate_with_spacing h s) as [s2 [[bo vo]|e]];
    cbn [fst snd] in *; [|discriminate Hr].
  inversion Hr; subst bo vo.
  cbn [object_data]. rewrite Hb', Hv. reflexivity.
Qed.

Lemma base_material_color sample d o me m mt extra img :
  data o = Some me ->
  mesh_materials d me = Some m :: tl (mesh_materials d me) ->
  nth_error (materials d) m = Some mt ->
  use_nodes mt = true ->
  node_tree mt = base_material_tree img ->
  object_color (extra + 2) sample d o = Some (sample img).
Proof.
  intros Hme Hs Hm Hu Ht. unfold object_color.
  rewrite Hme, Hs, Hm, Hu, Ht. apply base_material_tree_surface.
Qed.

(** X23.  "Create Textured Pair" on a selected mesh object with mesh data,
    whose image file can be saved and which the host lets enter texture
    paint and object mode, finishes and reports the two names, the base
    object's and the one the host gave the duplicate.  The base object and
    the duplicate sit on two different meshes, and both show the texel of
    the new image unchanged.  The duplicate is named "<name>_Variant" when
    the host's naming rule keeps free names and no object bears that name,
    which is within the length limit. *)
Theorem ui_create_pair_finishes :
  forall h s b base base_me (sample : Image -> color) extra,
  active_object s = Some b ->
  nth_error (objects s) b = Some base ->
  String.eqb (ob_type base) "MESH" = true ->
  ob_data base = Some base_me ->
  can_save h s base ->
  paint_ready h s ->
  snd (LV_OT_CreateBaseAndVariant_execute h s) = Return FINISHED /\
  reports (fst (LV_OT_CreateBaseAndVariant_execute h s))
    = reports s ++ [(INFO, ("Pair created: " ++ ob_name base ++ ", "
                            ++ variant_name s base)%string)] /\
  exists base' variant,
    nth_error (objects (fst (LV_OT_CreateBaseAndVariant_execute h s))) b
      = Some base' /\
    nth_error (objects (fst (LV_OT_CreateBaseAndVariant_execute h s)))
              (length (objects s)) = Some variant /\
    ob_name base' = ob_name base /\
    ob_name variant = variant_name s base /\
    ob_data base' <> ob_data variant /\
    object_color (extra + 2) sample
      (bpy_data (fst (LV_OT_CreateBaseAndVariant_execute h s))) (to_object base')
      = Some (sample (base_image_name s base)) /\
    object_color (extra + 2) sample
      (bpy_data (fst (LV_OT_CreateBaseAndVariant_execute h s))) (to_object variant)
      = Some (sample (base_image_name s base)) /\
    (keeps_free_names (unique_name (bpy_data s)) ->
     (String.length (ob_name base ++ "_Variant") <= name_limit)%nat ->
     ~ In (ob_name base ++ "_Variant")%string (object_names s) ->
     ob_name variant = (ob_name base ++ "_Variant")%string).
Proof.
  intros h s b base base_me sample extra Ha Hb Hty Hme Hsave Hready.
  rewrite (ui_create_pair_session h s b base base_me Ha Hb Hty Hme Hsave Hready).
  cbn [fst snd report reports objects bpy_data].
  destruct (create_pair_result h s b base base_me Ha Hb Hty Hme Hsave Hready)
    as (_ & _ & Hm & Hs & _ & _ & _ & Hrp).
  destruct (create_pair_objects h s b base base_me Ha Hb Hty Hme Hsave Hready)
    as (Hb' & Hv & _).
  pose proof (new_mesh_id_unused s b base Hb) as Hnew.
  refine (conj eq_refl (conj _ _)).
  - now rewrite Hrp.
  - exists (set_location_x (Single.sub (location_x base) two) base),
           (duplicate_of h s base).
    refine (conj Hb' (conj Hv (conj eq_refl (conj eq_refl (conj _ (conj _
              (conj _ _))))))).
    + cbn [ob_data set_location_x duplicate_of]. exact Hnew.
    + apply (base_material_color sample _ _ base_me (length (materials (bpy_data s)))
               (base_material_of s base)).
      * exact Hme.
      * rewrite Hs, Nat.eqb_refl, orb_true_r. reflexivity.
      * rewrite Hm, nth_error_app_length. reflexivity.
      * reflexivity.
      * reflexivity.
    + apply (base_material_color sample _ _ (new_mesh_id s)
               (length (materials (bpy_data s))) (base_material_of s base)).
      * reflexivity.
      * rewrite Hs, Nat.eqb_refl. reflexivity.
      * rewrite Hm, nth_error_app_length. reflexivity.
      * reflexivity.
      * reflexivity.
    + intros Hrule Hlen Hfree. cbn [duplicate_of ob_name]. unfold variant_name.
      now apply Hrule.
Qed.

Lemma ui_create_pair_finishes_witness :
  active_object ex_session = Some 0%nat /\
  nth_error (objects ex_session) 0 = Some ex_cube /\
  String.eqb (ob_type ex_cube) "MESH" = true /\
  ob_data ex_cube = Some 0%nat /\
  can_save ex_host ex_session ex_cube /\
  paint_ready ex_host ex_session /\
  variant_name ex_session ex_cube = "Cube_Variant" /\
  base_image_name ex_session ex_cube = "Cube_BaseTex" /\
  snd (LV_OT_CreateBaseAndVariant_execute ex_host ex_session) = Return FINISHED /\
  reports (fst (LV_OT_CreateBaseAndVariant_execute ex_host ex_session))
    = reports ex_session
      ++ [(INFO, ("Pair created: " ++ ob_name ex_cube ++ ", "
                  ++ variant_name ex_session ex_cube)%string)] /\
  exists base' variant,
    nth_error (objects (fst (LV_OT_CreateBaseAndVariant_execute ex_host ex_session))) 0
      = Some base' /\
    nth_error (objects (fst (LV_OT_CreateBaseAndVariant_execute ex_host ex_session)))
              (length (objects ex_session)) = Some variant /\
    ob_name base' = ob_name ex_cube /\
    ob_name variant = variant_name ex_session ex_cube /\
    ob_data base' <> ob_data variant /\
    object_color (0 + 2) (fun _ => ex_yellow)
      (bpy_data (fst (LV_OT_CreateBaseAndVariant_execute ex_host ex_session)))
      (to_object base')
      = Some ((fun _ => ex_yellow) (base_image_name ex_session ex_cube)) /\
    object_color (0 + 2) (fun _ => ex_yellow)
      (bpy_data (fst (LV_OT_CreateBaseAndVariant_execute ex_host ex_session)))
      (to_object variant)
      = Some ((fun _ => ex_yellow) (base_image_name ex_session ex_cube)) /\
    (keeps_free_names (unique_name (bpy_data ex_session)) ->
     (String.length (ob_name ex_cube ++ "_Variant") <= name_limit)%nat ->
     ~ In (ob_name ex_cube ++ "_Variant")%string (object_names ex_session) ->
     ob_name variant = (ob_name ex_cube ++ "_Variant")%string).
Proof.
  split; [reflexivity|]. split; [reflexivity|]. split; [reflexivity|].
  split; [reflexivity|]. split; [exact ex_session_can_save|].
  split; [exact ex_session_paint_ready|].
  split; [reflexivity|]. split; [reflexivity|].
  apply (ui_create_pair_finishes ex_host ex_session 0%nat ex_cube 0%nat
           (fun _ => ex_yellow) 0);
    try reflexivity; [exact ex_session_can_save | exact ex_session_paint_ready].
Defined.








